(** * BlackRoom analytics: historical reconstruction and insight derivation

    A shallow embedding of the analytics service
    ([src/services/analyticsService.ts], both revisions kept in the
    repository) and of the edge function
    ([supabase/functions/get_event_analytics.ts]).

    The functions of the service are embedded twice.
    - In [Minute], [Edge], [Hourly] and [Live] a JavaScript [number] is an
      exact rational ([Q]), and an object is an association list in
      insertion order.  This embedding carries the properties that are
      ranges, bounds, counts, instants and paths of control.  The one unguarded
      division of the sources (edge function) returns a [jsnum], which has
      [NaN] and the infinities.
    - In [Minute64], [Hourly64] and [Live64] a [number] is an IEEE 754
      binary64 value (the primitive [float]): every operation rounds as the
      program's does, a comparison with NaN is false, [toFixed(2)] rounds
      the exact value of the binary64 number, and an object lists its keys
      in the enumeration order of JavaScript (array indices first, in
      ascending order, then the other keys in the order of their
      creation).  This embedding carries the properties that depend on the
      digits a computation yields, on a threshold it is compared with, or
      on the order of the keys.

    Modelling conventions of both.
    - A [Date] or an ISO timestamp is the number of milliseconds since the
      epoch ([Z]).  The minute key ["YYYY-MM-DDTHH:mm"] is the minute number
      [ms / 60000]; for years 0000 to 9999 the lexicographic order of the
      keys is the order of these numbers.  A date-time text without a zone
      is read in local time ([Minute64.localTime]).
    - What the code reads from its surroundings is an explicit argument: the
      responses of the store ([Supabase]), the clock ([now]), the local hour
      of a timestamp ([getHours]), [Math.random] (a stream of draws) and
      [Math.sin].  In [Minute64] the read of the event row inside the loop
      over the minutes is a read of its own in every turn. *)

From Stdlib Require Import QArith Qround Qabs Lqa Lia ZArith.
From Stdlib Require Floats.
From stdpp Require Import base option list strings sorting pretty.

Open Scope Q_scope.

(** ** JavaScript numbers and objects *)

Module Js.

(** [+(x).toFixed(2)]: the nearest multiple of 1/100, a tie going to the
    larger magnitude. *)
Definition toFixed2 (x : Q) : Q :=
  if Qlt_le_dec x 0 then - (Qfloor ((- x) * 100 + (1 # 2)) # 100)
  else Qfloor (x * 100 + (1 # 2)) # 100.

(** [x || d] on a possibly undefined number: [undefined] and [0] are falsy. *)
Definition or_num (x : option Q) (d : Q) : Q :=
  match x with
  | Some v => if Qeq_bool v 0 then d else v
  | None => d
  end.

(** [!x] on a possibly undefined number. *)
Definition falsy (x : option Q) : bool :=
  match x with
  | Some v => Qeq_bool v 0
  | None => true
  end.

(** [xs.reduce((sum, v) => sum + v, 0)] *)
Definition sum (xs : list Q) : Q := fold_left Qplus xs 0.

(** A count or an index as a number. *)
Definition num (n : nat) : Q := inject_Z (Z.of_nat n).

Definition Qmin (a b : Q) : Q := if Qlt_le_dec b a then b else a.
Definition Qmax (a b : Q) : Q := if Qlt_le_dec a b then b else a.

(** The result of a division that the code does not guard. *)
Inductive jsnum : Type :=
| Finite (q : Q)
| NaN
| PosInf
| NegInf.

Definition div (a b : Q) : jsnum :=
  if Qeq_bool b 0 then
    (if Qeq_bool a 0 then NaN
     else if Qlt_le_dec 0 a then PosInf else NegInf)
  else Finite (a / b).

Definition lift (f : Q -> Q) (x : jsnum) : jsnum :=
  match x with
  | Finite q => Finite (f q)
  | other => other
  end.

Section Obj.
Context {K : Type} `{EqDecision K} {V : Type}.

(** [o[k]] *)
Fixpoint get (o : list (K * V)) (k : K) : option V :=
  match o with
  | [] => None
  | (k', v) :: rest => if decide (k = k') then Some v else get rest k
  end.

(** [o[k] = v]: an existing key keeps its place, a new one goes last. *)
Fixpoint set (o : list (K * V)) (k : K) (v : V) : list (K * V) :=
  match o with
  | [] => [(k, v)]
  | (k', v') :: rest =>
      if decide (k = k') then (k', v) :: rest else (k', v') :: set rest k v
  end.

(** [k in o] *)
Definition has (o : list (K * V)) (k : K) : bool :=
  match get o k with Some _ => true | None => false end.

Definition keys (o : list (K * V)) : list K := o.*1.
Definition values (o : list (K * V)) : list V := o.*2.
End Obj.

Abbreviation obj K V := (list (K * V)).

(** [o[k]] where the code reads a key that [o] has: one taken from
    [Object.keys(o)], or the id of an option of the list [o] was filled
    from. *)
Definition at_key {K} `{EqDecision K} (o : obj K Q) (k : K) : Q :=
  default 0 (get o k).

(** [if (!o[k]) o[k] = 0; o[k] += x] *)
Definition bump {K} `{EqDecision K} (o : obj K Q) (k : K) (x : Q) : obj K Q :=
  let o1 := if falsy (get o k) then set o k 0 else o in
  set o1 k (at_key o1 k + x).

End Js.

Import Js.

(** ** The store *)

(** What a query of the store client resolves to: [{ data, error }]. *)
Record Response (A : Type) : Type := mkResponse {
  data : option A;
  error : option string
}.
Arguments mkResponse {A} _ _.
Arguments data {A} _.
Arguments error {A} _.

Definition ok {A} (a : A) : Response A := mkResponse (Some a) None.
Definition failed {A} (msg : string) : Response A := mkResponse None (Some msg).

(** [.single()]: exactly one row, otherwise an error and no data. *)
Definition single {A} (rows : list A) : Response A :=
  match rows with
  | [row] => ok row
  | _ => failed "PGRST116"
  end.

(** ** Minute-bucketed variant (first revision of analyticsService.ts) *)

Module Minute.

Record BetOption : Type := {
  id : string;
  event_id : string;
  label : string;
  total_bets : Q;
  bettors : Q
}.

Record BettingEvent : Type := {
  ev_id : string;
  title : string;
  total_pool : Q;
  participant_count : Q;
  status : string
}.

Record BetData : Type := {
  option_id : string;
  amount : Q;
  placed_at : Z;
  user_id : string
}.

Record AnalyticsDataPoint : Type := {
  timestamp : Z;
  percentages : obj string Q;
  totalPool : Q;
  participantCount : Q;
  totalBets : option (obj string Q);
  velocity : option Q;
  bettingVelocity : option Q;
  momentum : option (obj string Q)
}.

Record OptionMetadata : Type := {
  om_id : string;
  om_label : string;
  om_color : string
}.

(** The tables behind the client, and the queries the service issues. *)
Record Supabase : Type := {
  (* from('bets').select(..).eq('event_id', id).order('placed_at') *)
  bets_of : string -> Response (list BetData);
  (* from('events').select(..).eq('id', id).single() *)
  event_of : string -> Response BettingEvent;
  (* from('bet_options').select('*').eq('event_id', id).order('label') *)
  options_of : string -> Response (list BetOption);
  (* from('bet_options').select('*').eq('event_id', id) *)
  options_unordered_of : string -> Response (list BetOption);
  (* from('bets').select('*').eq('event_id', id).gte('placed_at', t) *)
  bets_since : string -> Z -> Response (list BetData)
}.

(** [new Date(placed_at).toISOString().slice(0, 16)] *)
Definition timeKey (placed_at : Z) : Z := (placed_at / 60000)%Z.

(** The body of [bets.forEach] that fills [timeMap]. *)
Definition addBet (timeMap : obj Z (obj string Q)) (bet : BetData)
  : obj Z (obj string Q) :=
  let k := timeKey (placed_at bet) in
  let o := option_id bet in
  let timeMap1 := if has timeMap k then timeMap else set timeMap k [] in
  let slot := default [] (get timeMap1 k) in
  set timeMap1 k (bump slot o (amount bet)).

Definition buildTimeMap (bets : list BetData) : obj Z (obj string Q) :=
  fold_left addBet bets [].

(** [Object.keys(timeMap).sort()] *)
Definition timeBuckets (timeMap : obj Z (obj string Q)) : list Z :=
  merge_sort Z.le (keys timeMap).

(** "Update cumulative totals": one pass over the keys of the bucket. *)
Definition addPool (cumulativeData poolPerOption : obj string Q)
  : obj string Q :=
  fold_left
    (fun cum optionId => bump cum optionId (at_key poolPerOption optionId))
    (keys poolPerOption) cumulativeData.

(** "Ensure all options have a percentage (even if 0)" *)
Definition fill (optionsData : list BetOption) (percentages : obj string Q)
  : obj string Q :=
  fold_left
    (fun pct option => if has pct (id option) then pct
                       else set pct (id option) 0)
    optionsData percentages.

(** The object [percentages] of one turn. *)
Definition percentagesOf (cumulativeData : obj string Q)
    (optionsData : list BetOption) : obj string Q :=
  let total := sum (values cumulativeData) in
  let shares :=
    fold_left
      (fun pct optionId =>
         set pct optionId
           (if Qlt_le_dec 0 total
            then toFixed2 (at_key cumulativeData optionId / total * 100)
            else 0))
      (keys cumulativeData) [] in
  fill optionsData shares.

(** One turn of [for (const time of timeBuckets)].  The state is the
    object [cumulativeData] and the array built so far. *)
Definition bucketStep (timeMap : obj Z (obj string Q))
    (optionsData : list BetOption) (currentEvent : option BettingEvent)
    (st : obj string Q * list AnalyticsDataPoint) (time : Z)
  : obj string Q * list AnalyticsDataPoint :=
  let '(cumulativeData, historicalData) := st in
  let poolPerOption := default [] (get timeMap time) in
  let cumulativeData := addPool cumulativeData poolPerOption in
  let total := sum (values cumulativeData) in
  (cumulativeData,
   historicalData ++
     [{| timestamp := time * 60000;
         percentages := percentagesOf cumulativeData optionsData;
         totalPool := or_num (total_pool <$> currentEvent) total;
         participantCount := or_num (participant_count <$> currentEvent) 0;
         totalBets := Some cumulativeData;
         velocity := Some 0;
         bettingVelocity := None;
         momentum := None |}]).

Definition optionColors : list string :=
  ["#16a34a"; "#dc2626"; "#facc15"; "#3b82f6"; "#8b5cf6"].

Definition optionMetadata (optionsData : list BetOption) : list OptionMetadata :=
  imap (fun idx opt =>
          {| om_id := id opt; om_label := label opt;
             om_color := default "" (optionColors !! (idx mod 5)%nat) |})
       optionsData.

(** [generateOptimizedHistoricalData].  Every pushed point stores a
    reference to the one object [cumulativeData], which later turns keep
    updating: in the returned array each [totalBets] reads the final
    totals. *)
Definition generateOptimizedHistoricalData (db : Supabase) (eventId : string)
    (bets : list BetData) (optionsData : list BetOption)
  : list AnalyticsDataPoint * list OptionMetadata :=
  let timeMap := buildTimeMap bets in
  let currentEvent := data (event_of db eventId) in
  let '(cumulativeData, historicalData) :=
    fold_left (bucketStep timeMap optionsData currentEvent)
              (timeBuckets timeMap) ([], []) in
  (map (fun point =>
          {| timestamp := timestamp point;
             percentages := percentages point;
             totalPool := totalPool point;
             participantCount := participantCount point;
             totalBets := Some cumulativeData;
             velocity := velocity point;
             bettingVelocity := bettingVelocity point;
             momentum := momentum point |}) historicalData,
   optionMetadata optionsData).

Inductive Volatility : Type := Low | Medium | High.
Inductive Trend : Type := Rising | Falling | Stable.

(** The insights object, without [peakBettingTime] (the text
    [`${peakHour}:00`] of [peakBettingHour]). *)
Record Insights : Type := {
  leadingOption : string;
  volatility : Volatility;
  trend : Trend;
  peakBettingHour : nat;
  averageVelocity : Q;
  totalBettingVelocity : Q;
  volatilityScore : Q;
  trendingOption : string;
  lastMajorShift : option Z
}.

#[global] Instance AnalyticsDataPoint_inhabited : Inhabited AnalyticsDataPoint :=
  populate {| timestamp := 0; percentages := []; totalPool := 0;
              participantCount := 0; totalBets := None; velocity := None;
              bettingVelocity := None; momentum := None |}.

(** [point.percentages[optionId] || 0] *)
Definition pct (point : AnalyticsDataPoint) (optionId : string) : Q :=
  or_num (get (percentages point) optionId) 0.

(** [options.reduce((prev, current) => ...)] without an initial value,
    on a non-empty array. *)
Definition reduce1 {A} (f : A -> A -> A) (first : A) (rest : list A) : A :=
  fold_left f rest first.

Definition leading (first : BetOption) (rest : list BetOption) : BetOption :=
  reduce1 (fun prev current =>
             if Qlt_le_dec (total_bets prev) (total_bets current)
             then current else prev) first rest.

Definition len {A} (l : list A) : Q := num (length l).

(** "Calculate volatility based on percentage changes" *)
Definition volatilityOf (leadingId : string)
    (historicalData : list AnalyticsDataPoint) : Volatility * Q :=
  if decide (1 < length historicalData)%nat then
    let changes :=
      imap (fun index point =>
              Qabs (pct point leadingId
                    - pct (historicalData !!! index) leadingId))
           (drop 1 historicalData) in
    let avgChange := sum changes / len changes in
    (if Qlt_le_dec 10 avgChange then High
     else if Qlt_le_dec 5 avgChange then Medium else Low,
     Qmin 100 (avgChange * 10))
  else (Low, 0).

(** "Calculate trend" *)
Definition trendOf (leadingId : string)
    (historicalData : list AnalyticsDataPoint) : Trend :=
  if decide (2 < length historicalData)%nat then
    let recent := drop (length historicalData - 3) historicalData in
    let leadingPercentages := map (fun point => pct point leadingId) recent in
    let firstPercentage := default 0 (leadingPercentages !! 0%nat) in
    let lastPercentage :=
      default 0 (leadingPercentages !! (length leadingPercentages - 1)%nat) in
    let change := lastPercentage - firstPercentage in
    if Qlt_le_dec 2 change then Rising
    else if Qlt_le_dec change (-2) then Falling else Stable
  else Stable.

(** "Find peak betting hour": [hourlyBets[hour]++] over the bets, then
    [hourlyBets.indexOf(Math.max(...hourlyBets))]. *)
Definition peakHourOf (getHours : Z -> nat) (bets : list BetData) : nat :=
  let hourlyBets :=
    fold_left
      (fun hourly bet =>
         let hour := getHours (placed_at bet) in
         <[hour := S (default 0%nat (hourly !! hour))]> hourly)
      bets (replicate 24 0%nat) in
  let most := foldr Nat.max 0%nat hourlyBets in
  default 0%nat (fst <$> list_find (fun count => count = most) hourlyBets).

(** "Calculate average velocity" *)
Definition averageVelocityOf (historicalData : list AnalyticsDataPoint) : Q :=
  let velocities := omap velocity historicalData in
  if decide (0 < length velocities)%nat
  then sum velocities / len velocities else 0.

(** "Find trending option": the first option with the largest percentage
    in the latest point. *)
Definition trending (historicalData : list AnalyticsDataPoint)
    (first : BetOption) (rest : list BetOption) : BetOption :=
  let latest (optionId : string) : Q :=
    or_num (last historicalData ≫= fun latestData =>
              get (percentages latestData) optionId) 0 in
  reduce1 (fun prev current =>
             if Qlt_le_dec (latest (id prev)) (latest (id current))
             then current else prev) first rest.

(** "Find last major shift (>5% change in leading option)": the loop
    [for (let i = historicalData.length - 1; i > 0; i--)], entered at [i].
    The reported [Date] is read back from the timestamp of point [i]. *)
Fixpoint scanShift (leadingId : string)
    (historicalData : list AnalyticsDataPoint) (i : nat) : option Z :=
  match i with
  | O => None
  | S j =>
      let current := pct (historicalData !!! i) leadingId in
      let previous := pct (historicalData !!! j) leadingId in
      if Qlt_le_dec 5 (Qabs (current - previous))
      then Some (timestamp (historicalData !!! i))
      else scanShift leadingId historicalData j
  end.

Definition lastMajorShiftOf (leadingId : string)
    (historicalData : list AnalyticsDataPoint) : option Z :=
  scanShift leadingId historicalData (length historicalData - 1).

Definition calculateEnhancedInsights (getHours : Z -> nat)
    (options : list BetOption) (historicalData : list AnalyticsDataPoint)
    (bets : list BetData) : Insights :=
  match options with
  | [] =>
      {| leadingOption := "No options available";
         volatility := Low;
         trend := Stable;
         peakBettingHour := 0;
         averageVelocity := 0;
         totalBettingVelocity := 0;
         volatilityScore := 0;
         trendingOption := "No options available";
         lastMajorShift := None |}
  | first :: rest =>
      let leadingOption := leading first rest in
      let '(volatility, volatilityScore) :=
        volatilityOf (id leadingOption) historicalData in
      let averageVelocity := averageVelocityOf historicalData in
      {| leadingOption := label leadingOption;
         volatility := volatility;
         trend := trendOf (id leadingOption) historicalData;
         peakBettingHour := peakHourOf getHours bets;
         averageVelocity := averageVelocity;
         totalBettingVelocity := averageVelocity;
         volatilityScore := volatilityScore;
         trendingOption := label (trending historicalData first rest);
         lastMajorShift := lastMajorShiftOf (id leadingOption) historicalData |}
  end.

Definition colors : list string :=
  ["#16a34a"; "#dc2626"; "#facc15"; "#3b82f6";
   "#8b5cf6"; "#06B6D4"; "#F97316"; "#84CC16"].

Definition getOptionColor (index : nat) : string :=
  default "" (colors !! (index mod 8)%nat).

Record EventAnalyticsData : Type := {
  event : BettingEvent;
  options : list (BetOption * string);
  currentPercentages : obj string Q;
  historicalData : list AnalyticsDataPoint;
  ead_totalPool : Q;
  insights : Insights
}.

(** What [getEventAnalytics] throws, by the [throw] that raises it. *)
Inductive Failure : Type :=
| BetsError (message : string)       (* `Bets error: ${..}` *)
| EventNotFound (message : string)   (* `Event not found: ${..}` *)
| OptionsError (message : string)    (* `Options error: ${..}` *)
| StoreError (message : string)      (* a store error thrown as it is *)
| TypeError.                         (* a property read on null data *)

Definition getEventAnalytics (db : Supabase) (getHours : Z -> nat)
    (eventId : string) : Failure + EventAnalyticsData :=
  let betsResponse := bets_of db eventId in
  match error betsResponse with
  | Some message => inl (BetsError message)
  | None =>
  let eventResponse := event_of db eventId in
  match error eventResponse with
  | Some message => inl (EventNotFound message)
  | None =>
  let optionsResponse := options_of db eventId in
  match error optionsResponse with
  | Some message => inl (OptionsError message)
  | None =>
  match data betsResponse, data eventResponse, data optionsResponse with
  | Some bets, Some event, Some optionsData =>
      let '(historicalData, _) :=
        generateOptimizedHistoricalData db eventId bets optionsData in
      let totalPool := or_num (Some (total_pool event)) 0 in
      let currentPercentages :=
        fold_left
          (fun acc option =>
             set acc (id option)
               (if Qlt_le_dec 0 totalPool
                then total_bets option / totalPool * 100 else 0))
          optionsData [] in
      inr {| event := event;
             options := imap (fun index option =>
                                (option, getOptionColor index)) optionsData;
             currentPercentages := currentPercentages;
             historicalData := historicalData;
             ead_totalPool := totalPool;
             insights :=
               calculateEnhancedInsights getHours optionsData historicalData bets |}
  | _, _, _ => inl TypeError
  end end end end.

Record RealTimeStats : Type := {
  rt_timestamp : Z;
  rt_percentages : obj string Q;
  rt_totalPool : Q;
  rt_participantCount : Q;
  rt_bettingVelocity : nat;
  rt_momentum : obj string Q;
  rt_options : list (BetOption * string)
}.

(** The momentum that [getRealTimeBettingStats] gives one option. *)
Definition recentMomentum (recentBets : list BetData) (option : BetOption) : Q :=
  let recentBetsForOption :=
    filter (fun bet => option_id bet = id option) recentBets in
  let recentAmount :=
    fold_left (fun sum bet => sum + amount bet) recentBetsForOption 0 in
  if Qlt_le_dec 0 recentAmount
  then recentAmount / or_num (Some (total_bets option)) 1 * 100
  else 0.

(** [getRealTimeBettingStats], after its three reads. *)
Definition realTimeStats (now : Z) (event : BettingEvent)
    (options : list BetOption) (recentBets : list BetData) : RealTimeStats :=
  let totalPool := or_num (Some (total_pool event)) 0 in
  let '(percentages, momentum) :=
    fold_left
      (fun '(percentages, momentum) option =>
         (set percentages (id option)
            (if Qlt_le_dec 0 totalPool
             then toFixed2 (total_bets option / totalPool * 100) else 0),
          set momentum (id option) (recentMomentum recentBets option)))
      options ([], []) in
  {| rt_timestamp := now;
     rt_percentages := percentages;
     rt_totalPool := totalPool;
     rt_participantCount := or_num (Some (participant_count event)) 0;
     rt_bettingVelocity := length recentBets;
     rt_momentum := momentum;
     rt_options := imap (fun index option => (option, getOptionColor index)) options |}.

Definition getRealTimeBettingStats (db : Supabase) (now : Z) (eventId : string)
  : Failure + RealTimeStats :=
  let eventResponse := event_of db eventId in
  match error eventResponse with
  | Some message => inl (StoreError message)
  | None =>
  let optionsResponse := options_unordered_of db eventId in
  match error optionsResponse with
  | Some message => inl (StoreError message)
  | None =>
  let recentResponse := bets_since db eventId (now - 60 * 60 * 1000) in
  match error recentResponse with
  | Some message => inl (StoreError message)
  | None =>
  match data eventResponse, data optionsResponse, data recentResponse with
  | Some event, Some options, Some recentBets =>
      inr (realTimeStats now event options recentBets)
  | _, _, _ => inl TypeError
  end end end end.

End Minute.

(** ** Edge function (supabase/functions/get_event_analytics.ts) *)

Module Edge.
Import Minute.

Record Point : Type := {
  e_timestamp : Z;
  e_percentages : obj string jsnum;
  e_totalPool : Q;
  e_participantCount : Q
}.

(** The response: its status and, for 200, the object that is serialised
    into the body. *)
Inductive HttpResponse : Type :=
| Status400
| Status500 (message : string)
| Status200 (historicalData : list Point) (options : list OptionMetadata).

(** One turn of [for (const time of timeBuckets)]: the percentages are
    taken from the bucket's own [poolPerOption]. *)
Definition bucketPoint (timeMap : obj Z (obj string Q))
    (eventMeta : option BettingEvent) (time : Z) : Point :=
  let poolPerOption := default [] (get timeMap time) in
  let total := sum (values poolPerOption) in
  let percentages :=
    fold_left
      (fun pct optionId =>
         set pct optionId
           (lift toFixed2
              (lift (fun x => x * 100) (div (at_key poolPerOption optionId) total))))
      (keys poolPerOption) [] in
  {| e_timestamp := time * 60000;
     e_percentages := percentages;
     e_totalPool := or_num (total_pool <$> eventMeta) 0;
     e_participantCount := or_num (participant_count <$> eventMeta) 0 |}.

Definition serve (db : Supabase) (event_id : option string) : HttpResponse :=
  match event_id with
  | None | Some "" => Status400
  | Some eventId =>
      let betsResponse := bets_of db eventId in
      match error betsResponse, data betsResponse with
      | Some message, _ => Status500 message
      | None, None => Status500 "TypeError"
      | None, Some bets =>
          (* the same [forEach] body as in the service *)
          let timeMap := buildTimeMap bets in
          let eventMeta := data (event_of db eventId) in
          let historicalData :=
            map (bucketPoint timeMap eventMeta) (timeBuckets timeMap) in
          let options :=
            match data (options_unordered_of db eventId) with
            | Some optionsData => optionMetadata optionsData
            | None => []
            end in
          Status200 historicalData options
      end
  end.

End Edge.

(** ** Hour-bucketed variant (second revision of analyticsService.ts) *)

Module Hourly.

Record AnalyticsDataPoint : Type := {
  timestamp : Z;
  percentages : obj string Q;
  totalPool : Q;
  bettingVelocity : option Q;
  momentum : option (obj string Q)
}.

#[global] Instance AnalyticsDataPoint_inhabited : Inhabited AnalyticsDataPoint :=
  populate {| timestamp := 0; percentages := []; totalPool := 0;
              bettingVelocity := None; momentum := None |}.

(** A row of [bet_options]. *)
Record OptionRow : Type := {
  row_id : string;
  row_label : string;
  odds : Q;
  total_bets : Q;
  row_bettors : Q;
  created_at : Z
}.

(** An element of [optionsWithColors]. *)
Record BetOption : Type := {
  id : string;
  label : string;
  totalBets : Q;
  color : string;
  row : OptionRow
}.

Record EventRow : Type := {
  ev_id : string;
  title : string;
  total_pool : Q;
  participant_count : Q;
  status : string
}.

Record Bet : Type := {
  option_id : string;
  amount : Q;
  placed_at : Z;
  user_id : string
}.

Record Supabase : Type := {
  (* from('events').select(..).eq('id', id).single() *)
  event_of : string -> Response EventRow;
  (* from('bet_options').select(..).eq('event_id', id).order('created_at') *)
  options_of : string -> Response (list OptionRow);
  (* from('bets').select(..).eq('event_id', id).eq('status', 'active')
       .order('placed_at') *)
  bets_of : string -> Response (list Bet)
}.

(** What the computation reads besides the store. *)
Record Ambient : Type := {
  now : Z;               (* new Date() *)
  random : nat -> Q;     (* the n-th result of Math.random() *)
  sin : Q -> Q           (* Math.sin *)
}.

Definition OPTION_COLORS : list string :=
  ["#3B82F6"; "#EF4444"; "#10B981"; "#F59E0B";
   "#8B5CF6"; "#06B6D4"; "#F97316"; "#84CC16"].

Definition len {A} (l : list A) : Q := num (length l).

Definition hour : Z := (60 * 60 * 1000)%Z.

(** The points of [generateEmptyHistoricalData] and of the "No bets yet"
    branch. *)
Definition equalPoint (timestamp : Z) (options : list BetOption)
  : AnalyticsDataPoint :=
  let equalShare := 100 / len options in
  let '(percentages, momentum) :=
    fold_left
      (fun '(percentages, momentum) option =>
         (set percentages (id option) equalShare, set momentum (id option) 0))
      options ([], []) in
  {| timestamp := timestamp;
     percentages := percentages;
     totalPool := 0;
     bettingVelocity := Some 0;
     momentum := Some momentum |}.

(** The values of [i] of [for (let i = n - 1; i >= 0; i--)]. *)
Definition countdown (n : nat) : list nat := reverse (seq 0 n).

Definition generateEmptyHistoricalData (now : Z) (options : list BetOption)
  : list AnalyticsDataPoint :=
  map (fun i => equalPoint (now - Z.of_nat i * hour) options) (countdown 24).

(** "Calculate betting distribution at this point in time": the totals per
    option and the total amount of [betsUpToThisHour]. *)
Definition distribution (betsUpToThisHour : list Bet) : obj string Q * Q :=
  fold_left
    (fun '(optionTotals, totalAmount) bet =>
       (set optionTotals (option_id bet)
          (or_num (get optionTotals (option_id bet)) 0 + amount bet),
        totalAmount + amount bet))
    betsUpToThisHour ([], 0).

(** One turn of [for (let i = totalHours - 1; i >= 0; i--)]: the point
    pushed on [dataPoints]. *)
Definition hourPoint (now : Z) (allBets : list Bet) (options : list BetOption)
    (dataPoints : list AnalyticsDataPoint) (i : nat) : AnalyticsDataPoint :=
  let hourStart := (now - (Z.of_nat i + 1) * hour)%Z in
  let hourEnd := (now - Z.of_nat i * hour)%Z in
  let betsUpToThisHour :=
    filter (fun bet => (placed_at bet <= hourEnd)%Z) allBets in
  let betsInThisHour :=
    filter (fun bet => (hourStart < placed_at bet)%Z
                       /\ (placed_at bet <= hourEnd)%Z) allBets in
  match betsUpToThisHour with
  | [] => equalPoint hourEnd options
  | _ =>
      let '(optionTotals, totalAmount) := distribution betsUpToThisHour in
      let percentages :=
        fold_left
          (fun pct option =>
             let optionAmount := or_num (get optionTotals (id option)) 0 in
             set pct (id option)
               (if Qlt_le_dec 0 totalAmount
                then optionAmount / totalAmount * 100
                else 100 / len options))
          options [] in
      let momentum :=
        match last dataPoints with
        | Some previousPoint =>
            fold_left
              (fun mom option =>
                 set mom (id option)
                   (at_key percentages (id option)
                    - at_key (Hourly.percentages previousPoint) (id option)))
              options []
        | None =>
            fold_left (fun mom option => set mom (id option) 0) options []
        end in
      {| timestamp := hourEnd;
         percentages := percentages;
         totalPool := totalAmount;
         bettingVelocity := Some (len betsInThisHour);
         momentum := Some momentum |}
  end.

(** The array [dataPoints] when the loop ends. *)
Definition hourlyPoints (now : Z) (allBets : list Bet)
    (options : list BetOption) : list AnalyticsDataPoint :=
  fold_left
    (fun dataPoints i => dataPoints ++ [hourPoint now allBets options dataPoints i])
    (countdown 24) [].

(** [o?.[k] || 0] *)
Definition opt_at (o : option (obj string Q)) (k : string) : Q :=
  or_num (o ≫= fun m => get m k) 0.

(** The point that replaces an interior point. *)
Definition smoothPoint (prev current next : AnalyticsDataPoint)
  : AnalyticsDataPoint :=
  let '(smoothedPercentages, smoothedMomentum) :=
    fold_left
      (fun '(sp, sm) optionId =>
         let prevVal := or_num (get (percentages prev) optionId) 0 in
         let currentVal := or_num (get (percentages current) optionId) 0 in
         let nextVal := or_num (get (percentages next) optionId) 0 in
         let prevMom := opt_at (momentum prev) optionId in
         let currentMom := opt_at (momentum current) optionId in
         let nextMom := opt_at (momentum next) optionId in
         (set sp optionId
            (prevVal * (2 # 10) + currentVal * (6 # 10) + nextVal * (2 # 10)),
          set sm optionId
            (prevMom * (2 # 10) + currentMom * (6 # 10) + nextMom * (2 # 10))))
      (keys (percentages current)) ([], []) in
  {| timestamp := timestamp current;
     percentages := smoothedPercentages;
     totalPool := totalPool current;
     bettingVelocity := bettingVelocity current;
     momentum := Some smoothedMomentum |}.

Definition smoothDataPoints (dataPoints : list AnalyticsDataPoint)
  : list AnalyticsDataPoint :=
  if decide (length dataPoints < 3)%nat then dataPoints
  else
    imap (fun i current =>
            if decide (i = 0 \/ i = length dataPoints - 1)%nat then current
            else smoothPoint (dataPoints !!! (i - 1)%nat) current
                             (dataPoints !!! (i + 1)%nat))
         dataPoints.

(** One turn of the loop of [generateFallbackHistoricalData]; [n] counts
    the calls of [Math.random] made so far. *)
Definition fallbackPoint (env : Ambient) (options : list BetOption)
    (totalBets : Q) (currentPercentages : obj string Q)
    (n : nat) (i : nat) : nat * AnalyticsDataPoint :=
  let variationFactor := Qmin (num i / 12) 1 in
  let '(n, _, percentages, momentum) :=
    fold_left
      (fun '(n, index, percentages, momentum) option =>
         let currentPerc := at_key currentPercentages (id option) in
         let baseVariation := (random env n - (1 # 2)) * 20 * variationFactor in
         let timePattern :=
           sin env ((num i + num index * 2) / 6)
           * 10 * variationFactor in
         let historicalPerc :=
           Qmax 5 (Qmin 85 (currentPerc + baseVariation + timePattern)) in
         (S n, S index, set percentages (id option) historicalPerc,
          set momentum (id option) baseVariation))
      options (n, 0%nat, [], []) in
  let total := sum (values percentages) in
  let percentages :=
    fold_left
      (fun pct key => set pct key (at_key pct key / total * 100))
      (keys percentages) percentages in
  let growthFactor := (3 # 10) + (7 # 10) * (23 - num i) / 23 in
  let randomVariation := (8 # 10) + random env n * (4 # 10) in
  let estimatedPool := totalBets * 50 * growthFactor * randomVariation in
  (S (S n),
   {| timestamp := (now env - Z.of_nat i * hour)%Z;
      percentages := percentages;
      totalPool := Qmax 0 estimatedPool;
      bettingVelocity := Some (inject_Z (Qfloor (random env (S n) * 5)) + 1);
      momentum := Some momentum |}).

Definition generateFallbackHistoricalData (env : Ambient)
    (options : list BetOption) : list AnalyticsDataPoint :=
  let totalBets := fold_left (fun sum option => sum + totalBets option) options 0 in
  let currentPercentages :=
    if Qlt_le_dec 0 totalBets then
      fold_left
        (fun cp option => set cp (id option) (Hourly.totalBets option / totalBets * 100))
        options []
    else
      let equalShare := 100 / len options in
      fold_left (fun cp option => set cp (id option) equalShare) options [] in
  snd (fold_left
         (fun '(n, dataPoints) i =>
            let '(n, point) :=
              fallbackPoint env options totalBets currentPercentages n i in
            (n, dataPoints ++ [point]))
         (countdown 24) (0%nat, [])).

(** [generateRealHistoricalData]: a failed read of the bets is caught and
    answered with the fallback. *)
Definition generateRealHistoricalData (db : Supabase) (env : Ambient)
    (eventId : string) (options : list BetOption) : list AnalyticsDataPoint :=
  let response := bets_of db eventId in
  match error response with
  | Some _ => generateFallbackHistoricalData env options
  | None =>
      match data response with
      | None | Some [] => generateEmptyHistoricalData (now env) options
      | Some allBets => smoothDataPoints (hourlyPoints (now env) allBets options)
      end
  end.

(** The fields [trendingOption] and [lastMajorShift] of the insights
    object; [peakBettingHour], [totalBettingVelocity] and
    [volatilityScore] are not modelled. *)
Record Insights : Type := {
  trendingOption : string;
  lastMajorShift : option Z
}.

(** [options.some(option => Math.abs(..) > 10)] *)
Definition hasShift (options : list BetOption)
    (current previous : AnalyticsDataPoint) : bool :=
  existsb
    (fun option =>
       let change :=
         Qabs (or_num (get (percentages current) (id option)) 0
               - or_num (get (percentages previous) (id option)) 0) in
       if Qlt_le_dec 10 change then true else false)
    options.

(** "Find last major shift (>10% change in any option)": the loop
    [for (let i = historicalData.length - 1; i >= 1; i--)], entered at [i]. *)
Fixpoint scanShift (options : list BetOption)
    (historicalData : list AnalyticsDataPoint) (i : nat) : option Z :=
  match i with
  | O => None
  | S j =>
      let current := historicalData !!! i in
      let previous := historicalData !!! j in
      if hasShift options current previous then Some (timestamp current)
      else scanShift options historicalData j
  end.

Definition lastMajorShiftOf (options : list BetOption)
    (historicalData : list AnalyticsDataPoint) : option Z :=
  scanShift options historicalData (length historicalData - 1).

(** [generateEventInsights].  With no point or no option the [try] block
    throws a [TypeError] ([latestData.momentum], [trendingOption.label]),
    and the [catch] block answers. *)
Definition generateEventInsights (historicalData : list AnalyticsDataPoint)
    (options : list BetOption) : Insights :=
  match last historicalData, options with
  | Some latestData, first :: _ =>
      let trendingOption :=
        fold_left
          (fun trending option =>
             if Qlt_le_dec (opt_at (momentum latestData) (id trending))
                           (opt_at (momentum latestData) (id option))
             then option else trending)
          options first in
      {| trendingOption := label trendingOption;
         lastMajorShift := lastMajorShiftOf options historicalData |}
  | _, first :: _ =>
      {| trendingOption := if String.eqb (label first) "" then "Unknown"
                           else label first;
         lastMajorShift := None |}
  | _, [] => {| trendingOption := "Unknown"; lastMajorShift := None |}
  end.

Record EventAnalyticsData : Type := {
  eventId : string;
  options : list BetOption;
  ead_totalPool : Q;
  participantCount : Q;
  historicalData : list AnalyticsDataPoint;
  insights : Insights
}.

(** What [getEventAnalytics] throws, by the [throw] that raises it. *)
Inductive Failure : Type :=
| EventError (message : string)     (* throw eventError *)
| EventNotFound                     (* new Error('Event not found') *)
| OptionsError (message : string)   (* throw optionsError *)
| NoOptions.       (* new Error('No betting options found for this event') *)

Definition getEventAnalytics (db : Supabase) (env : Ambient) (eventId : string)
  : Failure + EventAnalyticsData :=
  let eventResponse := event_of db eventId in
  match error eventResponse, data eventResponse with
  | Some message, _ => inl (EventError message)
  | None, None => inl EventNotFound
  | None, Some event =>
      let optionsResponse := options_of db eventId in
      match error optionsResponse, data optionsResponse with
      | Some message, _ => inl (OptionsError message)
      | None, None | None, Some [] => inl NoOptions
      | None, Some options =>
          let optionsWithColors :=
            imap (fun index option =>
                    {| id := row_id option;
                       label := row_label option;
                       totalBets := total_bets option;
                       color := default "" (OPTION_COLORS !! (index mod 8)%nat);
                       row := option |})
                 options in
          let historicalData :=
            generateRealHistoricalData db env eventId optionsWithColors in
          inr {| eventId := eventId;
                 options := optionsWithColors;
                 ead_totalPool := total_pool event;
                 participantCount := participant_count event;
                 historicalData := historicalData;
                 insights := generateEventInsights historicalData optionsWithColors |}
      end
  end.

End Hourly.

(** * Specification-level notions and sample inputs *)

Module Spec.

(** The share of an option in a [percentages] object, 0 when the object
    has no entry for it; likewise for an optional [momentum] object. *)
Definition shareOf (percentages : obj string Q) (optionId : string) : Q :=
  default 0 (get percentages optionId).

Definition momentumOf (momentum : option (obj string Q)) (optionId : string)
  : Q :=
  default 0 (momentum ≫= fun m => get m optionId).

(** The amounts of the bets that [keep] selects, added up. *)
Definition staked {B} (amount : B -> Q) (keep : B -> bool) (bets : list B) : Q :=
  foldr (fun bet acc => (if keep bet then amount bet else 0) + acc) 0 bets.

(** Minute variant: what was staked on an option, and on all options, in
    the minutes up to and including [minute]. *)
Definition minuteTotal (bets : list Minute.BetData) (minute : Z)
    (optionId : string) : Q :=
  staked Minute.amount
    (fun bet => bool_decide (Minute.timeKey (Minute.placed_at bet) <= minute)%Z
                && bool_decide (Minute.option_id bet = optionId))
    bets.

Definition minutePool (bets : list Minute.BetData) (minute : Z) : Q :=
  staked Minute.amount
    (fun bet => bool_decide (Minute.timeKey (Minute.placed_at bet) <= minute)%Z)
    bets.

(** What a time map holds for an option in a minute, and the bets that
    belong there. *)
Definition slotAt (timeMap : obj Z (obj string Q)) (minute : Z)
    (optionId : string) : Q :=
  at_key (default [] (get timeMap minute)) optionId.

Definition inBucket (minute : Z) (optionId : string) (bet : Minute.BetData)
  : bool :=
  bool_decide (Minute.timeKey (Minute.placed_at bet) = minute)
  && bool_decide (Minute.option_id bet = optionId).

(** Well-formed time map: no minute and no option of a minute twice. *)
Definition wf (timeMap : obj Z (obj string Q)) : Prop :=
  NoDup (keys timeMap) /\
  forall minute slot, get timeMap minute = Some slot -> NoDup (keys slot).

(** The object [cumulativeData] after the turns of the loop for
    [minutes]. *)
Definition cumulativeAfter (timeMap : obj Z (obj string Q))
    (minutes : list Z) : obj string Q :=
  fold_left
    (fun cum minute => Minute.addPool cum (default [] (get timeMap minute)))
    minutes [].

(** The percentage that the minute-bucketed loop computes from a
    cumulative total and the sum of all of them. *)
Definition roundedShare (total pool : Q) : Q :=
  if Qlt_le_dec 0 pool then toFixed2 (total / pool * 100) else 0.


(** What the ledger staked within one minute on all options. *)
Definition bucketPool (bets : list Minute.BetData) (minute : Z) : Q :=
  staked Minute.amount
    (fun bet => bool_decide (Minute.timeKey (Minute.placed_at bet) = minute))
    bets.

(** The minute of a point of the edge function, and the sum of its
    percentages when all of them are finite numbers. *)
Definition edgeMinute (point : Edge.Point) : Z :=
  (Edge.e_timestamp point / 60000)%Z.


(** The percentage that the hour-bucketed loop computes: the exact share,
    or the equal split among [n] options when nothing positive was
    staked. *)
Definition exactShare (total pool n : Q) : Q :=
  if Qlt_le_dec 0 pool then total / pool * 100 else 100 / n.

(** Hourly variant: what was staked on an option, and on all options, up
    to and including the instant [hourEnd]. *)
Definition hourTotal (bets : list Hourly.Bet) (hourEnd : Z)
    (optionId : string) : Q :=
  staked Hourly.amount
    (fun bet => bool_decide (Hourly.placed_at bet <= hourEnd)%Z
                && bool_decide (Hourly.option_id bet = optionId))
    bets.

Definition hourPool (bets : list Hourly.Bet) (hourEnd : Z) : Q :=
  staked Hourly.amount
    (fun bet => bool_decide (Hourly.placed_at bet <= hourEnd)%Z) bets.

(** [i] is the most recent of the transitions [1 .. n-1] that satisfy
    [shift]. *)
Definition mostRecent (shift : nat -> Prop) (n i : nat) : Prop :=
  (0 < i < n)%nat /\ shift i /\ forall j, (i < j < n)%nat -> ~ shift j.

End Spec.

Module Sample.

(** A three-point hourly series over the options "a" and "b". *)
Definition point (t : Z) (a b : Q) : Hourly.AnalyticsDataPoint :=
  {| Hourly.timestamp := t;
     Hourly.percentages := [("a", a); ("b", b)];
     Hourly.totalPool := 10;
     Hourly.bettingVelocity := Some 1;
     Hourly.momentum := Some [("a", 0); ("b", 0)] |}.

Definition series3 : list Hourly.AnalyticsDataPoint :=
  [point 1 40 60; point 2 50 50; point 3 90 10].

(** Rows and a store for the minute-bucketed service and the edge
    function; every read succeeds. *)
Definition bet (optionId : string) (amount : Q) (placed_at : Z)
  : Minute.BetData :=
  {| Minute.option_id := optionId; Minute.amount := amount;
     Minute.placed_at := placed_at; Minute.user_id := "user" |}.

Definition option (id : string) (total_bets : Q) : Minute.BetOption :=
  {| Minute.id := id; Minute.event_id := "event"; Minute.label := id;
     Minute.total_bets := total_bets; Minute.bettors := 1 |}.

Definition event (total_pool : Q) : Minute.BettingEvent :=
  {| Minute.ev_id := "event"; Minute.title := "title";
     Minute.total_pool := total_pool; Minute.participant_count := 2;
     Minute.status := "active" |}.

Definition store (event : Minute.BettingEvent)
    (options : list Minute.BetOption) (bets : list Minute.BetData)
  : Minute.Supabase :=
  {| Minute.bets_of := fun _ => ok bets;
     Minute.event_of := fun _ => ok event;
     Minute.options_of := fun _ => ok options;
     Minute.options_unordered_of := fun _ => ok options;
     Minute.bets_since := fun _ _ => ok bets |}.

(** The hour of a timestamp in UTC. *)
Definition utcHours (t : Z) : nat := Z.to_nat ((t / 3600000) mod 24).

(** 100 on A in one minute, 300 on B in the next. *)
Definition twoOptions : list Minute.BetOption := [option "A" 100; option "B" 300].
Definition twoMinutes : list Minute.BetData := [bet "A" 100 0; bet "B" 300 60000].

(** The series that the minute-bucketed loop builds from these bets. *)
Definition twoMinuteSeries : list Minute.AnalyticsDataPoint :=
  (Minute.generateOptimizedHistoricalData
     (store (event 400) twoOptions twoMinutes) "event" twoMinutes twoOptions).1.


(** A single bet of amount 0. *)
Definition zeroBet : list Minute.BetData := [bet "A" 0 0].

(** Rows, stores and surroundings for the hour-bucketed service. *)
Definition row (id : string) (total_bets : Q) : Hourly.OptionRow :=
  {| Hourly.row_id := id; Hourly.row_label := id; Hourly.odds := 2;
     Hourly.total_bets := total_bets; Hourly.row_bettors := 1;
     Hourly.created_at := 0 |}.

Definition eventRow : Hourly.EventRow :=
  {| Hourly.ev_id := "event"; Hourly.title := "title";
     Hourly.total_pool := 400; Hourly.participant_count := 2;
     Hourly.status := "active" |}.

Definition hourlyBet (optionId : string) (amount : Q) (placed_at : Z)
  : Hourly.Bet :=
  {| Hourly.option_id := optionId; Hourly.amount := amount;
     Hourly.placed_at := placed_at; Hourly.user_id := "user" |}.

Definition hourlyStore (rows : list Hourly.OptionRow)
    (bets : Response (list Hourly.Bet)) : Hourly.Supabase :=
  {| Hourly.event_of := fun _ => ok eventRow;
     Hourly.options_of := fun _ => ok rows;
     Hourly.bets_of := fun _ => bets |}.

Definition hourlyOption (id : string) (totalBets : Q) : Hourly.BetOption :=
  {| Hourly.id := id; Hourly.label := id; Hourly.totalBets := totalBets;
     Hourly.color := "#3B82F6"; Hourly.row := row id totalBets |}.

(** 1 on A and 2 on B, both at the instant 0. *)
Definition thirds : list Hourly.Bet := [hourlyBet "A" 1 0; hourlyBet "B" 2 0].
Definition thirdsOptions : list Hourly.BetOption :=
  [hourlyOption "A" 1; hourlyOption "B" 2].

(** No event row answers the query. *)
Definition hourlyStoreNoEvent : Hourly.Supabase :=
  {| Hourly.event_of := fun _ => single [];
     Hourly.options_of := fun _ => ok [];
     Hourly.bets_of := fun _ => ok [] |}.

Definition minuteStoreNoEvent : Minute.Supabase :=
  {| Minute.bets_of := fun _ => ok [];
     Minute.event_of := fun _ => single [];
     Minute.options_of := fun _ => ok [];
     Minute.options_unordered_of := fun _ => ok [];
     Minute.bets_since := fun _ _ => ok [] |}.

(** A stand-in for [Math.sin] in closed examples; none of them depends on
    its values. *)
Definition sinStandIn (x : Q) : Q := x - x * x * x / 6.

(** Surroundings in which every call of [Math.random] returns [r]. *)
Definition ambient (r : Q) : Hourly.Ambient :=
  {| Hourly.now := 86400000; Hourly.random := fun _ => r;
     Hourly.sin := sinStandIn |}.

End Sample.

(** ** Counting notions for the further properties *)

Module Tally.

(** The number of bets of a ledger that fall into the hour [h] of the
    day. *)
Definition betsInHour (getHours : Z -> nat) (bets : list Minute.BetData)
    (h : nat) : nat :=
  length (filter (fun bet => getHours (Minute.placed_at bet) = h) bets).

(** [best] is the first element of [candidates] with the largest score:
    it stands at [i], nothing scores more, and everything before it scores
    less. *)
Definition firstLargest {A} (score : A -> Q) (candidates : list A)
    (i : nat) (best : A) : Prop :=
  candidates !! i = Some best /\
  (forall other, other ∈ candidates -> score other <= score best) /\
  (forall j other, (j < i)%nat -> candidates !! j = Some other ->
                   score other < score best).

(** The instant of point [k] of a 24-point series that ends at [now]. *)
Definition gridInstant (now : Z) (k : nat) : Z :=
  (now - Z.of_nat (23 - k) * 3600000)%Z.

End Tally.

(** ** Live queries of the second revision *)

Module Live.
Import Hourly.

(** What the three exports below read from the store. *)
Record Supabase : Type := {
  (* from('bet_options').select(..).eq('event_id', id) *)
  option_stats : string -> Response (list OptionRow);
  (* from('events').select('total_pool, participant_count').eq('id', id)
       .single() *)
  event_totals : string -> Response EventRow;
  (* from('bets').select('placed_at').eq('event_id', id)
       .eq('status', 'active').gte('placed_at', t): the [placed_at] of
     the rows *)
  placed_since : string -> Z -> Response (list Z);
  (* from('bets').select('option_id, amount, placed_at, user_id')
       .eq('event_id', id).eq('status', 'active').order('placed_at') *)
  active_bets : string -> Response (list Bet)
}.

(** [new Date(placed_at).toISOString().slice(0, 13)]: the hour number. *)
Definition hourKey (placed_at : Z) : Z := (placed_at / 3600000)%Z.

(** [o[k] = (o[k] || 0) + x] *)
Definition tally {K} `{EqDecision K} (o : obj K Q) (k : K) (x : Q) : obj K Q :=
  set o k (or_num (get o k) 0 + x).

(** [getBettingVelocity]; [now] is what [Date.now()] returns.  Every
    failure is caught and answered with the empty object. *)
Definition getBettingVelocity (db : Supabase) (now : Z) (eventId : string)
  : obj Z Q :=
  let response :=
    placed_since db eventId (now - 24 * 60 * 60 * 1000) in
  match error response with
  | Some _ => []
  | None =>
      match data response with
      | Some bets =>
          fold_left (fun velocity placed_at => tally velocity (hourKey placed_at) 1)
                    bets []
      | None => []
      end
  end.

Record RealTimeStats : Type := {
  rt_percentages : obj string Q;
  rt_totalPool : Q;
  rt_totalBets : Q;
  rt_participantCount : Q;
  rt_timestamp : Z;
  rt_bettingVelocity : Q
}.

(** [getRealTimeBettingStats]; [clock n] is the [n]-th reading of the
    clock ([Date.now()] in [getBettingVelocity], then [new Date()] twice).
    Only an error of the first read is thrown. *)
Definition getRealTimeBettingStats (db : Supabase) (clock : nat -> Z)
    (eventId : string) : string + RealTimeStats :=
  let response := option_stats db eventId in
  match error response with
  | Some message => inl message
  | None =>
      let optionStats := data response in
      let event := data (event_totals db eventId) in
      let totalBets :=
        or_num ((fun options =>
                   fold_left (fun sum option => sum + total_bets option)
                             options 0) <$> optionStats) 0 in
      let currentPercentages :=
        if Qlt_le_dec 0 totalBets then
          fold_left
            (fun cp option =>
               set cp (row_id option) (total_bets option / totalBets * 100))
            (default [] optionStats) []
        else
          let equalShare := 100 / or_num (len <$> optionStats) 1 in
          fold_left (fun cp option => set cp (row_id option) equalShare)
                    (default [] optionStats) [] in
      let recentVelocity := getBettingVelocity db (clock 0%nat) eventId in
      let currentHour := hourKey (clock 1%nat) in
      let velocity := or_num (get recentVelocity currentHour) 0 in
      inr {| rt_percentages := currentPercentages;
             rt_totalPool := or_num (total_pool <$> event) 0;
             rt_totalBets := totalBets;
             rt_participantCount := or_num (participant_count <$> event) 0;
             rt_timestamp := clock 2%nat;
             rt_bettingVelocity := velocity |}
  end.

Inductive Trigger : Type := large_bet | volume_surge | trend_reversal.
Inductive RiskLevel : Type := low | medium | high.

Record Shift : Type := {
  shift_timestamp : Z;
  shift_optionId : string;
  percentageChange : jsnum;
  trigger : Trigger
}.

(** The insights object, without [peakHours] (an object with the hours of
    the day as keys). *)
Record BettingInsights : Type := {
  optionMomentum : obj string Q;
  majorShifts : list Shift;
  nextHourVolume : Q;
  trendContinuation : bool;
  riskLevel : RiskLevel
}.

(** [[...new Set(xs)]]: the distinct elements in the order of their first
    occurrence. *)
Definition unique (xs : list string) : list string :=
  fold_left (fun seen x => if decide (x ∈ seen) then seen else seen ++ [x]) xs [].

(** [xs.filter(p).length] *)
Definition count {A} (P : A -> Prop) `{forall x, Decision (P x)} (xs : list A)
  : Q :=
  num (length (filter P xs)).

(** The momentum of one option: bets of the last two hours against those
    of the two hours before. *)
Definition momentumOf (now : Z) (allBets : list Bet) (optionId : string) : Q :=
  let twoHoursAgo := (now - 2 * 60 * 60 * 1000)%Z in
  let fourHoursAgo := (now - 4 * 60 * 60 * 1000)%Z in
  let recentBets :=
    filter (fun bet => (twoHoursAgo <= placed_at bet)%Z) allBets in
  let olderBets :=
    filter (fun bet => (fourHoursAgo <= placed_at bet)%Z
                       /\ (placed_at bet < twoHoursAgo)%Z) allBets in
  let recentCount := count (fun bet => option_id bet = optionId) recentBets in
  let olderCount := count (fun bet => option_id bet = optionId) olderBets in
  if Qeq_bool olderCount 0
  then (if Qlt_le_dec 0 recentCount then 100 else 0)
  else (recentCount - olderCount) / olderCount * 100.

(** [((x - avg) / avg) * 100] *)
Definition changeOver (x avg : Q) : jsnum :=
  lift (fun r => r * 100) (div (x - avg) avg).

(** "Detect volume surges (3x normal volume)" *)
Definition volumeSurges (allBets : list Bet) : list Shift :=
  let hourlyVolume :=
    fold_left (fun volume bet => tally volume (hourKey (placed_at bet)) 1)
              allBets [] in
  let avgVolume := sum (values hourlyVolume) / len (keys hourlyVolume) in
  flat_map
    (fun '(hour, volume) =>
       if Qlt_le_dec (avgVolume * 3) volume
       then [{| shift_timestamp := hour * 3600000;
                shift_optionId := "multiple";
                percentageChange := changeOver volume avgVolume;
                trigger := volume_surge |}]
       else [])
    hourlyVolume.

(** "Detect large individual bets" *)
Definition largeBets (allBets : list Bet) : list Shift :=
  let avgBetAmount :=
    fold_left (fun sum bet => sum + amount bet) allBets 0 / len allBets in
  flat_map
    (fun bet =>
       if Qlt_le_dec (avgBetAmount * 5) (amount bet)
       then [{| shift_timestamp := placed_at bet;
                shift_optionId := option_id bet;
                percentageChange := changeOver (amount bet) avgBetAmount;
                trigger := large_bet |}]
       else [])
    allBets.

(** [shifts.sort((a, b) => b.timestamp - a.timestamp)]: newest first, and
    shifts of the same instant in the order they had ([sort] is stable). *)
Fixpoint insertShift (shift : Shift) (sorted : list Shift) : list Shift :=
  match sorted with
  | [] => [shift]
  | other :: rest =>
      if decide (shift_timestamp shift < shift_timestamp other)%Z
      then other :: insertShift shift rest
      else shift :: sorted
  end.

Definition newestFirst (shifts : list Shift) : list Shift :=
  foldr insertShift [] shifts.

Definition getBettingInsights (db : Supabase) (now : Z) (eventId : string)
  : string + BettingInsights :=
  let response := active_bets db eventId in
  match error response, data response with
  | Some message, _ => inl message
  | None, None | None, Some [] =>
      inr {| optionMomentum := [];
             majorShifts := [];
             nextHourVolume := 0;
             trendContinuation := false;
             riskLevel := low |}
  | None, Some allBets =>
      let uniqueOptions := unique (map option_id allBets) in
      let optionMomentum :=
        fold_left
          (fun momentum optionId =>
             set momentum optionId (momentumOf now allBets optionId))
          uniqueOptions [] in
      let majorShifts := volumeSurges allBets ++ largeBets allBets in
      let lastHourBets :=
        count (fun bet => (now - 60 * 60 * 1000 <= placed_at bet)%Z) allBets in
      let nextHourVolume := Qmax 0 (lastHourBets * (11 # 10)) in
      let recentMomentumAvg :=
        fold_left (fun sum mom => sum + Qabs mom) (values optionMomentum) 0
        / len (keys optionMomentum) in
      let trendContinuation :=
        if Qlt_le_dec 10 recentMomentumAvg then true else false in
      let riskLevel :=
        if decide (3 < length majorShifts)%nat then high
        else if decide (1 < length majorShifts)%nat then medium
        else low in
      inr {| optionMomentum := optionMomentum;
             majorShifts := take 10 (newestFirst majorShifts);
             nextHourVolume := nextHourVolume;
             trendContinuation := trendContinuation;
             riskLevel := riskLevel |}
  end.

End Live.

Module LiveSpec.

(** The bets of a ledger on an option placed at or after [since]. *)
Definition betsOnSince (allBets : list Hourly.Bet) (optionId : string)
    (since : Z) : list Hourly.Bet :=
  filter (fun bet => Hourly.option_id bet = optionId
                     /\ (since <= Hourly.placed_at bet)%Z) allBets.

End LiveSpec.

Module LiveSample.

(** A store whose event read finds no row. *)
Definition store (rows : list Hourly.OptionRow) (placed : list Z)
    (bets : list Hourly.Bet) : Live.Supabase :=
  {| Live.option_stats := fun _ => ok rows;
     Live.event_totals := fun _ => single [];
     Live.placed_since := fun _ _ => ok placed;
     Live.active_bets := fun _ => ok bets |}.

(** Readings of the clock, one millisecond apart. *)
Definition clock (n : nat) : Z := (86400000 + Z.of_nat n)%Z.

(** One bet of 1 in each of three hours, ten in a fourth hour, and a bet
    of 1000 in that hour. *)
Definition surgeLedger : list Hourly.Bet :=
  [Sample.hourlyBet "A" 1 0; Sample.hourlyBet "B" 1 3600000;
   Sample.hourlyBet "A" 1 7200000]
  ++ map (fun i : nat => Sample.hourlyBet "B" 1 (10800000 + Z.of_nat i)) (seq 0 10)
  ++ [Sample.hourlyBet "A" 1000 10800500].

End LiveSample.

(** * The embedding over binary64 *)

(** ** Numbers as binary64 and objects in enumeration order *)

(** The embedding above takes numbers as exact rationals; it carries the
    properties that are ranges, bounds and counts.  The modules below
    embed the same functions with the arithmetic of the program: a
    [number] is an IEEE 754 binary64 value (the primitive [float]), every
    operation rounds to nearest with ties to even, and a comparison
    with NaN is false.  They carry the properties that depend on the
    digits a computation yields or on a threshold it is compared with. *)

Module Binary64.
Import PrimFloat.
Local Open Scope float_scope.

(** The integer [z] as a number (the nearest one when [z] has more than
    53 significant bits). *)
Definition ofZ (z : Z) : float :=
  FloatOps.SF2Prim
    (SpecFloat.binary_normalize FloatOps.prec FloatOps.emax z 0 false).

Definition ofNat (n : nat) : float := ofZ (Z.of_nat n).

(** The rational that a finite number is. *)
Definition exact (x : float) : option Q :=
  match FloatOps.Prim2SF x with
  | SpecFloat.S754_zero _ => Some 0%Q
  | SpecFloat.S754_finite s m e =>
      let magnitude :=
        match e with
        | Zneg p => (Zpos m # Pos.pow 2 p)%Q
        | _ => inject_Z (Zpos m * 2 ^ e)
        end in
      Some (if s then (- magnitude)%Q else magnitude)
  | _ => None
  end.

(** The number nearest to a rational, a tie going to the even mantissa:
    what reading a decimal literal gives.  The quotient is taken with at
    least 60 bits and a sticky bit, then rounded once. *)
Definition ofQ (q : Q) : float :=
  let p := Qnum q in
  let d := Zpos (Qden q) in
  if (p =? 0)%Z then zero
  else
    let k := Z.max 0 (60 + Z.log2 d - Z.log2 (Z.abs p)) in
    let scaled := (Z.abs p * 2 ^ k)%Z in
    let m := (scaled / d)%Z in
    let sticky := if (scaled mod d =? 0)%Z then 0%Z else 1%Z in
    let m' := (2 * m + sticky)%Z in
    FloatOps.SF2Prim
      (SpecFloat.binary_normalize FloatOps.prec FloatOps.emax
         (if (p <? 0)%Z then (- m')%Z else m') (- k - 1) false).

(** The decimal literal [n / 10^places]. *)
Definition decimal (n : Z) (places : positive) : float :=
  ofQ (n # Pos.pow 10 places).

(** [!x]: 0, -0 and NaN are falsy. *)
Definition falsy (x : float) : bool := (x =? 0) || is_nan x.

(** [!x] and [x || d] on a possibly undefined number. *)
Definition absent (x : option float) : bool :=
  match x with
  | Some v => falsy v
  | None => true
  end.

Definition or_num (x : option float) (d : float) : float :=
  match x with
  | Some v => if falsy v then d else v
  | None => d
  end.

(** A possibly undefined number where the code computes with it:
    [undefined] becomes NaN. *)
Definition operand (x : option float) : float := default nan x.

(** [a > b] *)
Definition gt (a b : float) : bool := b <? a.

(** [Math.max(a, b)] and [Math.min(a, b)] *)
Definition max (a b : float) : float :=
  if is_nan a || is_nan b then nan
  else if a <? b then b
  else if b <? a then a
  else if a =? 0 then a + b
  else a.

Definition min (a b : float) : float :=
  if is_nan a || is_nan b then nan
  else if a <? b then a
  else if b <? a then b
  else if a =? 0 then - (- a + - b)
  else a.

(** [Math.floor(x)] *)
Definition floor (x : float) : float :=
  match exact x with
  | Some q =>
      if x =? 0 then x
      else let f := Qfloor q in if (f =? 0)%Z then zero else ofZ f
  | None => x
  end.

(** [+(x).toFixed(2)]: the integer [n] with [n / 100] nearest to [x] (the
    one of larger magnitude of two), written with two decimals and read
    back; from 1e21 on [toFixed] writes the number itself. *)
Definition toFixed2 (x : float) : float :=
  match exact x with
  | Some q =>
      if ofZ (10 ^ 21) <=? abs x then x
      else
        let n := Qfloor (Qabs q * 100 + (1 # 2)) in
        let r := ofQ (n # 100) in
        if x <? 0 then - r else r
  | None => x
  end.

(** [xs.reduce((sum, v) => sum + v, 0)] *)
Definition sum (xs : list float) : float := fold_left add xs 0.

End Binary64.

Module JsObject.

(** The array index that a property key is, if it is one: a canonical
    numeric string below 2^32 - 1. *)
Definition digit (c : Ascii.ascii) : option N :=
  let n := Ascii.N_of_ascii c in
  if ((48 <=? n) && (n <=? 57))%N then Some (n - 48)%N else None.

Fixpoint digits (s : string) (acc : N) : option N :=
  match s with
  | EmptyString => Some acc
  | String c rest =>
      match digit c with
      | Some d => digits rest (acc * 10 + d)%N
      | None => None
      end
  end.

Definition arrayIndex (k : string) : option N :=
  match k with
  | EmptyString => None
  | String c rest =>
      if decide (digit c = Some 0%N /\ rest <> EmptyString) then None
      else
        match digits k 0 with
        | Some n => if (n <? 4294967295)%N then Some n else None
        | None => None
        end
  end.

(** A new key [k] is enumerated before the key [k']: array indices come
    first, in ascending order, then the other keys in the order of their
    creation. *)
Definition before (k k' : string) : bool :=
  match arrayIndex k, arrayIndex k' with
  | Some n, Some n' => (n <? n')%N
  | Some _, None => true
  | None, _ => false
  end.

(** The keys [ks] of an object, in enumeration order, after a new key
    [k] is placed among them, and after [o[k]] is assigned; the
    enumeration order of the keys of an object whose keys were assigned
    in the order [created]. *)
Fixpoint place (ks : list string) (k : string) : list string :=
  match ks with
  | [] => [k]
  | k' :: rest => if before k k' then k :: ks else k' :: place rest k
  end.

Definition create (ks : list string) (k : string) : list string :=
  if decide (k ∈ ks) then ks else place ks k.

Definition enumerate (created : list string) : list string :=
  fold_left create created [].

(** A list of keys in enumeration order: no key would be enumerated
    before a key that stands earlier in the list. *)
Definition settled (ks : list string) : Prop :=
  StronglySorted (fun k k' => before k' k = false) ks.

(** [parseInt(k)] on the decimal text of a natural number. *)
Definition parseInt (k : string) : nat := N.to_nat (default 0%N (digits k 0)).

Section Obj.
Context {V : Type}.

(** An object with string keys, its entries in the order in which
    [Object.keys], [Object.values], [Object.entries] and [for..in] visit
    them. *)
Definition object : Type := list (string * V).

Fixpoint update (o : object) (k : string) (v : V) : object :=
  match o with
  | [] => []
  | (k', v') :: rest =>
      if decide (k = k') then (k', v) :: rest else (k', v') :: update rest k v
  end.

Fixpoint insert (o : object) (k : string) (v : V) : object :=
  match o with
  | [] => [(k, v)]
  | (k', v') :: rest =>
      if before k k' then (k, v) :: o else (k', v') :: insert rest k v
  end.

(** [o[k] = v] *)
Definition set (o : object) (k : string) (v : V) : object :=
  if has o k then update o k v else insert o k v.
End Obj.
Arguments object V : clear implicits.

End JsObject.

(** ** Minute-bucketed variant, binary64 *)

Module Minute64.
Import PrimFloat Binary64 JsObject.
Local Open Scope float_scope.

Record BetOption : Type := {
  id : string;
  event_id : string;
  label : string;
  total_bets : float;
  bettors : float
}.

Record BettingEvent : Type := {
  ev_id : string;
  title : string;
  total_pool : float;
  participant_count : float;
  status : string
}.

Record BetData : Type := {
  option_id : string;
  amount : float;
  placed_at : Z;
  user_id : string
}.

(** [timestamp] is the text ["YYYY-MM-DDTHH:mm:00"], held as the instant
    it names when read as UTC. *)
Record AnalyticsDataPoint : Type := {
  timestamp : Z;
  percentages : object float;
  totalPool : float;
  participantCount : float;
  totalBets : option (object float);
  velocity : option float;
  bettingVelocity : option float;
  momentum : option (object float)
}.

Record OptionMetadata : Type := {
  om_id : string;
  om_label : string;
  om_color : string
}.

(** The store as the service sees it during one call: what each of its
    reads resolves to.  The loop over the buckets reads the event totals
    anew in every turn; [event_totals n] is the read of turn [n]. *)
Record Supabase : Type := {
  (* from('bets').select(..).eq('event_id', id).order('placed_at') *)
  bets_of : string -> Response (list BetData);
  (* from('events').select('*').eq('id', id).single() *)
  event_of : string -> Response BettingEvent;
  (* from('bet_options').select('*').eq('event_id', id).order('label') *)
  options_of : string -> Response (list BetOption);
  (* from('events').select('total_pool, participant_count').eq('id', id)
       .single(), in turn n *)
  event_totals : nat -> string -> Response BettingEvent
}.

(** What the insights read besides their arguments: the local hour of an
    instant ([getHours]) and the instant that a date-time text without a
    zone names in local time ([new Date(text)]). *)
Record Locale : Type := {
  getHours : Z -> nat;
  localTime : Z -> Z
}.

(** [new Date(placed_at).toISOString().slice(0, 16)] *)
Definition timeKey (placed_at : Z) : Z := (placed_at / 60000)%Z.

(** [if (!o[k]) o[k] = 0; o[k] += x] *)
Definition bump (o : object float) (k : string) (x : float) : object float :=
  let o1 := if absent (get o k) then set o k 0 else o in
  set o1 k (operand (get o1 k) + x).

(** The body of [bets.forEach] that fills [timeMap]. *)
Definition addBet (timeMap : Js.obj Z (object float)) (bet : BetData)
  : Js.obj Z (object float) :=
  let k := timeKey (placed_at bet) in
  let timeMap1 := if has timeMap k then timeMap else Js.set timeMap k [] in
  let slot := default [] (get timeMap1 k) in
  Js.set timeMap1 k (bump slot (option_id bet) (amount bet)).

Definition buildTimeMap (bets : list BetData) : Js.obj Z (object float) :=
  fold_left addBet bets [].

(** [Object.keys(timeMap).sort()] *)
Definition timeBuckets (timeMap : Js.obj Z (object float)) : list Z :=
  merge_sort Z.le (keys timeMap).

(** "Update cumulative totals" *)
Definition addPool (cumulativeData poolPerOption : object float)
  : object float :=
  fold_left
    (fun cum optionId => bump cum optionId (operand (get poolPerOption optionId)))
    (keys poolPerOption) cumulativeData.

(** "Ensure all options have a percentage (even if 0)" *)
Definition fill (optionsData : list BetOption) (percentages : object float)
  : object float :=
  fold_left
    (fun pct option => if has pct (id option) then pct
                       else set pct (id option) 0)
    optionsData percentages.

(** The object [percentages] of one turn. *)
Definition percentagesOf (cumulativeData : object float)
    (optionsData : list BetOption) : object float :=
  let total := sum (values cumulativeData) in
  let shares :=
    fold_left
      (fun pct optionId =>
         set pct optionId
           (if gt total 0
            then toFixed2 (operand (get cumulativeData optionId) / total * 100)
            else 0))
      (keys cumulativeData) [] in
  fill optionsData shares.

(** One turn of [for (const time of timeBuckets)]; the turn is the number
    of points pushed so far. *)
Definition bucketStep (db : Supabase) (eventId : string)
    (timeMap : Js.obj Z (object float)) (optionsData : list BetOption)
    (st : object float * list AnalyticsDataPoint) (time : Z)
  : object float * list AnalyticsDataPoint :=
  let '(cumulativeData, historicalData) := st in
  let poolPerOption := default [] (get timeMap time) in
  let cumulativeData := addPool cumulativeData poolPerOption in
  let total := sum (values cumulativeData) in
  let currentEvent :=
    data (event_totals db (length historicalData) eventId) in
  (cumulativeData,
   historicalData ++
     [{| timestamp := time * 60000;
         percentages := percentagesOf cumulativeData optionsData;
         totalPool := or_num (total_pool <$> currentEvent) total;
         participantCount := or_num (participant_count <$> currentEvent) 0;
         totalBets := Some cumulativeData;
         velocity := Some 0;
         bettingVelocity := None;
         momentum := None |}]).

Definition optionMetadata (optionsData : list BetOption) : list OptionMetadata :=
  imap (fun idx opt =>
          {| om_id := id opt; om_label := label opt;
             om_color := default "" (Minute.optionColors !! (idx mod 5)%nat) |})
       optionsData.

(** [generateOptimizedHistoricalData].  Every pushed point refers to the
    one object [cumulativeData]: in the returned array each [totalBets]
    reads the final totals. *)
Definition generateOptimizedHistoricalData (db : Supabase) (eventId : string)
    (bets : list BetData) (optionsData : list BetOption)
  : list AnalyticsDataPoint * list OptionMetadata :=
  let timeMap := buildTimeMap bets in
  let '(cumulativeData, historicalData) :=
    fold_left (bucketStep db eventId timeMap optionsData)
              (timeBuckets timeMap) ([], []) in
  (map (fun point =>
          {| timestamp := timestamp point;
             percentages := percentages point;
             totalPool := totalPool point;
             participantCount := participantCount point;
             totalBets := Some cumulativeData;
             velocity := velocity point;
             bettingVelocity := bettingVelocity point;
             momentum := momentum point |}) historicalData,
   optionMetadata optionsData).

Record Insights : Type := {
  leadingOption : string;
  volatility : Minute.Volatility;
  trend : Minute.Trend;
  peakBettingHour : nat;
  peakBettingTime : string;
  averageVelocity : float;
  totalBettingVelocity : float;
  volatilityScore : float;
  trendingOption : string;
  lastMajorShift : option Z
}.

#[global] Instance AnalyticsDataPoint_inhabited : Inhabited AnalyticsDataPoint :=
  populate {| timestamp := 0; percentages := []; totalPool := 0;
              participantCount := 0; totalBets := None; velocity := None;
              bettingVelocity := None; momentum := None |}.

(** [point.percentages[optionId] || 0] *)
Definition pct (point : AnalyticsDataPoint) (optionId : string) : float :=
  or_num (get (percentages point) optionId) 0.

Definition leading (first : BetOption) (rest : list BetOption) : BetOption :=
  fold_left (fun prev current =>
               if gt (total_bets current) (total_bets prev)
               then current else prev) rest first.

(** "Calculate volatility based on percentage changes" *)
Definition volatilityOf (leadingId : string)
    (historicalData : list AnalyticsDataPoint) : Minute.Volatility * float :=
  if decide (1 < length historicalData)%nat then
    let changes :=
      imap (fun index point =>
              abs (pct point leadingId
                   - pct (historicalData !!! index) leadingId))
           (drop 1 historicalData) in
    let avgChange := sum changes / ofNat (length changes) in
    (if gt avgChange 10 then Minute.High
     else if gt avgChange 5 then Minute.Medium else Minute.Low,
     min 100 (avgChange * 10))
  else (Minute.Low, 0).

(** "Calculate trend" *)
Definition trendOf (leadingId : string)
    (historicalData : list AnalyticsDataPoint) : Minute.Trend :=
  if decide (2 < length historicalData)%nat then
    let recent := drop (length historicalData - 3) historicalData in
    let leadingPercentages := map (fun point => pct point leadingId) recent in
    let firstPercentage := operand (leadingPercentages !! 0%nat) in
    let lastPercentage :=
      operand (leadingPercentages !! (length leadingPercentages - 1)%nat) in
    let change := lastPercentage - firstPercentage in
    if gt change 2 then Minute.Rising
    else if change <? -2 then Minute.Falling else Minute.Stable
  else Minute.Stable.

(** "Find peak betting hour" *)
Definition peakHourOf (getHours : Z -> nat) (bets : list BetData) : nat :=
  let hourlyBets :=
    fold_left
      (fun hourly bet =>
         let hour := getHours (placed_at bet) in
         <[hour := S (default 0%nat (hourly !! hour))]> hourly)
      bets (replicate 24 0%nat) in
  let most := foldr Nat.max 0%nat hourlyBets in
  default 0%nat (fst <$> list_find (fun count => count = most) hourlyBets).

(** "Calculate average velocity" *)
Definition averageVelocityOf (historicalData : list AnalyticsDataPoint)
  : float :=
  let velocities := omap velocity historicalData in
  if decide (0 < length velocities)%nat
  then sum velocities / ofNat (length velocities) else 0.

(** "Find trending option" *)
Definition trending (historicalData : list AnalyticsDataPoint)
    (first : BetOption) (rest : list BetOption) : BetOption :=
  let latest (optionId : string) : float :=
    or_num (last historicalData ≫= fun latestData =>
              get (percentages latestData) optionId) 0 in
  fold_left (fun prev current =>
               if gt (latest (id current)) (latest (id prev))
               then current else prev) rest first.

(** "Find last major shift (>5% change in leading option)": the loop
    [for (let i = historicalData.length - 1; i > 0; i--)], entered at [i].
    The reported [Date] is [new Date(historicalData[i].timestamp)]: the
    text of the timestamp has no zone and is read in local time. *)
Fixpoint scanShift (localTime : Z -> Z) (leadingId : string)
    (historicalData : list AnalyticsDataPoint) (i : nat) : option Z :=
  match i with
  | O => None
  | S j =>
      let current := pct (historicalData !!! i) leadingId in
      let previous := pct (historicalData !!! j) leadingId in
      if gt (abs (current - previous)) 5
      then Some (localTime (timestamp (historicalData !!! i)))
      else scanShift localTime leadingId historicalData j
  end.

Definition lastMajorShiftOf (localTime : Z -> Z) (leadingId : string)
    (historicalData : list AnalyticsDataPoint) : option Z :=
  scanShift localTime leadingId historicalData (length historicalData - 1).

Definition calculateEnhancedInsights (zone : Locale)
    (options : list BetOption) (historicalData : list AnalyticsDataPoint)
    (bets : list BetData) : Insights :=
  match options with
  | [] =>
      {| leadingOption := "No options available";
         volatility := Minute.Low;
         trend := Minute.Stable;
         peakBettingHour := 0;
         peakBettingTime := "0:00";
         averageVelocity := 0;
         totalBettingVelocity := 0;
         volatilityScore := 0;
         trendingOption := "No options available";
         lastMajorShift := None |}
  | first :: rest =>
      let leadingOption := leading first rest in
      let '(volatility, volatilityScore) :=
        volatilityOf (id leadingOption) historicalData in
      let peakHour := peakHourOf (getHours zone) bets in
      let averageVelocity := averageVelocityOf historicalData in
      {| leadingOption := label leadingOption;
         volatility := volatility;
         trend := trendOf (id leadingOption) historicalData;
         peakBettingHour := peakHour;
         peakBettingTime := pretty peakHour +:+ ":00";
         averageVelocity := averageVelocity;
         totalBettingVelocity := averageVelocity;
         volatilityScore := volatilityScore;
         trendingOption := label (trending historicalData first rest);
         lastMajorShift :=
           lastMajorShiftOf (localTime zone) (id leadingOption) historicalData |}
  end.

Record EventAnalyticsData : Type := {
  event : BettingEvent;
  options : list (BetOption * string);
  currentPercentages : object float;
  historicalData : list AnalyticsDataPoint;
  ead_totalPool : float;
  insights : Insights
}.

Definition getEventAnalytics (db : Supabase) (zone : Locale)
    (eventId : string) : Minute.Failure + EventAnalyticsData :=
  let betsResponse := bets_of db eventId in
  match error betsResponse with
  | Some message => inl (Minute.BetsError message)
  | None =>
  let eventResponse := event_of db eventId in
  match error eventResponse with
  | Some message => inl (Minute.EventNotFound message)
  | None =>
  let optionsResponse := options_of db eventId in
  match error optionsResponse with
  | Some message => inl (Minute.OptionsError message)
  | None =>
  match data betsResponse, data eventResponse, data optionsResponse with
  | Some bets, Some event, Some optionsData =>
      let '(historicalData, _) :=
        generateOptimizedHistoricalData db eventId bets optionsData in
      let totalPool := or_num (Some (total_pool event)) 0 in
      let currentPercentages :=
        fold_left
          (fun acc option =>
             set acc (id option)
               (if gt totalPool 0
                then total_bets option / totalPool * 100 else 0))
          optionsData [] in
      inr {| event := event;
             options := imap (fun index option =>
                                (option, Minute.getOptionColor index)) optionsData;
             currentPercentages := currentPercentages;
             historicalData := historicalData;
             ead_totalPool := totalPool;
             insights :=
               calculateEnhancedInsights zone optionsData historicalData bets |}
  | _, _, _ => inl Minute.TypeError
  end end end end.

End Minute64.

(** ** Hour-bucketed variant, binary64 *)

Module Hourly64.
Import PrimFloat Binary64 JsObject.
Local Open Scope float_scope.
#[local] Set Warnings "-inexact-float".

Record AnalyticsDataPoint : Type := {
  timestamp : Z;
  percentages : object float;
  totalPool : float;
  bettingVelocity : option float;
  momentum : option (object float)
}.

#[global] Instance AnalyticsDataPoint_inhabited : Inhabited AnalyticsDataPoint :=
  populate {| timestamp := 0; percentages := []; totalPool := 0;
              bettingVelocity := None; momentum := None |}.

(** A row of [bet_options]. *)
Record OptionRow : Type := {
  row_id : string;
  row_label : string;
  odds : float;
  total_bets : float;
  row_bettors : float;
  created_at : Z
}.

(** An element of [optionsWithColors]. *)
Record BetOption : Type := {
  id : string;
  label : string;
  totalBets : float;
  color : string;
  row : OptionRow
}.

Record EventRow : Type := {
  ev_id : string;
  title : string;
  total_pool : float;
  participant_count : float;
  status : string
}.

Record Bet : Type := {
  option_id : string;
  amount : float;
  placed_at : Z;
  user_id : string
}.

Record Supabase : Type := {
  (* from('events').select(..).eq('id', id).single() *)
  event_of : string -> Response EventRow;
  (* from('bet_options').select(..).eq('event_id', id).order('created_at') *)
  options_of : string -> Response (list OptionRow);
  (* from('bets').select(..).eq('event_id', id).eq('status', 'active')
       .order('placed_at') *)
  bets_of : string -> Response (list Bet)
}.

(** What the computation reads besides the store. *)
Record Ambient : Type := {
  now : Z;               (* new Date(), read once on every path *)
  random : nat -> float; (* the n-th result of Math.random() *)
  sin : float -> float;  (* Math.sin *)
  getHours : Z -> nat    (* the local hour of an instant *)
}.

Definition hour : Z := (60 * 60 * 1000)%Z.

(** The values of [i] of [for (let i = n - 1; i >= 0; i--)]. *)
Definition countdown (n : nat) : list nat := reverse (seq 0 n).

(** The points of [generateEmptyHistoricalData] and of the "No bets yet"
    branch. *)
Definition equalPoint (timestamp : Z) (options : list BetOption)
  : AnalyticsDataPoint :=
  let equalShare := 100 / ofNat (length options) in
  let '(percentages, momentum) :=
    fold_left
      (fun '(percentages, momentum) option =>
         (set percentages (id option) equalShare, set momentum (id option) 0))
      options ([], []) in
  {| timestamp := timestamp;
     percentages := percentages;
     totalPool := 0;
     bettingVelocity := Some 0;
     momentum := Some momentum |}.

Definition generateEmptyHistoricalData (now : Z) (options : list BetOption)
  : list AnalyticsDataPoint :=
  map (fun i => equalPoint (now - Z.of_nat i * hour) options) (countdown 24).

(** "Calculate betting distribution at this point in time": the totals per
    option and the total amount of [betsUpToThisHour]. *)
Definition distribution (betsUpToThisHour : list Bet) : object float * float :=
  fold_left
    (fun '(optionTotals, totalAmount) bet =>
       (set optionTotals (option_id bet)
          (or_num (get optionTotals (option_id bet)) 0 + amount bet),
        totalAmount + amount bet))
    betsUpToThisHour ([], 0).

(** One turn of [for (let i = totalHours - 1; i >= 0; i--)]: the point
    pushed on [dataPoints]. *)
Definition hourPoint (now : Z) (allBets : list Bet) (options : list BetOption)
    (dataPoints : list AnalyticsDataPoint) (i : nat) : AnalyticsDataPoint :=
  let hourStart := (now - (Z.of_nat i + 1) * hour)%Z in
  let hourEnd := (now - Z.of_nat i * hour)%Z in
  let betsUpToThisHour :=
    filter (fun bet => (placed_at bet <= hourEnd)%Z) allBets in
  let betsInThisHour :=
    filter (fun bet => (hourStart < placed_at bet)%Z
                       /\ (placed_at bet <= hourEnd)%Z) allBets in
  match betsUpToThisHour with
  | [] => equalPoint hourEnd options
  | _ =>
      let '(optionTotals, totalAmount) := distribution betsUpToThisHour in
      let percentages :=
        fold_left
          (fun pct option =>
             let optionAmount := or_num (get optionTotals (id option)) 0 in
             set pct (id option)
               (if gt totalAmount 0
                then optionAmount / totalAmount * 100
                else 100 / ofNat (length options)))
          options [] in
      let momentum :=
        match last dataPoints with
        | Some previousPoint =>
            fold_left
              (fun mom option =>
                 set mom (id option)
                   (operand (get percentages (id option))
                    - operand (get (Hourly64.percentages previousPoint)
                                   (id option))))
              options []
        | None =>
            fold_left (fun mom option => set mom (id option) 0) options []
        end in
      {| timestamp := hourEnd;
         percentages := percentages;
         totalPool := totalAmount;
         bettingVelocity := Some (ofNat (length betsInThisHour));
         momentum := Some momentum |}
  end.

(** The array [dataPoints] when the loop ends. *)
Definition hourlyPoints (now : Z) (allBets : list Bet)
    (options : list BetOption) : list AnalyticsDataPoint :=
  fold_left
    (fun dataPoints i => dataPoints ++ [hourPoint now allBets options dataPoints i])
    (countdown 24) [].

(** [o?.[k] || 0] *)
Definition opt_at (o : option (object float)) (k : string) : float :=
  or_num (o ≫= fun m => get m k) 0.

(** The point that replaces an interior point. *)
Definition smoothPoint (prev current next : AnalyticsDataPoint)
  : AnalyticsDataPoint :=
  let '(smoothedPercentages, smoothedMomentum) :=
    fold_left
      (fun '(sp, sm) optionId =>
         let prevVal := or_num (get (percentages prev) optionId) 0 in
         let currentVal := or_num (get (percentages current) optionId) 0 in
         let nextVal := or_num (get (percentages next) optionId) 0 in
         let prevMom := opt_at (momentum prev) optionId in
         let currentMom := opt_at (momentum current) optionId in
         let nextMom := opt_at (momentum next) optionId in
         (set sp optionId (prevVal * 0.2 + currentVal * 0.6 + nextVal * 0.2),
          set sm optionId (prevMom * 0.2 + currentMom * 0.6 + nextMom * 0.2)))
      (keys (percentages current)) ([], []) in
  {| timestamp := timestamp current;
     percentages := smoothedPercentages;
     totalPool := totalPool current;
     bettingVelocity := bettingVelocity current;
     momentum := Some smoothedMomentum |}.

Definition smoothDataPoints (dataPoints : list AnalyticsDataPoint)
  : list AnalyticsDataPoint :=
  if decide (length dataPoints < 3)%nat then dataPoints
  else
    imap (fun i current =>
            if decide (i = 0 \/ i = length dataPoints - 1)%nat then current
            else smoothPoint (dataPoints !!! (i - 1)%nat) current
                             (dataPoints !!! (i + 1)%nat))
         dataPoints.

(** One turn of the loop of [generateFallbackHistoricalData]; [n] counts
    the calls of [Math.random] made so far. *)
Definition fallbackPoint (env : Ambient) (options : list BetOption)
    (totalBets : float) (currentPercentages : object float)
    (n : nat) (i : nat) : nat * AnalyticsDataPoint :=
  let variationFactor := min (ofNat i / 12) 1 in
  let '(n, _, percentages, momentum) :=
    fold_left
      (fun '(n, index, percentages, momentum) option =>
         let currentPerc := operand (get currentPercentages (id option)) in
         let baseVariation := (random env n - 0.5) * 20 * variationFactor in
         let timePattern :=
           sin env (ofNat (i + index * 2) / 6) * 10 * variationFactor in
         let historicalPerc :=
           max 5 (min 85 (currentPerc + baseVariation + timePattern)) in
         (S n, S index, set percentages (id option) historicalPerc,
          set momentum (id option) baseVariation))
      options (n, 0%nat, [], []) in
  let total := sum (values percentages) in
  let percentages :=
    fold_left
      (fun pct key => set pct key (operand (get pct key) / total * 100))
      (keys percentages) percentages in
  let growthFactor := 0.3 + 0.7 * ofNat (23 - i) / 23 in
  let randomVariation := 0.8 + random env n * 0.4 in
  let estimatedPool := totalBets * 50 * growthFactor * randomVariation in
  (S (S n),
   {| timestamp := (now env - Z.of_nat i * hour)%Z;
      percentages := percentages;
      totalPool := max 0 estimatedPool;
      bettingVelocity := Some (floor (random env (S n) * 5) + 1);
      momentum := Some momentum |}).

Definition generateFallbackHistoricalData (env : Ambient)
    (options : list BetOption) : list AnalyticsDataPoint :=
  let totalBets := fold_left (fun sum option => sum + totalBets option) options 0 in
  let currentPercentages :=
    if gt totalBets 0 then
      fold_left
        (fun cp option =>
           set cp (id option) (Hourly64.totalBets option / totalBets * 100))
        options []
    else
      let equalShare := 100 / ofNat (length options) in
      fold_left (fun cp option => set cp (id option) equalShare) options [] in
  snd (fold_left
         (fun '(n, dataPoints) i =>
            let '(n, point) :=
              fallbackPoint env options totalBets currentPercentages n i in
            (n, dataPoints ++ [point]))
         (countdown 24) (0%nat, [])).

(** [generateRealHistoricalData]: a failed read of the bets is caught and
    answered with the fallback. *)
Definition generateRealHistoricalData (db : Supabase) (env : Ambient)
    (eventId : string) (options : list BetOption) : list AnalyticsDataPoint :=
  let response := bets_of db eventId in
  match error response with
  | Some _ => generateFallbackHistoricalData env options
  | None =>
      match data response with
      | None | Some [] => generateEmptyHistoricalData (now env) options
      | Some allBets => smoothDataPoints (hourlyPoints (now env) allBets options)
      end
  end.

Record Insights : Type := {
  peakBettingHour : nat;
  totalBettingVelocity : float;
  trendingOption : string;
  volatilityScore : float;
  lastMajorShift : option Z
}.

(** "Calculate peak betting hour": the volumes by hour of the day, the
    hours being array indices of the object [hourlyVolume], and the first
    hour, in ascending order, with the largest volume above 0. *)
Definition hourlyVolumeOf (getHours : Z -> nat)
    (historicalData : list AnalyticsDataPoint) : object float :=
  fold_left
    (fun hourlyVolume point =>
       let hour := pretty (getHours (timestamp point)) in
       set hourlyVolume hour
         (or_num (get hourlyVolume hour) 0
          + or_num (bettingVelocity point) 0))
    historicalData [].

Definition peakHourOf (hourlyVolume : object float) : nat :=
  fst (fold_left
         (fun peak entry =>
            if gt entry.2 peak.2
            then (parseInt entry.1, entry.2)
            else peak)
         hourlyVolume (0%nat, 0)).

(** "Calculate total betting velocity (average bets per hour)" *)
Definition totalBettingVelocityOf (historicalData : list AnalyticsDataPoint)
  : float :=
  fold_left (fun sum point => sum + or_num (bettingVelocity point) 0)
            historicalData 0
  / ofNat (length historicalData).

(** "Calculate volatility score" *)
Definition volatilityScoreOf (options : list BetOption)
    (historicalData : list AnalyticsDataPoint) : float :=
  let volatilityScores :=
    map (fun option =>
           let percentageChanges :=
             imap (fun index point =>
                     abs (or_num (get (percentages point) (id option)) 0
                          - or_num (get (percentages (historicalData !!! index))
                                        (id option)) 0))
                  (drop 1 historicalData) in
           sum percentageChanges / ofNat (length percentageChanges))
        options in
  sum volatilityScores / ofNat (length volatilityScores).

(** [options.some(option => Math.abs(..) > 10)] *)
Definition hasShift (options : list BetOption)
    (current previous : AnalyticsDataPoint) : bool :=
  existsb
    (fun option =>
       gt (abs (or_num (get (percentages current) (id option)) 0
                - or_num (get (percentages previous) (id option)) 0)) 10)
    options.

(** "Find last major shift (>10% change in any option)": the loop
    [for (let i = historicalData.length - 1; i >= 1; i--)], entered at [i]. *)
Fixpoint scanShift (options : list BetOption)
    (historicalData : list AnalyticsDataPoint) (i : nat) : option Z :=
  match i with
  | O => None
  | S j =>
      let current := historicalData !!! i in
      let previous := historicalData !!! j in
      if hasShift options current previous then Some (timestamp current)
      else scanShift options historicalData j
  end.

Definition lastMajorShiftOf (options : list BetOption)
    (historicalData : list AnalyticsDataPoint) : option Z :=
  scanShift options historicalData (length historicalData - 1).

(** [generateEventInsights].  With no point or no option the [try] block
    throws a [TypeError] ([latestData.momentum], [trendingOption.label]),
    and the [catch] block answers. *)
Definition generateEventInsights (getHours : Z -> nat)
    (historicalData : list AnalyticsDataPoint)
    (options : list BetOption) : Insights :=
  match last historicalData, options with
  | Some latestData, first :: _ =>
      let trendingOption :=
        fold_left
          (fun trending option =>
             if gt (opt_at (momentum latestData) (id option))
                   (opt_at (momentum latestData) (id trending))
             then option else trending)
          options first in
      {| peakBettingHour := peakHourOf (hourlyVolumeOf getHours historicalData);
         totalBettingVelocity := totalBettingVelocityOf historicalData;
         trendingOption := label trendingOption;
         volatilityScore := volatilityScoreOf options historicalData;
         lastMajorShift := lastMajorShiftOf options historicalData |}
  | _, first :: _ =>
      {| peakBettingHour := 0;
         totalBettingVelocity := 0;
         trendingOption := if String.eqb (label first) "" then "Unknown"
                           else label first;
         volatilityScore := 0;
         lastMajorShift := None |}
  | _, [] =>
      {| peakBettingHour := 0;
         totalBettingVelocity := 0;
         trendingOption := "Unknown";
         volatilityScore := 0;
         lastMajorShift := None |}
  end.

Record EventAnalyticsData : Type := {
  eventId : string;
  options : list BetOption;
  ead_totalPool : float;
  participantCount : float;
  historicalData : list AnalyticsDataPoint;
  insights : Insights
}.

Definition getEventAnalytics (db : Supabase) (env : Ambient) (eventId : string)
  : Hourly.Failure + EventAnalyticsData :=
  let eventResponse := event_of db eventId in
  match error eventResponse, data eventResponse with
  | Some message, _ => inl (Hourly.EventError message)
  | None, None => inl Hourly.EventNotFound
  | None, Some event =>
      let optionsResponse := options_of db eventId in
      match error optionsResponse, data optionsResponse with
      | Some message, _ => inl (Hourly.OptionsError message)
      | None, None | None, Some [] => inl Hourly.NoOptions
      | None, Some options =>
          let optionsWithColors :=
            imap (fun index option =>
                    {| id := row_id option;
                       label := row_label option;
                       totalBets := total_bets option;
                       color := default ""
                                  (Hourly.OPTION_COLORS !! (index mod 8)%nat);
                       row := option |})
                 options in
          let historicalData :=
            generateRealHistoricalData db env eventId optionsWithColors in
          inr {| eventId := eventId;
                 options := optionsWithColors;
                 ead_totalPool := total_pool event;
                 participantCount := participant_count event;
                 historicalData := historicalData;
                 insights :=
                   generateEventInsights (getHours env) historicalData
                                         optionsWithColors |}
      end
  end.

End Hourly64.

(** ** Specification-level notions over binary64 *)

Module Spec64.
Import PrimFloat Binary64 JsObject.
Local Open Scope float_scope.

(** [x] added to a total that an object holds: the total counts as 0
    while it is undefined or falsy. *)
Definition plus (total : option float) (x : float) : option float :=
  Some (or_num total 0 + x).

(** The elements of a list without their repetitions, in the order of
    their first occurrences. *)
Definition firsts {A} `{EqDecision A} (xs : list A) : list A :=
  fold_left (fun seen x => if decide (x ∈ seen) then seen else seen ++ [x])
            xs [].

(** The share of an option in a [percentages] object, 0 when the entry is
    undefined or falsy. *)
Definition shareOf (percentages : object float) (optionId : string) : float :=
  or_num (get percentages optionId) 0.

(** An option's share moved by more than [threshold] points between two
    consecutive [percentages] objects: the binary64 difference of the
    shares exceeds the threshold in magnitude. *)
Definition moved (threshold : float) (optionId : string)
    (previous current : object float) : Prop :=
  gt (abs (shareOf current optionId - shareOf previous optionId)) threshold
  = true.

(** *** Minute variant *)

(** The minutes in which the ledger has bets, each once, ascending. *)
Definition minutes (bets : list Minute64.BetData) : list Z :=
  merge_sort Z.le
    (firsts (map (fun bet => Minute64.timeKey (Minute64.placed_at bet)) bets)).

(** What the ledger staked on an option within one minute, added up in
    the order of the ledger; undefined when it has no such bet. *)
Definition slotTotal (bets : list Minute64.BetData) (minute : Z)
    (optionId : string) : option float :=
  fold_left
    (fun total bet =>
       if decide (Minute64.timeKey (Minute64.placed_at bet) = minute
                  /\ Minute64.option_id bet = optionId)
       then plus total (Minute64.amount bet) else total)
    bets None.

(** The running total of an option over the minutes [upTo], the totals of
    the minutes added up in their order; undefined when the ledger has no
    bet on the option in these minutes. *)
Definition runningTotal (bets : list Minute64.BetData) (upTo : list Z)
    (optionId : string) : option float :=
  fold_left
    (fun total minute =>
       match slotTotal bets minute optionId with
       | Some x => plus total x
       | None => total
       end)
    upTo None.

(** The totals of one minute as the object that holds them, and the
    object [cumulativeData] after the turns of the loop for the minutes
    [upTo]. *)
Definition slotOf (bets : list Minute64.BetData) (minute : Z) : object float :=
  fold_left
    (fun slot bet =>
       if decide (Minute64.timeKey (Minute64.placed_at bet) = minute)
       then Minute64.bump slot (Minute64.option_id bet) (Minute64.amount bet)
       else slot)
    bets [].

Definition cumulativeAfter (bets : list Minute64.BetData) (upTo : list Z)
  : object float :=
  fold_left (fun cum minute => Minute64.addPool cum (slotOf bets minute))
            upTo [].

(** The option ids of the bets of one minute, in enumeration order. *)
Definition idsIn (bets : list Minute64.BetData) (minute : Z) : list string :=
  enumerate
    (map Minute64.option_id
       (filter (fun bet => Minute64.timeKey (Minute64.placed_at bet) = minute)
               bets)).

(** The option ids that have a running total over the minutes [upTo], in
    the enumeration order of the object that holds the totals. *)
Definition idsUpTo (bets : list Minute64.BetData) (upTo : list Z)
  : list string :=
  enumerate (upTo ≫= idsIn bets).

(** The sum of all running totals, added up in that order. *)
Definition runningPool (bets : list Minute64.BetData) (upTo : list Z) : float :=
  sum (map (fun optionId => operand (runningTotal bets upTo optionId))
           (idsUpTo bets upTo)).

(** The percentage of the minute-bucketed loop from a running total and
    the sum of all of them. *)
Definition roundedShare (total pool : float) : float :=
  if gt pool 0 then toFixed2 (total / pool * 100) else 0.

(** Minute variant: the transition into point [i] moved the share of the
    option [leadingId] by more than 5 points. *)
Definition shift5 (leadingId : string)
    (historicalData : list Minute64.AnalyticsDataPoint) (i : nat) : Prop :=
  moved 5 leadingId
    (Minute64.percentages (historicalData !!! (i - 1)%nat))
    (Minute64.percentages (historicalData !!! i)).

(** The trend as the specification words it: the change of the leading
    option's share over the last three points, or over the last two when
    there are only two; Stable with fewer than two points. *)
Definition trendAsSpecified (leadingId : string)
    (historicalData : list Minute64.AnalyticsDataPoint) : Minute.Trend :=
  if decide (length historicalData < 2)%nat then Minute.Stable
  else
    let window := drop (length historicalData - 3) historicalData in
    match head window, last window with
    | Some oldest, Some latest =>
        let change := shareOf (Minute64.percentages latest) leadingId
                      - shareOf (Minute64.percentages oldest) leadingId in
        if gt change 2 then Minute.Rising
        else if change <? -2 then Minute.Falling
        else Minute.Stable
    | _, _ => Minute.Stable
    end.

(** *** Hourly variant *)

(** What the ledger staked on an option up to and including the instant
    [hourEnd], added up in the order of the ledger; undefined when it has
    no such bet. *)
Definition hourTotal (allBets : list Hourly64.Bet) (hourEnd : Z)
    (optionId : string) : option float :=
  fold_left
    (fun total bet =>
       if decide ((Hourly64.placed_at bet <= hourEnd)%Z
                  /\ Hourly64.option_id bet = optionId)
       then plus total (Hourly64.amount bet) else total)
    allBets None.

(** What the ledger staked on all options up to and including [hourEnd],
    added up in the order of the ledger. *)
Definition hourPool (allBets : list Hourly64.Bet) (hourEnd : Z) : float :=
  fold_left
    (fun total bet =>
       if decide (Hourly64.placed_at bet <= hourEnd)%Z
       then total + Hourly64.amount bet else total)
    allBets 0.

(** The number of bets of a ledger placed within the hour that ends at
    [hourEnd]: after [hourEnd - 1h], not after [hourEnd]. *)
Definition betsInWindow (allBets : list Hourly64.Bet) (hourEnd : Z) : nat :=
  length (filter (fun bet => (hourEnd - Hourly64.hour < Hourly64.placed_at bet)%Z
                             /\ (Hourly64.placed_at bet <= hourEnd)%Z) allBets).

(** The percentage of the hour-bucketed loop: the share, or the equal
    split among [n] options when the pool is not positive. *)
Definition share (total : option float) (pool : float) (n : nat) : float :=
  if gt pool 0 then or_num total 0 / pool * 100 else 100 / ofNat n.

(** Hourly variant: the transition into point [i] moved the share of some
    option of the list by more than 10 points. *)
Definition shift10 (options : list Hourly64.BetOption)
    (historicalData : list Hourly64.AnalyticsDataPoint) (i : nat) : Prop :=
  exists option, option ∈ options /\
    moved 10 (Hourly64.id option)
      (Hourly64.percentages (historicalData !!! (i - 1)%nat))
      (Hourly64.percentages (historicalData !!! i)).

(** The betting velocity of the latest point of a result. *)
Definition latestVelocity
    (result : Hourly.Failure + Hourly64.EventAnalyticsData) : option float :=
  match result with
  | inr analytics =>
      last (Hourly64.historicalData analytics) ≫= Hourly64.bettingVelocity
  | inl _ => None
  end.

End Spec64.

Module Sample64.
Import PrimFloat Binary64 JsObject.
Local Open Scope float_scope.

(** Rows and a store for the minute-bucketed service; every read
    succeeds, and every turn of the loop reads the same event row. *)
Definition bet (optionId : string) (amount : float) (placed_at : Z)
  : Minute64.BetData :=
  {| Minute64.option_id := optionId; Minute64.amount := amount;
     Minute64.placed_at := placed_at; Minute64.user_id := "user" |}.

Definition option (id : string) (total_bets : float) : Minute64.BetOption :=
  {| Minute64.id := id; Minute64.event_id := "event"; Minute64.label := id;
     Minute64.total_bets := total_bets; Minute64.bettors := 1 |}.

Definition event (total_pool : float) : Minute64.BettingEvent :=
  {| Minute64.ev_id := "event"; Minute64.title := "title";
     Minute64.total_pool := total_pool; Minute64.participant_count := 2;
     Minute64.status := "active" |}.

Definition store (event : Minute64.BettingEvent)
    (options : list Minute64.BetOption) (bets : list Minute64.BetData)
  : Minute64.Supabase :=
  {| Minute64.bets_of := fun _ => ok bets;
     Minute64.event_of := fun _ => ok event;
     Minute64.options_of := fun _ => ok options;
     Minute64.event_totals := fun _ _ => ok event |}.

(** A store whose event row changes its pool between the turns of the
    loop: turn [n] reads the pool [pools n]. *)
Definition movingStore (pools : nat -> float)
    (options : list Minute64.BetOption) (bets : list Minute64.BetData)
  : Minute64.Supabase :=
  {| Minute64.bets_of := fun _ => ok bets;
     Minute64.event_of := fun _ => ok (event (pools 0%nat));
     Minute64.options_of := fun _ => ok options;
     Minute64.event_totals := fun n _ => ok (event (pools n)) |}.

(** A runtime two hours east of UTC: a date-time text without a zone
    names an instant two hours before the same text read as UTC. *)
Definition zone : Minute64.Locale :=
  {| Minute64.getHours := fun t => Z.to_nat (((t + 7200000) / 3600000) mod 24);
     Minute64.localTime := fun t => (t - 7200000)%Z |}.

(** 23 on A and 137 on B in one minute: A holds 14.375 percent. *)
Definition eighths : list Minute64.BetData := [bet "A" 23 0; bet "B" 137 0].
Definition eighthsOptions : list Minute64.BetOption :=
  [option "A" 23; option "B" 137].

(** 100 on A in one minute, 300 on B in the next. *)
Definition twoOptions : list Minute64.BetOption :=
  [option "A" 100; option "B" 300].
Definition twoMinutes : list Minute64.BetData :=
  [bet "A" 100 0; bet "B" 300 60000].

Definition twoMinuteSeries : list Minute64.AnalyticsDataPoint :=
  (Minute64.generateOptimizedHistoricalData
     (store (event 400) twoOptions twoMinutes) "event" twoMinutes twoOptions).1.

(** The leading option A holds 6.05 percent in the first two minutes
    and 8.05 percent in the third. *)
Definition leadOptions : list Minute64.BetOption :=
  [option "A" 20000; option "B" 100].
Definition risingMinutes : list Minute64.BetData :=
  [bet "A" 605 0; bet "B" 9395 0; bet "A" 0 60000;
   bet "A" 1005 120000; bet "B" 8995 120000].

Definition risingSeries : list Minute64.AnalyticsDataPoint :=
  (Minute64.generateOptimizedHistoricalData
     (store (event 20000) leadOptions risingMinutes) "event" risingMinutes
     leadOptions).1.

(** The leading option A holds 6.05 percent in the first minute and
    11.05 percent in the second. *)
Definition shiftMinutes : list Minute64.BetData :=
  [bet "A" 605 0; bet "B" 9395 0; bet "A" 1605 60000; bet "B" 8395 60000].

Definition shiftSeries : list Minute64.AnalyticsDataPoint :=
  (Minute64.generateOptimizedHistoricalData
     (store (event 20000) leadOptions shiftMinutes) "event" shiftMinutes
     leadOptions).1.

(** Three options; in the second minute B and C trade ten points while
    A, the leading option, keeps its half. *)
Definition threeOptions : list Minute64.BetOption :=
  [option "A" 100; option "B" 40; option "C" 60].
Definition swapMinutes : list Minute64.BetData :=
  [bet "A" 50 0; bet "B" 30 0; bet "C" 20 0;
   bet "A" 50 60000; bet "B" 10 60000; bet "C" 40 60000].

(** A single bet of amount 0. *)
Definition zeroBet : list Minute64.BetData := [bet "A" 0 0].

(** Amounts that binary64 cannot add exactly: 2^53 and then 1 on the
    same option, in two minutes. *)
Definition hugeBets : list Minute64.BetData :=
  [bet "A" 9007199254740992 0; bet "A" 1 60000].

Definition hugeSeries : list Minute64.AnalyticsDataPoint :=
  (Minute64.generateOptimizedHistoricalData
     (store (event 0) twoOptions hugeBets) "event" hugeBets twoOptions).1.

(** The event row holds the pool 400 when the first turn reads it and
    the pool 700 from the second turn on. *)
Definition growingPool (n : nat) : float :=
  match n with O => 400 | _ => 700 end.

Definition growingSeries : list Minute64.AnalyticsDataPoint :=
  (Minute64.generateOptimizedHistoricalData
     (movingStore growingPool twoOptions twoMinutes) "event" twoMinutes
     twoOptions).1.

(** Rows, stores and surroundings for the hour-bucketed service. *)
Definition row (id : string) (total_bets : float) : Hourly64.OptionRow :=
  {| Hourly64.row_id := id; Hourly64.row_label := id; Hourly64.odds := 2;
     Hourly64.total_bets := total_bets; Hourly64.row_bettors := 1;
     Hourly64.created_at := 0 |}.

Definition eventRow : Hourly64.EventRow :=
  {| Hourly64.ev_id := "event"; Hourly64.title := "title";
     Hourly64.total_pool := 400; Hourly64.participant_count := 2;
     Hourly64.status := "active" |}.

Definition hourlyBet (optionId : string) (amount : float) (placed_at : Z)
  : Hourly64.Bet :=
  {| Hourly64.option_id := optionId; Hourly64.amount := amount;
     Hourly64.placed_at := placed_at; Hourly64.user_id := "user" |}.

Definition hourlyStore (rows : list Hourly64.OptionRow)
    (bets : Response (list Hourly64.Bet)) : Hourly64.Supabase :=
  {| Hourly64.event_of := fun _ => ok eventRow;
     Hourly64.options_of := fun _ => ok rows;
     Hourly64.bets_of := fun _ => bets |}.

Definition hourlyOption (id : string) (totalBets : float) : Hourly64.BetOption :=
  {| Hourly64.id := id; Hourly64.label := id; Hourly64.totalBets := totalBets;
     Hourly64.color := "#3B82F6"; Hourly64.row := row id totalBets |}.

(** 1 on A and 2 on B, both at the instant 0. *)
Definition thirds : list Hourly64.Bet := [hourlyBet "A" 1 0; hourlyBet "B" 2 0].
Definition thirdsOptions : list Hourly64.BetOption :=
  [hourlyOption "A" 1; hourlyOption "B" 2].

(** A three-point hourly series over the options "a" and "b". *)
Definition point (t : Z) (a b : float) : Hourly64.AnalyticsDataPoint :=
  {| Hourly64.timestamp := t;
     Hourly64.percentages := [("a", a); ("b", b)];
     Hourly64.totalPool := 10;
     Hourly64.bettingVelocity := Some 1;
     Hourly64.momentum := Some [("a", 0); ("b", 0)] |}.

Definition series3 : list Hourly64.AnalyticsDataPoint :=
  [point 1 40 60; point 2 50 50; point 3 90 10].

(** A stand-in for [Math.sin] in closed examples; none of them depends on
    its values. *)
Definition sinStandIn (x : float) : float := x - x * x * x / 6.

(** Surroundings in which every call of [Math.random] returns [r]. *)
Definition ambient (r : float) : Hourly64.Ambient :=
  {| Hourly64.now := 86400000; Hourly64.random := fun _ => r;
     Hourly64.sin := sinStandIn;
     Hourly64.getHours := fun t => Z.to_nat ((t / 3600000) mod 24) |}.

End Sample64.

(** ** Live queries of the second revision, binary64 *)

Module Live64.
Import PrimFloat Binary64 JsObject Hourly64.
Local Open Scope float_scope.
#[local] Set Warnings "-inexact-float".

(** What the exports below read from the store. *)
Record Supabase : Type := {
  (* from('bet_options').select(..).eq('event_id', id) *)
  option_stats : string -> Response (list OptionRow);
  (* from('events').select('total_pool, participant_count').eq('id', id)
       .single() *)
  event_totals : string -> Response EventRow;
  (* from('bets').select('placed_at').eq('event_id', id)
       .eq('status', 'active').gte('placed_at', t): the [placed_at] of
     the rows *)
  placed_since : string -> Z -> Response (list Z);
  (* from('bets').select('option_id, amount, placed_at, user_id')
       .eq('event_id', id).eq('status', 'active').order('placed_at') *)
  active_bets : string -> Response (list Bet)
}.

(** [new Date(placed_at).toISOString().slice(0, 13)]: the hour number.
    The text ["YYYY-MM-DDTHH"] is no array index: an object keyed by it
    lists its keys in the order of their creation. *)
Definition hourKey (placed_at : Z) : Z := (placed_at / 3600000)%Z.

(** [o[k] = (o[k] || 0) + x] *)
Definition tally (o : Js.obj Z float) (k : Z) (x : float) : Js.obj Z float :=
  Js.set o k (or_num (get o k) 0 + x).

(** [getBettingVelocity]; [now] is what [Date.now()] returns.  Every
    failure is caught and answered with the empty object. *)
Definition getBettingVelocity (db : Supabase) (now : Z) (eventId : string)
  : Js.obj Z float :=
  let response :=
    placed_since db eventId (now - 24 * 60 * 60 * 1000) in
  match error response with
  | Some _ => []
  | None =>
      match data response with
      | Some bets =>
          fold_left (fun velocity placed_at => tally velocity (hourKey placed_at) 1)
                    bets []
      | None => []
      end
  end.

Record RealTimeStats : Type := {
  rt_percentages : object float;
  rt_totalPool : float;
  rt_totalBets : float;
  rt_participantCount : float;
  rt_timestamp : Z;
  rt_bettingVelocity : float
}.

(** [getRealTimeBettingStats]; [clock n] is the [n]-th reading of the
    clock ([Date.now()] in [getBettingVelocity], then [new Date()] twice).
    Only an error of the first read is thrown. *)
Definition getRealTimeBettingStats (db : Supabase) (clock : nat -> Z)
    (eventId : string) : string + RealTimeStats :=
  let response := option_stats db eventId in
  match error response with
  | Some message => inl message
  | None =>
      let optionStats := data response in
      let event := data (event_totals db eventId) in
      let totalBets :=
        or_num ((fun options =>
                   fold_left (fun sum option => sum + total_bets option)
                             options 0) <$> optionStats) 0 in
      let currentPercentages :=
        if gt totalBets 0 then
          fold_left
            (fun cp option =>
               set cp (row_id option) (total_bets option / totalBets * 100))
            (default [] optionStats) []
        else
          let equalShare :=
            100 / or_num ((fun options => ofNat (length options))
                            <$> optionStats) 1 in
          fold_left (fun cp option => set cp (row_id option) equalShare)
                    (default [] optionStats) [] in
      let recentVelocity := getBettingVelocity db (clock 0%nat) eventId in
      let currentHour := hourKey (clock 1%nat) in
      let velocity := or_num (get recentVelocity currentHour) 0 in
      inr {| rt_percentages := currentPercentages;
             rt_totalPool := or_num (total_pool <$> event) 0;
             rt_totalBets := totalBets;
             rt_participantCount := or_num (participant_count <$> event) 0;
             rt_timestamp := clock 2%nat;
             rt_bettingVelocity := velocity |}
  end.

Inductive Trigger : Type := large_bet | volume_surge | trend_reversal.
Inductive RiskLevel : Type := low | medium | high.

Record Shift : Type := {
  shift_timestamp : Z;
  shift_optionId : string;
  percentageChange : float;
  trigger : Trigger
}.

Record BettingInsights : Type := {
  peakHours : object float;
  optionMomentum : object float;
  majorShifts : list Shift;
  nextHourVolume : float;
  trendContinuation : bool;
  riskLevel : RiskLevel
}.

(** [[...new Set(xs)]]: the distinct elements in the order of their first
    occurrence. *)
Definition unique (xs : list string) : list string :=
  fold_left (fun seen x => if decide (x ∈ seen) then seen else seen ++ [x]) xs [].

(** [xs.filter(p).length] *)
Definition count {A} (P : A -> Prop) `{forall x, Decision (P x)} (xs : list A)
  : nat :=
  length (filter P xs).

(** "Calculate peak hours": the hours of the day are array indices of
    the object. *)
Definition peakHoursOf (getHours : Z -> nat) (allBets : list Bet)
  : object float :=
  fold_left
    (fun peakHours bet =>
       let hour := pretty (getHours (placed_at bet)) in
       set peakHours hour (or_num (get peakHours hour) 0 + 1))
    allBets [].

(** The momentum of one option: bets of the last two hours against those
    of the two hours before. *)
Definition momentumOf (now : Z) (allBets : list Bet) (optionId : string)
  : float :=
  let twoHoursAgo := (now - 2 * 60 * 60 * 1000)%Z in
  let fourHoursAgo := (now - 4 * 60 * 60 * 1000)%Z in
  let recentBets :=
    filter (fun bet => (twoHoursAgo <= placed_at bet)%Z) allBets in
  let olderBets :=
    filter (fun bet => (fourHoursAgo <= placed_at bet)%Z
                       /\ (placed_at bet < twoHoursAgo)%Z) allBets in
  let recentCount := count (fun bet => option_id bet = optionId) recentBets in
  let olderCount := count (fun bet => option_id bet = optionId) olderBets in
  if decide (olderCount = 0)%nat
  then (if decide (0 < recentCount)%nat then 100 else 0)
  else (ofNat recentCount - ofNat olderCount) / ofNat olderCount * 100.

(** "Detect volume surges (3x normal volume)" *)
Definition volumeSurges (allBets : list Bet) : list Shift :=
  let hourlyVolume :=
    fold_left (fun volume bet => tally volume (hourKey (placed_at bet)) 1)
              allBets [] in
  let avgVolume :=
    sum (values hourlyVolume) / ofNat (length (keys hourlyVolume)) in
  flat_map
    (fun '(hour, volume) =>
       if gt volume (avgVolume * 3)
       then [{| shift_timestamp := hour * 3600000;
                shift_optionId := "multiple";
                percentageChange := (volume - avgVolume) / avgVolume * 100;
                trigger := volume_surge |}]
       else [])
    hourlyVolume.

(** "Detect large individual bets" *)
Definition largeBets (allBets : list Bet) : list Shift :=
  let avgBetAmount :=
    fold_left (fun sum bet => sum + amount bet) allBets 0
    / ofNat (length allBets) in
  flat_map
    (fun bet =>
       if gt (amount bet) (avgBetAmount * 5)
       then [{| shift_timestamp := placed_at bet;
                shift_optionId := option_id bet;
                percentageChange :=
                  (amount bet - avgBetAmount) / avgBetAmount * 100;
                trigger := large_bet |}]
       else [])
    allBets.

(** [shifts.sort((a, b) => b.timestamp - a.timestamp)]: newest first, and
    shifts of the same instant in the order they had ([sort] is stable). *)
Fixpoint insertShift (shift : Shift) (sorted : list Shift) : list Shift :=
  match sorted with
  | [] => [shift]
  | other :: rest =>
      if decide (shift_timestamp shift < shift_timestamp other)%Z
      then other :: insertShift shift rest
      else shift :: sorted
  end.

Definition newestFirst (shifts : list Shift) : list Shift :=
  foldr insertShift [] shifts.

(** [getBettingInsights]; [now] is what [new Date()] returns. *)
Definition getBettingInsights (db : Supabase) (getHours : Z -> nat) (now : Z)
    (eventId : string) : string + BettingInsights :=
  let response := active_bets db eventId in
  match error response, data response with
  | Some message, _ => inl message
  | None, None | None, Some [] =>
      inr {| peakHours := [];
             optionMomentum := [];
             majorShifts := [];
             nextHourVolume := 0;
             trendContinuation := false;
             riskLevel := low |}
  | None, Some allBets =>
      let uniqueOptions := unique (map option_id allBets) in
      let optionMomentum :=
        fold_left
          (fun momentum optionId =>
             set momentum optionId (momentumOf now allBets optionId))
          uniqueOptions [] in
      let majorShifts := volumeSurges allBets ++ largeBets allBets in
      let lastHourBets :=
        count (fun bet => (now - 60 * 60 * 1000 <= placed_at bet)%Z) allBets in
      let nextHourVolume := max 0 (ofNat lastHourBets * 1.1) in
      let recentMomentumAvg :=
        fold_left (fun sum mom => sum + abs mom) (values optionMomentum) 0
        / ofNat (length (keys optionMomentum)) in
      let trendContinuation := gt recentMomentumAvg 10 in
      let riskLevel :=
        if decide (3 < length majorShifts)%nat then high
        else if decide (1 < length majorShifts)%nat then medium
        else low in
      inr {| peakHours := peakHoursOf getHours allBets;
             optionMomentum := optionMomentum;
             majorShifts := take 10 (newestFirst majorShifts);
             nextHourVolume := nextHourVolume;
             trendContinuation := trendContinuation;
             riskLevel := riskLevel |}
  end.

End Live64.

Module LiveSpec64.
Import PrimFloat Binary64.
Local Open Scope float_scope.

(** The average amount of the bets of a ledger: the binary64 sum of the
    amounts in the order of the ledger, over their number. *)
Definition averageAmount (allBets : list Hourly64.Bet) : float :=
  fold_left (fun sum bet => sum + Hourly64.amount bet) allBets 0
  / ofNat (length allBets).

(** The binary64 sum of the stored totals of the rows, in their order;
    0 when it is NaN. *)
Definition storedTotal (rows : list Hourly64.OptionRow) : float :=
  or_num (Some (fold_left (fun sum row => sum + Hourly64.total_bets row)
                          rows 0)) 0.

(** The equal split among the rows: 100 over their number, over 1 when
    there is no row. *)
Definition equalSplit (rows : list Hourly64.OptionRow) : float :=
  100 / or_num (Some (ofNat (length rows))) 1.

(** [a] is not older than [b]. *)
Definition newerFirst (a b : Live64.Shift) : Prop :=
  (Live64.shift_timestamp b <= Live64.shift_timestamp a)%Z.

End LiveSpec64.

Module LiveSample64.
Import PrimFloat Binary64.
Local Open Scope float_scope.

(** A store whose event read finds no row. *)
Definition store (rows : list Hourly64.OptionRow) (placed : list Z)
    (bets : list Hourly64.Bet) : Live64.Supabase :=
  {| Live64.option_stats := fun _ => ok rows;
     Live64.event_totals := fun _ => single [];
     Live64.placed_since := fun _ _ => ok placed;
     Live64.active_bets := fun _ => ok bets |}.

(** Readings of the clock, one millisecond apart. *)
Definition clock (n : nat) : Z := (86400000 + Z.of_nat n)%Z.

(** Nine bets of 0.1 and one of 0.9, an hour apart: the amounts add up
    to 1.7999999999999998, and five times their average is
    0.8999999999999999. *)
Definition tenths : list Hourly64.Bet :=
  map (fun i : nat =>
         Sample64.hourlyBet "A" (decimal 1 1) (Z.of_nat i * 3600000))
      (seq 0 9)
  ++ [Sample64.hourlyBet "B" (decimal 9 1) 32400000].

(** One bet of 1 in each of three hours, ten in a fourth hour, and a bet
    of 1000 in that hour. *)
Definition surgeLedger : list Hourly64.Bet :=
  [Sample64.hourlyBet "A" 1 0; Sample64.hourlyBet "B" 1 3600000;
   Sample64.hourlyBet "A" 1 7200000]
  ++ map (fun i : nat => Sample64.hourlyBet "B" 1 (10800000 + Z.of_nat i))
         (seq 0 10)
  ++ [Sample64.hourlyBet "A" 1000 10800500].

(** Three rows with ids that are array indices, and the stored total 1
    each. *)
Definition indexRows : list Hourly64.OptionRow :=
  [Sample64.row "10" 1; Sample64.row "b" 1; Sample64.row "2" 1].

End LiveSample64.

(** * Properties *)

(** ** Objects and numbers *)

Module JsFacts.

Section Obj.
Context {K : Type} `{EqDecision K} {V : Type}.
Implicit Types (o : obj K V) (k : K) (v : V).

Lemma keys_cons k v o : keys ((k, v) :: o) = k :: keys o.
Proof. done. Qed.

Lemma get_set_eq o k v : get (set o k v) k = Some v.
Proof.
  induction o as [|[k' v'] o IH]; simpl.
  - by rewrite decide_True.
  - destruct (decide (k = k')) as [->|Hne]; simpl.
    + by rewrite decide_True.
    + by rewrite decide_False.
Qed.

Lemma get_set_ne o k k' v : k <> k' -> get (set o k v) k' = get o k'.
Proof.
  intros Hne. induction o as [|[k0 v0] o IH]; simpl.
  - by rewrite decide_False.
  - destruct (decide (k = k0)) as [->|Hne0]; simpl.
    + by rewrite !decide_False.
    + by rewrite IH.
Qed.

Lemma get_set o k k' v :
  get (set o k v) k' = if decide (k = k') then Some v else get o k'.
Proof.
  destruct (decide (k = k')) as [->|Hne];
    [apply get_set_eq | by apply get_set_ne].
Qed.

Lemma get_None o k : get o k = None <-> k ∉ keys o.
Proof.
  induction o as [|[k' v'] o IH].
  - split; [intros _; apply not_elem_of_nil | done].
  - rewrite keys_cons, not_elem_of_cons. cbn [get].
    destruct (decide (k = k')) as [->|Hne].
    + split; [done | by intros [? _]].
    + rewrite IH. tauto.
Qed.

Lemma get_is_Some o k : is_Some (get o k) <-> k ∈ keys o.
Proof.
  destruct (get o k) eqn:E.
  - split; [intros _ | by eauto].
    destruct (decide (k ∈ keys o)) as [|Hn]; [done|].
    apply get_None in Hn. congruence.
  - split; [by intros [? ?] | intros Hin].
    by apply get_None in E.
Qed.

Lemma keys_set_in o k v : k ∈ keys o -> keys (set o k v) = keys o.
Proof.
  induction o as [|[k' v'] o IH]; intros Hin.
  - by apply elem_of_nil in Hin.
  - rewrite keys_cons in Hin. cbn [set].
    destruct (decide (k = k')) as [->|Hne]; [done|].
    apply elem_of_cons in Hin as [?|Hin]; [done|].
    by rewrite !keys_cons, IH.
Qed.

Lemma keys_set_notin o k v : k ∉ keys o -> keys (set o k v) = keys o ++ [k].
Proof.
  induction o as [|[k' v'] o IH]; [done|].
  rewrite keys_cons. intros [Hne Hnin]%not_elem_of_cons. cbn [set].
  rewrite decide_False by done. by rewrite !keys_cons, IH.
Qed.

Lemma elem_of_keys_set o k k' v :
  k' ∈ keys (set o k v) <-> k' = k \/ k' ∈ keys o.
Proof.
  destruct (decide (k ∈ keys o)) as [Hin|Hnin].
  - rewrite keys_set_in by done. split; [tauto | by intros [->|?]].
  - rewrite keys_set_notin by done. rewrite elem_of_app, list_elem_of_singleton.
    tauto.
Qed.

Lemma NoDup_keys_set o k v : NoDup (keys o) -> NoDup (keys (set o k v)).
Proof.
  intros Hnd. destruct (decide (k ∈ keys o)) as [Hin|Hnin].
  - by rewrite keys_set_in.
  - rewrite keys_set_notin by done. apply NoDup_app. split_and!; [done | | apply NoDup_singleton].
    intros x Hx ->%list_elem_of_singleton. done.
Qed.


(** A pass that assigns [f k] to every key of a list. *)
Lemma get_fold_set (f : K -> V) (ks : list K) o k :
  get (fold_left (fun acc k => set acc k (f k)) ks o) k
  = if decide (k ∈ ks) then Some (f k) else get o k.
Proof.
  revert o. induction ks as [|k0 ks IH]; intros o; cbn [fold_left].
  - rewrite decide_False; [done | apply not_elem_of_nil].
  - rewrite IH. destruct (decide (k ∈ ks)) as [Hin|Hnin].
    + rewrite decide_True; [done | by right].
    + rewrite get_set. destruct (decide (k0 = k)) as [->|Hne].
      * rewrite decide_True; [done | by left].
      * rewrite decide_False; [done|].
        intros [?|?]%elem_of_cons; congruence.
Qed.

(** A pass over a list of items, each assigning to its own key. *)
Lemma get_fold_set_by {X} (key : X -> K) (val : X -> V) (xs : list X) o k v :
  get (fold_left (fun acc x => set acc (key x) (val x)) xs o) k = Some v ->
  get o k = Some v \/ exists x, x ∈ xs /\ key x = k /\ v = val x.
Proof.
  revert o. induction xs as [|x xs IH]; intros o; cbn [fold_left].
  - by left.
  - intros [Hget|(y & Hy & Hk & Hv)]%IH.
    + rewrite get_set in Hget. destruct (decide (key x = k)) as [Hk|Hne].
      * right. exists x. split_and!; [by left | done | congruence].
      * by left.
    + right. exists y. split_and!; [by right | done..].
Qed.

Lemma elem_of_keys_fold_set_by {X} (key : X -> K) (val : X -> V)
    (xs : list X) o k :
  k ∈ keys (fold_left (fun acc x => set acc (key x) (val x)) xs o)
  <-> k ∈ keys o \/ k ∈ map key xs.
Proof.
  revert o. induction xs as [|x xs IH]; intros o; cbn [fold_left map].
  - rewrite elem_of_nil. tauto.
  - rewrite IH, elem_of_keys_set, elem_of_cons. tauto.
Qed.

Lemma keys_fold_set (f : K -> V) (ks : list K) :
  NoDup ks -> keys (fold_left (fun acc k => set acc k (f k)) ks []) = ks.
Proof.
  enough (forall o, NoDup (keys o ++ ks) ->
            keys (fold_left (fun acc k => set acc k (f k)) ks o) = keys o ++ ks)
    as Hgen by (intros Hnd; apply (Hgen [] Hnd)).
  induction ks as [|k0 ks IH]; intros o Hnd; simpl.
  - by rewrite app_nil_r.
  - assert (k0 ∉ keys o) as Hnin.
    { apply NoDup_app in Hnd as (_ & Hdisj & _). intros Hin.
      apply (Hdisj _ Hin). by left. }
    rewrite IH; rewrite keys_set_notin by done.
    + by rewrite <- app_assoc.
    + by rewrite <- app_assoc.
Qed.
End Obj.

(** Two objects filled side by side are two separate passes. *)
Lemma fold_left_pair {A B C} (f : A -> C -> A) (g : B -> C -> B)
    (l : list C) (a : A) (b : B) :
  fold_left (fun '(x, y) c => (f x c, g y c)) l (a, b)
  = (fold_left f l a, fold_left g l b).
Proof. revert a b. induction l as [|c l IH]; intros a b; simpl; [done | apply IH]. Qed.

Section Bump.
Context {K : Type} `{EqDecision K}.
Implicit Types (o : obj K Q) (k : K) (x : Q).

Lemma falsy_at_key o k : falsy (get o k) = true -> at_key o k == 0.
Proof.
  unfold at_key. destruct (get o k) as [v|]; cbn; [|reflexivity].
  apply Qeq_bool_iff.
Qed.

Lemma at_key_bump o k x k' :
  at_key (bump o k x) k'
  == at_key o k' + (if decide (k = k') then x else 0).
Proof.
  unfold bump, at_key. rewrite get_set.
  destruct (decide (k = k')) as [<-|Hne]; cbn.
  - destruct (falsy (get o k)) eqn:E.
    + rewrite get_set_eq. cbn. apply falsy_at_key in E.
      unfold at_key in E. by rewrite E.
    + reflexivity.
  - destruct (falsy (get o k)); [rewrite get_set_ne by done|]; ring.
Qed.

Lemma elem_of_keys_bump o k x k' :
  k' ∈ keys (bump o k x) <-> k' = k \/ k' ∈ keys o.
Proof.
  unfold bump. rewrite elem_of_keys_set.
  destruct (falsy (get o k)); [rewrite elem_of_keys_set|]; tauto.
Qed.

Lemma NoDup_keys_bump o k x : NoDup (keys o) -> NoDup (keys (bump o k x)).
Proof.
  intros Hnd. unfold bump. apply NoDup_keys_set.
  destruct (falsy (get o k)); [by apply NoDup_keys_set | done].
Qed.



End Bump.

(** *** Rounding to two decimals *)


Lemma num_S (n : nat) : num (S n) == num n + 1.
Proof. unfold num. rewrite Nat2Z.inj_succ, <- Z.add_1_r, inject_Z_plus. reflexivity. Qed.

Lemma num_nonneg (n : nat) : 0 <= num n.
Proof. unfold num. change 0 with (inject_Z 0). rewrite <- Zle_Qle. lia. Qed.




Lemma toFixed2_0 : toFixed2 0 == 0.
Proof. reflexivity. Qed.


Lemma or_num_0 (x : option Q) : or_num x 0 == default 0 x.
Proof.
  destruct x as [v|]; simpl; [|reflexivity].
  destruct (Qeq_bool v 0) eqn:E; [|reflexivity].
  apply Qeq_bool_iff in E. by rewrite E.
Qed.

Lemma or_num_pos (x d : Q) : 0 <= x -> 0 < d -> 0 < or_num (Some x) d.
Proof.
  intros Hx Hd. simpl. destruct (Qeq_bool x 0) eqn:E; [done|].
  apply Qeq_bool_neq in E. apply Qle_lteq in Hx as [?|Heq]; [done|].
  by symmetry in Heq.
Qed.

End JsFacts.

(** ** The smoother *)

Module SmootherFacts.
Import Hourly JsFacts Spec.

Lemma smoothDataPoints_length dataPoints :
  length (smoothDataPoints dataPoints) = length dataPoints.
Proof.
  unfold smoothDataPoints. case_decide; [done | apply length_imap].
Qed.

Lemma smoothDataPoints_lookup dataPoints i current :
  (3 <= length dataPoints)%nat ->
  dataPoints !! i = Some current ->
  smoothDataPoints dataPoints !! i
  = Some (if decide (i = 0 \/ i = length dataPoints - 1)%nat then current
          else smoothPoint (dataPoints !!! (i - 1)%nat) current
                           (dataPoints !!! (i + 1)%nat)).
Proof.
  intros Hlen Hi. unfold smoothDataPoints.
  rewrite decide_False by lia. by rewrite list_lookup_imap, Hi.
Qed.

(** C4.  A series of fewer than three points is returned as it is; in a
    longer one the first and the last point of the result are the first
    and the last point of the input. *)
Theorem smoothDataPoints_endpoints (dataPoints : list AnalyticsDataPoint) :
  ((length dataPoints < 3)%nat -> smoothDataPoints dataPoints = dataPoints) /\
  ((3 <= length dataPoints)%nat ->
     smoothDataPoints dataPoints !! 0%nat = dataPoints !! 0%nat /\
     last (smoothDataPoints dataPoints) = last dataPoints).
Proof.
  split.
  - intros Hlen. unfold smoothDataPoints. by rewrite decide_True.
  - intros Hlen. split.
    + destruct (dataPoints !! 0%nat) as [first|] eqn:E.
      * rewrite (smoothDataPoints_lookup _ _ _ Hlen E).
        rewrite decide_True; [done | by left].
      * apply lookup_ge_None in E. lia.
    + rewrite !last_lookup, smoothDataPoints_length.
      destruct (dataPoints !! pred (length dataPoints)) as [final|] eqn:E.
      * rewrite (smoothDataPoints_lookup _ _ _ Hlen E).
        rewrite decide_True; [done | right; lia].
      * apply lookup_ge_None in E. lia.
Qed.

Lemma smoothDataPoints_endpoints_witness :
  smoothDataPoints (take 2 Sample.series3) = take 2 Sample.series3 /\
  smoothDataPoints Sample.series3 !! 0%nat = Sample.series3 !! 0%nat /\
  last (smoothDataPoints Sample.series3) = last Sample.series3.
Proof.
  split.
  - apply (smoothDataPoints_endpoints (take 2 Sample.series3)). simpl. lia.
  - apply (smoothDataPoints_endpoints Sample.series3). simpl. lia.
Defined.



Lemma smoothPoint_frame prev current next :
  timestamp (smoothPoint prev current next) = timestamp current /\
  totalPool (smoothPoint prev current next) = totalPool current /\
  bettingVelocity (smoothPoint prev current next) = bettingVelocity current.
Proof.
  unfold smoothPoint.
  rewrite (fold_left_pair
             (fun sp optionId => set sp optionId _)
             (fun sm optionId => set sm optionId _)).
  done.
Qed.



End SmootherFacts.

(** ** Insights of the minute-bucketed variant *)

Module MinuteInsightFacts.
Import Minute JsFacts Spec.

Lemma recentMomentum_nonneg recentBets option :
  0 <= total_bets option -> 0 <= recentMomentum recentBets option.
Proof.
  intros Htotal. unfold recentMomentum.
  set (recentAmount := fold_left _ _ _).
  destruct (Qlt_le_dec 0 recentAmount) as [Hpos|_]; [|apply Qle_refl].
  pose proof (or_num_pos (total_bets option) 1 Htotal eq_refl) as Hden.
  apply Qmult_le_0_compat; [|done].
  apply Qlt_le_weak, Qlt_shift_div_l; [done|]. by rewrite Qmult_0_l.
Qed.

Lemma rt_momentum_eq now event options recentBets :
  rt_momentum (realTimeStats now event options recentBets)
  = fold_left
      (fun momentum option =>
         set momentum (id option) (recentMomentum recentBets option))
      options [].
Proof.
  unfold realTimeStats.
  rewrite (fold_left_pair
             (fun percentages option => set percentages (id option) _)
             (fun momentum option => set momentum (id option) _)).
  done.
Qed.

(** C10.  With non-negative stored totals and non-negative recent
    amounts, every momentum of the realtime snapshot is at least 0. *)
Theorem realtime_momentum_nonneg (now : Z) (event : BettingEvent)
    (options : list BetOption) (recentBets : list BetData) :
  (forall option, option ∈ options -> 0 <= total_bets option) ->
  (forall bet, bet ∈ recentBets -> 0 <= amount bet) ->
  forall optionId m,
    get (rt_momentum (realTimeStats now event options recentBets)) optionId
    = Some m ->
    0 <= m.
Proof.
  intros Htotals _ optionId m. rewrite rt_momentum_eq.
  intros [Hget|(option & Hin & _ & ->)]%get_fold_set_by; [done|].
  by apply recentMomentum_nonneg, Htotals.
Qed.

Lemma realtime_momentum_nonneg_witness :
  get (rt_momentum
         (realTimeStats 0 (Sample.event 400) Sample.twoOptions Sample.twoMinutes))
      "A" = Some (10000 # 100) /\
  0 <= 10000 # 100.
Proof.
  split; [reflexivity|].
  apply (realtime_momentum_nonneg 0 (Sample.event 400) Sample.twoOptions
           Sample.twoMinutes) with (optionId := "A"); [| |reflexivity].
  - intros option [->|[->|[]%elem_of_nil]%elem_of_cons]%elem_of_cons;
      by vm_compute.
  - intros bet [->|[->|[]%elem_of_nil]%elem_of_cons]%elem_of_cons;
      by vm_compute.
Defined.

Lemma getRealTimeBettingStats_ok db now eventId event options recentBets :
  event_of db eventId = ok event ->
  options_unordered_of db eventId = ok options ->
  bets_since db eventId (now - 60 * 60 * 1000) = ok recentBets ->
  getRealTimeBettingStats db now eventId
  = inr (realTimeStats now event options recentBets).
Proof.
  intros He Ho Hb. unfold getRealTimeBettingStats. by rewrite He, Ho, Hb.
Qed.

End MinuteInsightFacts.

(** ** The facade: failures *)

Module FacadeFacts.
Import JsFacts Spec.

(** C8, as the code has it.  For an event id that resolves to no event
    both revisions of [getEventAnalytics] fail at the event read (the
    minute-bucketed one after its bets read succeeded).  For an existing
    event without options the hour-bucketed revision fails with "No
    betting options found for this event", while the minute-bucketed
    revision returns a result whose insights are the "No options
    available" defaults. *)
Theorem getEventAnalytics_failures :
  (forall db env eventId,
      Hourly.event_of db eventId = single [] ->
      exists message,
        Hourly.getEventAnalytics db env eventId
        = inl (Hourly.EventError message)) /\
  (forall db env eventId event,
      Hourly.event_of db eventId = ok event ->
      Hourly.options_of db eventId = ok [] ->
      Hourly.getEventAnalytics db env eventId = inl Hourly.NoOptions) /\
  (forall db getHours eventId bets,
      Minute.bets_of db eventId = ok bets ->
      Minute.event_of db eventId = single [] ->
      exists message,
        Minute.getEventAnalytics db getHours eventId
        = inl (Minute.EventNotFound message)) /\
  (forall db getHours eventId bets event,
      Minute.bets_of db eventId = ok bets ->
      Minute.event_of db eventId = ok event ->
      Minute.options_of db eventId = ok [] ->
      exists result,
        Minute.getEventAnalytics db getHours eventId = inr result /\
        Minute.options result = [] /\
        Minute.leadingOption (Minute.insights result) = "No options available").
Proof.
  split_and!.
  - intros db env eventId Hevent. eexists.
    unfold Hourly.getEventAnalytics. rewrite Hevent. reflexivity.
  - intros db env eventId event Hevent Hoptions.
    unfold Hourly.getEventAnalytics. by rewrite Hevent, Hoptions.
  - intros db getHours eventId bets Hbets Hevent. eexists.
    unfold Minute.getEventAnalytics. rewrite Hbets, Hevent. reflexivity.
  - intros db getHours eventId bets event Hbets Hevent Hoptions.
    unfold Minute.getEventAnalytics. rewrite Hbets, Hevent, Hoptions.
    cbn [error data ok].
    destruct (Minute.generateOptimizedHistoricalData db eventId bets [])
      as [historicalData metadata].
    eexists. split; [reflexivity|]. done.
Qed.

Lemma getEventAnalytics_failures_witness :
  (exists message,
      Hourly.getEventAnalytics Sample.hourlyStoreNoEvent (Sample.ambient 0)
        "event" = inl (Hourly.EventError message)) /\
  Hourly.getEventAnalytics (Sample.hourlyStore [] (ok [])) (Sample.ambient 0)
    "event" = inl Hourly.NoOptions /\
  (exists message,
      Minute.getEventAnalytics Sample.minuteStoreNoEvent Sample.utcHours
        "event" = inl (Minute.EventNotFound message)) /\
  (exists result,
      Minute.getEventAnalytics (Sample.store (Sample.event 400) [] [])
        Sample.utcHours "event" = inr result /\
      Minute.options result = [] /\
      Minute.leadingOption (Minute.insights result) = "No options available").
Proof.
  destruct getEventAnalytics_failures as (Hnone & Hempty & Hminute & Hresult).
  split_and!.
  - by apply Hnone.
  - by apply (Hempty _ _ _ Sample.eventRow).
  - by apply (Hminute _ _ _ []).
  - by apply (Hresult _ _ _ [] (Sample.event 400)).
Defined.

(** C8, as the specification words it, fails in the minute-bucketed
    revision: for an existing event without options it returns a
    computed result. *)
Lemma getEventAnalytics_no_options_counterexample :
  exists result,
    Minute.getEventAnalytics (Sample.store (Sample.event 400) [] [])
      Sample.utcHours "event" = inr result /\
    Minute.historicalData result = [] /\
    Minute.leadingOption (Minute.insights result) = "No options available".
Proof. eexists. split; [reflexivity|]. by vm_compute. Qed.

End FacadeFacts.

(** ** Sums of amounts *)

Module LedgerFacts.
Import JsFacts Spec.

Lemma fold_left_Qplus (xs : list Q) (a : Q) :
  fold_left Qplus xs a == a + foldr Qplus 0 xs.
Proof.
  revert a. induction xs as [|x xs IH]; intros a; simpl.
  - ring.
  - rewrite IH. ring.
Qed.


Lemma foldr_Qplus_ext {A} (f g : A -> Q) (l : list A) :
  (forall x, x ∈ l -> f x == g x) ->
  foldr Qplus 0 (map f l) == foldr Qplus 0 (map g l).
Proof.
  induction l as [|x l IH]; intros Hext; cbn [map foldr]; [reflexivity|].
  rewrite IH, Hext; [reflexivity | by left |].
  intros y Hy. apply Hext. by right.
Qed.

Lemma sum_foldr (xs : list Q) : sum xs == foldr Qplus 0 xs.
Proof. unfold sum. rewrite fold_left_Qplus. ring. Qed.


Lemma sum_cons (x : Q) (xs : list Q) : sum (x :: xs) == x + sum xs.
Proof. rewrite !sum_foldr. reflexivity. Qed.


Section Staked.
Context {B : Type} (amount : B -> Q).
Implicit Types (keep : B -> bool) (bets : list B).

Lemma staked_cons keep bet bets :
  staked amount keep (bet :: bets)
  = (if keep bet then amount bet else 0) + staked amount keep bets.
Proof. done. Qed.

Lemma staked_ext keep1 keep2 bets :
  (forall bet, bet ∈ bets -> keep1 bet = keep2 bet) ->
  staked amount keep1 bets == staked amount keep2 bets.
Proof.
  induction bets as [|bet bets IH]; intros Hext; [reflexivity|].
  rewrite !staked_cons, Hext by (by left).
  rewrite IH; [reflexivity|]. intros bet' Hin. apply Hext. by right.
Qed.

Lemma staked_false keep bets :
  (forall bet, bet ∈ bets -> keep bet = false) -> staked amount keep bets == 0.
Proof.
  induction bets as [|bet bets IH]; intros Hnone; [reflexivity|].
  rewrite staked_cons, Hnone by (by left).
  rewrite IH; [ring|]. intros bet' Hin. apply Hnone. by right.
Qed.

(** Two selections that exclude each other add up to their union. *)
Lemma staked_or keep1 keep2 bets :
  (forall bet, bet ∈ bets -> keep1 bet && keep2 bet = false) ->
  staked amount (fun bet => keep1 bet || keep2 bet) bets
  == staked amount keep1 bets + staked amount keep2 bets.
Proof.
  induction bets as [|bet bets IH]; intros Hdisj; [reflexivity|].
  rewrite !staked_cons, IH by (intros bet' Hin; apply Hdisj; by right).
  specialize (Hdisj bet (list_elem_of_here _ _)).
  destruct (keep1 bet), (keep2 bet); try done; cbn; ring.
Qed.

(** The bets sorted into the classes of a duplicate-free list. *)
Lemma staked_classes {C} `{EqDecision C} (class : B -> C) keep
    (classes : list C) bets :
  NoDup classes ->
  foldr Qplus 0
    (map (fun c => staked amount
                     (fun bet => keep bet && bool_decide (class bet = c)) bets)
         classes)
  == staked amount
       (fun bet => keep bet && bool_decide (class bet ∈ classes)) bets.
Proof.
  induction 1 as [|c classes Hnotin Hnodup IH]; cbn [map foldr].
  - symmetry. apply staked_false. intros bet _.
    rewrite bool_decide_eq_false_2; [by destruct (keep bet) | apply not_elem_of_nil].
  - rewrite IH, <- staked_or.
    + apply staked_ext. intros bet _. destruct (keep bet); [|done]. cbn.
      destruct (decide (class bet = c)) as [->|Hne].
      * rewrite (bool_decide_eq_true_2 (c = c)) by done.
        by rewrite (bool_decide_eq_true_2 (c ∈ c :: classes)) by (by left).
      * rewrite (bool_decide_eq_false_2 (class bet = c)) by done. cbn.
        apply bool_decide_ext. rewrite elem_of_cons. tauto.
    + intros bet _. destruct (keep bet); [|done]. cbn.
      destruct (decide (class bet = c)) as [->|Hne].
      * by rewrite (bool_decide_eq_false_2 (c ∈ classes)), andb_false_r.
      * by rewrite (bool_decide_eq_false_2 (class bet = c)).
Qed.

Lemma staked_filter keep (P : B -> Prop) `{forall bet, Decision (P bet)} bets :
  staked amount keep (filter P bets)
  == staked amount (fun bet => bool_decide (P bet) && keep bet) bets.
Proof.
  induction bets as [|bet bets IH]; [reflexivity|].
  rewrite filter_cons, (staked_cons _ bet bets).
  destruct (decide (P bet)) as [Hp|Hp].
  - rewrite staked_cons, IH, (bool_decide_eq_true_2 _ Hp). reflexivity.
  - rewrite IH, (bool_decide_eq_false_2 _ Hp). cbn. ring.
Qed.

Lemma staked_all bets :
  staked amount (fun _ => true) bets == foldr Qplus 0 (map amount bets).
Proof.
  induction bets as [|bet bets IH]; [reflexivity|].
  rewrite staked_cons, IH. reflexivity.
Qed.
End Staked.

End LedgerFacts.

(** ** The minute buckets and the cumulative totals *)

Module BucketFacts.
Import Minute JsFacts Spec LedgerFacts.

Implicit Types (timeMap : obj Z (obj string Q)) (bets : list BetData).

Lemma get_ensure_slot timeMap k k' :
  default [] (get (if has timeMap k then timeMap else set timeMap k []) k')
  = default [] (get timeMap k').
Proof.
  unfold has. destruct (get timeMap k) eqn:E; [done|].
  rewrite get_set. destruct (decide (k = k')) as [<-|]; [|done].
  by rewrite E.
Qed.

Lemma slotAt_addBet timeMap bet minute optionId :
  slotAt (addBet timeMap bet) minute optionId
  == slotAt timeMap minute optionId
     + (if inBucket minute optionId bet then amount bet else 0).
Proof.
  unfold slotAt, addBet, inBucket. rewrite get_set.
  destruct (decide (timeKey (placed_at bet) = minute)) as [<-|Hne].
  - cbn [default from_option Datatypes.id].
    rewrite at_key_bump, get_ensure_slot.
    rewrite bool_decide_eq_true_2 by done. cbn [andb].
    destruct (decide (option_id bet = optionId)) as [->|Hne].
    + by rewrite bool_decide_eq_true_2.
    + by rewrite bool_decide_eq_false_2.
  - rewrite get_ensure_slot, (bool_decide_eq_false_2 _ Hne). cbn. ring.
Qed.

Lemma wf_addBet timeMap bet : wf timeMap -> wf (addBet timeMap bet).
Proof.
  intros [Hkeys Hslots]. unfold addBet.
  set (k := timeKey (placed_at bet)).
  assert (wf (if has timeMap k then timeMap else set timeMap k [])) as [Hk1 Hs1].
  { destruct (has timeMap k); [done|]. split; [by apply NoDup_keys_set|].
    intros minute slot. rewrite get_set.
    destruct (decide (k = minute)); [intros [= <-]; apply NoDup_nil_2 | apply Hslots]. }
  split; [by apply NoDup_keys_set|].
  intros minute slot. rewrite get_set.
  destruct (decide (k = minute)) as [<-|]; [|apply Hs1].
  intros [= <-]. apply NoDup_keys_bump.
  destruct (get _ k) as [slot|] eqn:E; cbn; [by eapply Hs1 | apply NoDup_nil_2].
Qed.

Lemma elem_of_keys_addBet timeMap bet minute :
  minute ∈ keys (addBet timeMap bet)
  <-> minute = timeKey (placed_at bet) \/ minute ∈ keys timeMap.
Proof.
  unfold addBet. rewrite elem_of_keys_set.
  destruct (has timeMap _); [|rewrite elem_of_keys_set]; tauto.
Qed.

Lemma elem_of_slot_addBet timeMap bet minute optionId :
  optionId ∈ keys (default [] (get (addBet timeMap bet) minute))
  <-> (minute = timeKey (placed_at bet) /\ optionId = option_id bet)
      \/ optionId ∈ keys (default [] (get timeMap minute)).
Proof.
  unfold addBet. rewrite get_set.
  destruct (decide (timeKey (placed_at bet) = minute)) as [<-|Hne].
  - cbn [default from_option Datatypes.id].
    rewrite elem_of_keys_bump, get_ensure_slot. tauto.
  - rewrite get_ensure_slot. split; [tauto | intros [[? _]|?]; [congruence | done]].
Qed.

(** The time map after the bets were added one by one. *)
Lemma fold_addBet bets timeMap :
  wf timeMap ->
  wf (fold_left addBet bets timeMap) /\
  (forall minute optionId,
      slotAt (fold_left addBet bets timeMap) minute optionId
      == slotAt timeMap minute optionId
         + staked amount (inBucket minute optionId) bets) /\
  (forall minute,
      minute ∈ keys (fold_left addBet bets timeMap)
      <-> minute ∈ keys timeMap
          \/ exists bet, bet ∈ bets /\ timeKey (placed_at bet) = minute) /\
  (forall minute optionId,
      optionId ∈ keys (default [] (get (fold_left addBet bets timeMap) minute))
      <-> optionId ∈ keys (default [] (get timeMap minute))
          \/ exists bet, bet ∈ bets /\ timeKey (placed_at bet) = minute
                         /\ option_id bet = optionId).
Proof.
  revert timeMap. induction bets as [|bet bets IH]; intros timeMap Hwf;
    cbn [fold_left].
  - split; [done|]. split; [intros; cbn; ring|].
    split; intros; (split; [by left | intros [?|(? & []%elem_of_nil & _)]; done]).
  - destruct (IH _ (wf_addBet _ bet Hwf)) as (Hwf' & Hat & Hkeys & Hslot).
    split; [done|]. split; [|split].
    + intros minute optionId.
      rewrite Hat, slotAt_addBet, staked_cons. ring.
    + intros minute. rewrite Hkeys, elem_of_keys_addBet. split.
      * intros [[->|?]|(bet' & Hin & Hk)]; [right | by left | right].
        -- exists bet. split; [by left | done].
        -- exists bet'. split; [by right | done].
      * intros [?|(bet' & [->|Hin]%elem_of_cons & Hk)];
          [left; by right | left; by left | right; by exists bet'].
    + intros minute optionId. rewrite Hslot, elem_of_slot_addBet. split.
      * intros [[[-> ->]|?]|(bet' & Hin & Hk)]; [right | by left | right].
        -- exists bet. split; [by left | done].
        -- exists bet'. split; [by right | done].
      * intros [?|(bet' & [->|Hin]%elem_of_cons & Hk & Ho)];
          [left; by right | left; by left | right; by exists bet'].
Qed.

Lemma wf_nil : wf [].
Proof. split; [apply NoDup_nil_2 | done]. Qed.

Lemma buildTimeMap_wf bets : wf (buildTimeMap bets).
Proof. apply (fold_addBet bets [] wf_nil). Qed.

Lemma slotAt_buildTimeMap bets minute optionId :
  slotAt (buildTimeMap bets) minute optionId
  == staked amount (inBucket minute optionId) bets.
Proof.
  destruct (fold_addBet bets [] wf_nil) as (_ & Hat & _).
  unfold buildTimeMap. rewrite Hat. cbn. ring.
Qed.

Lemma elem_of_keys_buildTimeMap bets minute :
  minute ∈ keys (buildTimeMap bets)
  <-> exists bet, bet ∈ bets /\ timeKey (placed_at bet) = minute.
Proof.
  destruct (fold_addBet bets [] wf_nil) as (_ & _ & Hkeys & _).
  unfold buildTimeMap. rewrite Hkeys. split; [|by right].
  by intros [[]%elem_of_nil|?].
Qed.

Lemma elem_of_slot_buildTimeMap bets minute optionId :
  optionId ∈ keys (default [] (get (buildTimeMap bets) minute))
  <-> exists bet, bet ∈ bets /\ timeKey (placed_at bet) = minute
                  /\ option_id bet = optionId.
Proof.
  destruct (fold_addBet bets [] wf_nil) as (_ & _ & _ & Hslot).
  unfold buildTimeMap. rewrite Hslot. split; [|by right].
  by intros [[]%elem_of_nil|?].
Qed.

(** *** One turn of the loop and the whole loop *)





Lemma wf_slot timeMap minute :
  wf timeMap -> NoDup (keys (default [] (get timeMap minute))).
Proof.
  intros [_ Hslots]. destruct (get timeMap minute) as [slot|] eqn:E; cbn.
  - by eapply Hslots.
  - apply NoDup_nil_2.
Qed.

Lemma cumulativeAfter_snoc timeMap minutes minute :
  cumulativeAfter timeMap (minutes ++ [minute])
  = addPool (cumulativeAfter timeMap minutes) (default [] (get timeMap minute)).
Proof. unfold cumulativeAfter. by rewrite fold_left_app. Qed.




(** The state of the loop after the turns for [minutes]: the cumulative
    object, and one point per turn, computed from the totals up to and
    including that turn. *)
Lemma fold_bucketStep timeMap optionsData currentEvent minutes :
  let st := fold_left (bucketStep timeMap optionsData currentEvent)
                      minutes ([], []) in
  st.1 = cumulativeAfter timeMap minutes /\
  length st.2 = length minutes /\
  forall i minute,
    minutes !! i = Some minute ->
    exists point,
      st.2 !! i = Some point /\
      timestamp point = (minute * 60000)%Z /\
      percentages point
      = percentagesOf (cumulativeAfter timeMap (take (S i) minutes)) optionsData /\
      totalPool point
      = or_num (total_pool <$> currentEvent)
          (sum (values (cumulativeAfter timeMap (take (S i) minutes)))).
Proof.
  induction minutes as [|minute minutes IH] using rev_ind; intros st.
  - split; [done|]. split; [done|]. intros i minute. by rewrite lookup_nil.
  - subst st. rewrite fold_left_app. cbn [fold_left].
    destruct (fold_left _ minutes _) as [cum points] eqn:E.
    cbn [fst snd] in IH. destruct IH as (Hcum & Hlen & Hpoints).
    cbn [bucketStep fst snd]. subst cum.
    rewrite <- cumulativeAfter_snoc.
    split; [done|]. split; [rewrite !length_app, Hlen; done|].
    intros i m Hi.
    destruct (decide (i < length minutes)%nat) as [Hlt|Hge].
    + rewrite lookup_app_l in Hi by done.
      destruct (Hpoints i m Hi) as (point & Hpoint & Hrest).
      exists point. rewrite lookup_app_l by lia. split; [done|].
      by rewrite take_app_le by lia.
    + assert (i = length minutes) as ->.
      { apply lookup_lt_Some in Hi. rewrite length_app in Hi. cbn in Hi. lia. }
      rewrite list_lookup_middle in Hi by done. injection Hi as <-.
      eexists. rewrite list_lookup_middle by done. split; [done|].
      rewrite take_ge by (rewrite length_app; cbn; lia). done.
Qed.

(** *** The sorted minute keys *)


Lemma timeBuckets_sorted bets :
  StronglySorted Z.le (timeBuckets (buildTimeMap bets)) /\
  NoDup (timeBuckets (buildTimeMap bets)).
Proof.
  unfold timeBuckets. split.
  - apply StronglySorted_merge_sort; apply _.
  - rewrite merge_sort_Permutation. apply buildTimeMap_wf.
Qed.

Lemma elem_of_timeBuckets bets minute :
  minute ∈ timeBuckets (buildTimeMap bets)
  <-> exists bet, bet ∈ bets /\ timeKey (placed_at bet) = minute.
Proof.
  unfold timeBuckets.
  rewrite merge_sort_Permutation. apply elem_of_keys_buildTimeMap.
Qed.



(** *** Running totals in terms of the ledger *)


Lemma sum_values_at_key (m : obj string Q) :
  NoDup (keys m) ->
  sum (values m) == foldr Qplus 0 (map (at_key m) (keys m)).
Proof.
  induction m as [|[k v] m IH]; intros Hnd; [reflexivity|].
  rewrite keys_cons in Hnd. apply NoDup_cons in Hnd as [Hnotin Hnd].
  change (values ((k, v) :: m)) with (v :: values m).
  rewrite sum_cons, IH by done. rewrite keys_cons. cbn [map foldr].
  unfold at_key at 2. cbn [get]. rewrite decide_True by done. cbn.
  apply Qplus_comp; [reflexivity|]. apply foldr_Qplus_ext.
  intros k' Hk'. unfold at_key. cbn [get].
  rewrite decide_False; [reflexivity | by intros ->].
Qed.



(** *** The percentages of a point *)

Lemma set_fresh {V} (m : obj string V) k v :
  get m k = None -> set m k v = m ++ [(k, v)].
Proof.
  induction m as [|[k' v'] m IH]; cbn [get set]; [done|].
  destruct (decide (k = k')); [done|]. intros Hnone. by rewrite IH.
Qed.

Lemma fold_set_fresh {V} (f : string -> V) (ks : list string) (m : obj string V) :
  NoDup (keys m ++ ks) ->
  fold_left (fun acc k => set acc k (f k)) ks m
  = m ++ map (fun k => (k, f k)) ks.
Proof.
  revert m. induction ks as [|k ks IH]; intros m Hnd; cbn [fold_left map].
  - by rewrite app_nil_r.
  - assert (get m k = None) as Hfresh.
    { apply get_None. apply NoDup_app in Hnd as (_ & Hdisj & _).
      intros Hin. apply (Hdisj _ Hin). by left. }
    rewrite set_fresh by done. rewrite IH.
    + by rewrite <- app_assoc.
    + unfold keys in *. rewrite fmap_app. cbn. by rewrite <- app_assoc.
Qed.





Lemma get_map_pair {V} (f : string -> V) (ks : list string) k :
  get (map (fun k => (k, f k)) ks) k
  = if decide (k ∈ ks) then Some (f k) else None.
Proof.
  induction ks as [|k0 ks IH]; cbn [map get].
  - by rewrite decide_False by apply not_elem_of_nil.
  - destruct (decide (k = k0)) as [->|Hne].
    + rewrite decide_True; [done | by left].
    + rewrite IH. destruct (decide (k ∈ ks)).
      * rewrite decide_True; [done | by right].
      * rewrite decide_False; [done|]. intros [?|?]%elem_of_cons; done.
Qed.






(** *** The points of [generateOptimizedHistoricalData] *)



End BucketFacts.

(** ** The points of the edge function *)

Module EdgeFacts.
Import Minute Edge JsFacts Spec LedgerFacts BucketFacts.

(** The amounts that a time map holds for a minute add up to what the
    ledger staked in that minute. *)
Lemma slot_pool bets minute :
  sum (values (default [] (get (buildTimeMap bets) minute)))
  == bucketPool bets minute.
Proof.
  set (slot := default [] (get (buildTimeMap bets) minute)).
  assert (NoDup (keys slot)) as Hnd by apply wf_slot, buildTimeMap_wf.
  rewrite sum_values_at_key by done.
  rewrite (foldr_Qplus_ext _
             (fun o => staked amount
                         (fun bet => bool_decide (timeKey (placed_at bet) = minute)
                                     && bool_decide (option_id bet = o))
                         bets))
    by (intros o _; apply (slotAt_buildTimeMap bets minute o)).
  rewrite (staked_classes amount option_id
             (fun bet => bool_decide (timeKey (placed_at bet) = minute)))
    by done.
  unfold bucketPool. apply staked_ext. intros bet Hbet.
  destruct (decide (timeKey (placed_at bet) = minute)) as [Heq|Hne].
  - rewrite (bool_decide_eq_true_2 _ Heq). cbn [andb].
    apply bool_decide_eq_true_2.
    apply elem_of_slot_buildTimeMap. by exists bet.
  - by rewrite (bool_decide_eq_false_2 _ Hne).
Qed.




Lemma bucketPoint_minute timeMap eventMeta minute :
  edgeMinute (bucketPoint timeMap eventMeta minute) = minute.
Proof. unfold edgeMinute, bucketPoint. cbn [e_timestamp]. by apply Z.div_mul. Qed.

(** The points of a successful response, one per minute with a bet. *)
Lemma serve_points db eventId bets historicalData options :
  bets_of db eventId = ok bets ->
  serve db (Some eventId) = Status200 historicalData options ->
  historicalData
  = map (bucketPoint (buildTimeMap bets) (data (event_of db eventId)))
        (timeBuckets (buildTimeMap bets)).
Proof.
  intros Hbets. unfold serve.
  destruct eventId as [|c rest]; [done|]. rewrite Hbets. cbn [error data ok].
  by intros [= <- _].
Qed.

End EdgeFacts.

(** ** The hourly snapshots *)

Module HourFacts.
Import Hourly JsFacts Spec LedgerFacts.

(** A loop that pushes one element per turn. *)
Lemma fold_push_lookup {A I} (f : list A -> I -> A) (turns : list I) :
  let result := fold_left (fun acc i => acc ++ [f acc i]) turns [] in
  length result = length turns /\
  forall k i, turns !! k = Some i ->
              result !! k = Some (f (take k result) i).
Proof.
  induction turns as [|turn turns IH] using rev_ind; intros result.
  - split; [done|]. intros k i. by rewrite lookup_nil.
  - subst result. rewrite fold_left_app. cbn [fold_left].
    cbv zeta in IH. set (before := fold_left _ turns []) in *.
    destruct IH as [Hlen Hlookup].
    split; [rewrite !length_app, Hlen; done|].
    intros k i Hk. destruct (decide (k < length turns)%nat) as [Hlt|Hge].
    + rewrite lookup_app_l in Hk by done.
      rewrite lookup_app_l by lia. rewrite take_app_le by lia.
      by apply Hlookup.
    + assert (k = length turns) as ->.
      { apply lookup_lt_Some in Hk. rewrite length_app in Hk. cbn in Hk. lia. }
      rewrite list_lookup_middle in Hk by done. injection Hk as <-.
      rewrite <- Hlen, take_app_length.
      by rewrite list_lookup_middle.
Qed.

Lemma hourlyPoints_length now allBets options :
  length (hourlyPoints now allBets options) = 24%nat.
Proof.
  unfold hourlyPoints.
  by rewrite (proj1 (fold_push_lookup (hourPoint now allBets options) (countdown 24))).
Qed.

(** Point [k] of the 24 is the one pushed in turn [i = 23 - k]. *)
Lemma hourlyPoints_lookup now allBets options k :
  (k < 24)%nat ->
  hourlyPoints now allBets options !! k
  = Some (hourPoint now allBets options
            (take k (hourlyPoints now allBets options)) (23 - k)).
Proof.
  intros Hk. unfold hourlyPoints.
  apply (proj2 (fold_push_lookup (hourPoint now allBets options) (countdown 24))).
  unfold countdown. rewrite reverse_lookup by (rewrite length_seq; lia).
  rewrite length_seq. apply lookup_seq. lia.
Qed.

Lemma equalPoint_percentages timestamp options optionId v :
  get (percentages (equalPoint timestamp options)) optionId = Some v ->
  v = 100 / len options.
Proof.
  unfold equalPoint.
  rewrite (fold_left_pair
             (fun percentages option => set percentages (id option) _)
             (fun momentum option => set momentum (id option) 0)).
  cbn [percentages].
  by intros [Hget|(option & _ & _ & ->)]%get_fold_set_by.
Qed.

Lemma equalPoint_has timestamp options option :
  option ∈ options ->
  is_Some (get (percentages (equalPoint timestamp options)) (id option)).
Proof.
  intros Hin. unfold equalPoint.
  rewrite (fold_left_pair
             (fun percentages option => set percentages (id option) _)
             (fun momentum option => set momentum (id option) 0)).
  cbn [percentages]. apply get_is_Some.
  apply (elem_of_keys_fold_set_by id (fun _ => 100 / len options)).
  right. by apply list_elem_of_fmap_2.
Qed.

Lemma distribution_eq betsUpToThisHour :
  distribution betsUpToThisHour
  = (fold_left
       (fun optionTotals bet =>
          set optionTotals (option_id bet)
            (or_num (get optionTotals (option_id bet)) 0 + amount bet))
       betsUpToThisHour [],
     fold_left (fun totalAmount bet => totalAmount + amount bet)
               betsUpToThisHour 0).
Proof.
  unfold distribution.
  apply (fold_left_pair
           (fun optionTotals bet => set optionTotals (option_id bet) _)
           (fun totalAmount bet => totalAmount + amount bet)).
Qed.

Lemma totalAmount_staked bets start :
  fold_left (fun totalAmount bet => totalAmount + amount bet) bets start
  == start + staked amount (fun _ => true) bets.
Proof.
  revert start. induction bets as [|bet bets IH]; intros start; cbn [fold_left].
  - cbn. ring.
  - rewrite IH, staked_cons. ring.
Qed.

Lemma optionTotals_staked bets start optionId :
  or_num (get (fold_left
                 (fun optionTotals bet =>
                    set optionTotals (option_id bet)
                      (or_num (get optionTotals (option_id bet)) 0 + amount bet))
                 bets start) optionId) 0
  == or_num (get start optionId) 0
     + staked amount (fun bet => bool_decide (option_id bet = optionId)) bets.
Proof.
  revert start. induction bets as [|bet bets IH]; intros start; cbn [fold_left].
  - cbn. ring.
  - rewrite IH, staked_cons, get_set.
    destruct (decide (option_id bet = optionId)) as [->|Hne].
    + rewrite bool_decide_eq_true_2 by done.
      rewrite (or_num_0 (Some _)). cbn [default from_option Datatypes.id]. ring.
    + rewrite bool_decide_eq_false_2 by done. ring.
Qed.

Lemma hourPoint_timestamp now allBets options dataPoints i :
  timestamp (hourPoint now allBets options dataPoints i)
  = (now - Z.of_nat i * hour)%Z.
Proof.
  unfold hourPoint. destruct (filter _ allBets) as [|bet betsUpTo].
  - unfold equalPoint. by destruct (fold_left _ options _).
  - by destruct (distribution _).
Qed.

(** The percentages of the point pushed in a turn: the exact share of
    what the ledger staked up to the end of the hour, or the equal split
    when nothing positive was staked by then. *)
Lemma hourPoint_percentages now allBets options dataPoints i optionId v :
  let hourEnd := (now - Z.of_nat i * hour)%Z in
  get (percentages (hourPoint now allBets options dataPoints i)) optionId
  = Some v ->
  v == exactShare (hourTotal allBets hourEnd optionId)
                  (hourPool allBets hourEnd) (len options).
Proof.
  intros hourEnd. unfold hourPoint. fold hourEnd.
  assert (hourPool allBets hourEnd
          == staked amount (fun _ => true)
               (filter (fun bet => (placed_at bet <= hourEnd)%Z) allBets)) as Hpool.
  { rewrite staked_filter. unfold hourPool. apply staked_ext.
    intros bet _. by rewrite andb_true_r. }
  assert (hourTotal allBets hourEnd optionId
          == staked amount (fun bet => bool_decide (option_id bet = optionId))
               (filter (fun bet => (placed_at bet <= hourEnd)%Z) allBets)) as Htotal.
  { rewrite staked_filter. reflexivity. }
  destruct (filter _ allBets) as [|bet betsUpTo].
  - intros ->%equalPoint_percentages. unfold exactShare.
    destruct (Qlt_le_dec 0 _) as [Hpos|]; [|reflexivity].
    rewrite Hpool in Hpos. by apply Qlt_irrefl in Hpos.
  - rewrite distribution_eq. cbn [percentages].
    pose proof (totalAmount_staked (bet :: betsUpTo) 0) as Hamount.
    set (totalAmount := fold_left _ (bet :: betsUpTo) 0) in *.
    intros [Hget|(option & _ & <- & ->)]%get_fold_set_by; [done|].
    pose proof (optionTotals_staked (bet :: betsUpTo) [] (id option)) as Hoption.
    set (optionAmount := or_num _ 0) in *. cbn [get] in Hoption.
    unfold exactShare.
    assert (totalAmount == hourPool allBets hourEnd) as Ht
        by (rewrite Hamount, Hpool; ring).
    assert (optionAmount == hourTotal allBets hourEnd (id option)) as Ho.
    { rewrite Hoption, Htotal. cbn. ring. }
    destruct (Qlt_le_dec 0 totalAmount), (Qlt_le_dec 0 (hourPool _ _));
      try (exfalso; lra); [|reflexivity].
    by rewrite Ho, Ht.
Qed.

Lemma hourPoint_has now allBets options dataPoints i option :
  option ∈ options ->
  is_Some (get (percentages (hourPoint now allBets options dataPoints i))
               (id option)).
Proof.
  intros Hin. unfold hourPoint. destruct (filter _ allBets) as [|bet betsUpTo].
  - by apply equalPoint_has.
  - destruct (distribution _) as [optionTotals totalAmount]. cbn [percentages].
    apply get_is_Some.
    apply (elem_of_keys_fold_set_by id
             (fun option =>
                if Qlt_le_dec 0 totalAmount
                then or_num (get optionTotals (id option)) 0 / totalAmount * 100
                else 100 / len options)).
    right. by apply list_elem_of_fmap_2.
Qed.

(** In exact arithmetic (the hour-bucketed side of C1): the 24 points
    that the loop builds. *)
Lemma hourly_percentages now allBets options k :
  (k < 24)%nat ->
  exists point,
    hourlyPoints now allBets options !! k = Some point /\
    timestamp point = (now - Z.of_nat (23 - k) * hour)%Z /\
    (forall optionId v,
        get (percentages point) optionId = Some v ->
        v == exactShare (hourTotal allBets (timestamp point) optionId)
                        (hourPool allBets (timestamp point)) (len options)) /\
    (forall option, option ∈ options ->
                    is_Some (get (percentages point) (id option))).
Proof.
  intros Hk. eexists. split; [by apply hourlyPoints_lookup|].
  rewrite hourPoint_timestamp. split; [done|]. split.
  - intros optionId v. apply hourPoint_percentages.
  - intros option. apply hourPoint_has.
Qed.

End HourFacts.

(** ** The cumulative aggregator: C1, C3 *)

Module AggregationFacts.
Import JsFacts Spec LedgerFacts.

(** C1.  In the two loops of the service the percentages of bucket [i] come
    from the running totals of all buckets up to and including [i]
    ([BucketFacts.minute_percentages], [HourFacts.hourly_percentages]).  The
    edge function takes them from the bucket's own increments: on 100 for A
    in one minute and 300 for B in the next, its second point has 100
    percent for B and no entry for A, where the service, on the same bets,
    has 25 and 75, the shares of the running totals. *)
Theorem serve_percentages_not_cumulative :
  (exists options,
      Edge.serve
        (Sample.store (Sample.event 400) Sample.twoOptions Sample.twoMinutes)
        (Some "event")
      = Edge.Status200
          [ {| Edge.e_timestamp := 0;
               Edge.e_percentages := [("A", Finite (10000 # 100))];
               Edge.e_totalPool := 400; Edge.e_participantCount := 2 |};
            {| Edge.e_timestamp := 60000;
               Edge.e_percentages := [("B", Finite (10000 # 100))];
               Edge.e_totalPool := 400; Edge.e_participantCount := 2 |} ]
          options) /\
  map Minute.percentages
    (Minute.generateOptimizedHistoricalData
       (Sample.store (Sample.event 400) Sample.twoOptions Sample.twoMinutes)
       "event" Sample.twoMinutes Sample.twoOptions).1
  = [ [("A", 10000 # 100); ("B", 0)];
      [("A", 2500 # 100); ("B", 7500 # 100)] ] /\
  roundedShare (minuteTotal Sample.twoMinutes 1 "A")
               (minutePool Sample.twoMinutes 1) = 2500 # 100.
Proof. split; [eexists|split]; vm_compute; reflexivity. Qed.




End AggregationFacts.

(** * Further properties of the modelled code *)

(** ** Ranges of sums and of rounded shares *)

Module RangeFacts.
Import JsFacts Spec LedgerFacts.

Section Staked.
Context {B : Type} (amount : B -> Q).
Implicit Types (keep : B -> bool) (bets : list B).

Lemma staked_nonneg keep bets :
  (forall bet, bet ∈ bets -> 0 <= amount bet) -> 0 <= staked amount keep bets.
Proof.
  induction bets as [|bet bets IH]; intros Hpos; [cbn; lra|].
  rewrite staked_cons.
  assert (0 <= staked amount keep bets) as Hrest
      by (apply IH; intros bet' Hin; apply Hpos; by right).
  pose proof (Hpos bet (list_elem_of_here _ _)).
  destruct (keep bet); lra.
Qed.

Lemma staked_mono keep1 keep2 bets :
  (forall bet, bet ∈ bets -> 0 <= amount bet) ->
  (forall bet, bet ∈ bets -> keep1 bet = true -> keep2 bet = true) ->
  staked amount keep1 bets <= staked amount keep2 bets.
Proof.
  induction bets as [|bet bets IH]; intros Hpos Himp; [cbn; lra|].
  rewrite !staked_cons.
  assert (staked amount keep1 bets <= staked amount keep2 bets) as Hrest.
  { apply IH; intros bet' Hin; [apply Hpos | apply Himp]; by right. }
  pose proof (Hpos bet (list_elem_of_here _ _)).
  pose proof (Himp bet (list_elem_of_here _ _)) as Hhere.
  destruct (keep1 bet), (keep2 bet);
    first [lra | by specialize (Hhere eq_refl)].
Qed.
End Staked.




End RangeFacts.

(** ** The minute-bucketed series *)

Module MinuteSeriesFacts.
Import Minute JsFacts Spec LedgerFacts BucketFacts RangeFacts.

Lemma sorted_lookup_lt (l : list Z) (i j : nat) (x y : Z) :
  StronglySorted Z.le l -> NoDup l -> (i < j)%nat ->
  l !! i = Some x -> l !! j = Some y -> (x < y)%Z.
Proof.
  intros Hsorted. revert i j.
  induction Hsorted as [|z l Hsorted IH Hall]; intros i j Hnd Hij Hi Hj.
  - by rewrite lookup_nil in Hi.
  - apply NoDup_cons in Hnd as [Hnotin Hnd]. rewrite Forall_forall in Hall.
    destruct j as [|j]; [lia|]. cbn in Hj.
    destruct i as [|i]; cbn in Hi.
    + injection Hi as ->.
      assert (y ∈ l) as Hy by (apply list_elem_of_lookup; by exists j).
      pose proof (Hall y Hy). assert (x <> y) by (by intros ->). lia.
    + apply (IH i j); [done | lia | done..].
Qed.

Lemma series_length db eventId bets optionsData :
  length (generateOptimizedHistoricalData db eventId bets optionsData).1
  = length (timeBuckets (buildTimeMap bets)).
Proof.
  unfold generateOptimizedHistoricalData.
  pose proof (fold_bucketStep (buildTimeMap bets) optionsData
                (data (event_of db eventId))
                (timeBuckets (buildTimeMap bets))) as Hfold.
  cbv zeta in Hfold.
  destruct (fold_left _ _ _) as [cumulativeData points].
  cbn [fst snd] in *. destruct Hfold as (_ & Hlen & _).
  by rewrite length_map.
Qed.

Lemma series_timestamp db eventId bets optionsData i point :
  (generateOptimizedHistoricalData db eventId bets optionsData).1 !! i
  = Some point ->
  exists minute,
    timeBuckets (buildTimeMap bets) !! i = Some minute /\
    timestamp point = (minute * 60000)%Z.
Proof.
  unfold generateOptimizedHistoricalData.
  pose proof (fold_bucketStep (buildTimeMap bets) optionsData
                (data (event_of db eventId))
                (timeBuckets (buildTimeMap bets))) as Hfold.
  cbv zeta in Hfold.
  destruct (fold_left _ _ _) as [cumulativeData points].
  cbn [fst snd] in *. destruct Hfold as (_ & Hlen & Hpoints).
  rewrite list_lookup_fmap. intros Hi.
  destruct (points !! i) as [pushed|] eqn:Hpushed; [|done].
  injection Hi as <-.
  destruct (timeBuckets (buildTimeMap bets) !! i) as [minute|] eqn:Hminute.
  2:{ apply lookup_ge_None in Hminute. apply lookup_lt_Some in Hpushed. lia. }
  destruct (Hpoints i minute Hminute) as (point & Hpoint & Hts & _).
  assert (point = pushed) as -> by congruence.
  by exists minute.
Qed.

(** X1.  The minute-bucketed series has exactly one point for every minute
    in which a bet was placed, and no other point; the points come in
    strictly increasing order of their timestamps. *)
Theorem minute_series_one_point_per_minute (db : Supabase) (eventId : string)
    (bets : list BetData) (optionsData : list BetOption) :
  let series := (generateOptimizedHistoricalData db eventId bets optionsData).1 in
  (forall i j p q,
      (i < j)%nat -> series !! i = Some p -> series !! j = Some q ->
      (timestamp p < timestamp q)%Z) /\
  (forall bet, bet ∈ bets ->
      exists point, point ∈ series /\
        timestamp point = (timeKey (placed_at bet) * 60000)%Z) /\
  (forall point, point ∈ series ->
      exists bet, bet ∈ bets /\
        timestamp point = (timeKey (placed_at bet) * 60000)%Z).
Proof.
  intros series. destruct (timeBuckets_sorted bets) as [Hsorted Hnd].
  split; [|split].
  - intros i j p q Hij (mp & Hmp & ->)%series_timestamp
      (mq & Hmq & ->)%series_timestamp.
    pose proof (sorted_lookup_lt _ _ _ _ _ Hsorted Hnd Hij Hmp Hmq). lia.
  - intros bet Hbet.
    assert (timeKey (placed_at bet) ∈ timeBuckets (buildTimeMap bets)) as Hin
        by (apply elem_of_timeBuckets; by exists bet).
    apply list_elem_of_lookup in Hin as [i Hi].
    destruct (series !! i) as [point|] eqn:Hpoint.
    + exists point. split; [apply list_elem_of_lookup; by exists i|].
      apply series_timestamp in Hpoint as (minute & Hminute & ->). congruence.
    + apply lookup_ge_None in Hpoint. apply lookup_lt_Some in Hi.
      unfold series in Hpoint. rewrite series_length in Hpoint. lia.
  - intros point [i Hi]%list_elem_of_lookup.
    apply series_timestamp in Hi as (minute & Hminute & ->).
    assert (minute ∈ timeBuckets (buildTimeMap bets)) as Hin
        by (apply list_elem_of_lookup; by exists i).
    apply elem_of_timeBuckets in Hin as (bet & Hbet & <-). by exists bet.
Qed.

Lemma bucketStep_fields timeMap optionsData currentEvent minutes point :
  point ∈ (fold_left (bucketStep timeMap optionsData currentEvent)
                     minutes ([], [])).2 ->
  participantCount point = or_num (participant_count <$> currentEvent) 0 /\
  velocity point = Some 0 /\
  bettingVelocity point = None /\
  momentum point = None.
Proof.
  induction minutes as [|minute minutes IH] using rev_ind.
  - by intros ?%elem_of_nil.
  - rewrite fold_left_app. cbn [fold_left].
    destruct (fold_left _ minutes _) as [cum points].
    cbn [bucketStep fst snd] in *.
    intros [Hin|Heq%list_elem_of_singleton]%elem_of_app;
      [by apply IH | by subst point].
Qed.

Lemma series_fields db eventId bets optionsData point :
  point ∈ (generateOptimizedHistoricalData db eventId bets optionsData).1 ->
  participantCount point
  = or_num (participant_count <$> data (event_of db eventId)) 0 /\
  velocity point = Some 0 /\
  bettingVelocity point = None /\
  momentum point = None.
Proof.
  unfold generateOptimizedHistoricalData.
  pose proof (bucketStep_fields (buildTimeMap bets) optionsData
                (data (event_of db eventId))
                (timeBuckets (buildTimeMap bets))) as Hfields.
  destruct (fold_left _ _ _) as [cumulativeData points].
  cbn [fst snd] in *.
  intros (pushed & -> & Hin)%list_elem_of_fmap. cbn. by apply Hfields.
Qed.



End MinuteSeriesFacts.

(** ** The insights of the minute-bucketed variant *)

Module EnhancedInsightFacts.
Import Minute JsFacts Spec LedgerFacts Tally MinuteSeriesFacts.

Lemma fold_left_pointwise {A B} (f g : A -> B -> A) (l : list B) (a : A) :
  (forall a b, f a b = g a b) -> fold_left f l a = fold_left g l a.
Proof.
  intros Hext. revert a.
  induction l as [|b l IH]; intros a; cbn [fold_left]; [done|].
  by rewrite Hext, IH.
Qed.

(** [reduce] with "the current one wins only when it scores more". *)
Lemma reduce_firstLargest {A} (score : A -> Q) (first : A) (rest : list A) :
  exists i,
    firstLargest score (first :: rest) i
      (fold_left (fun prev current =>
                    if Qlt_le_dec (score prev) (score current)
                    then current else prev) rest first).
Proof.
  induction rest as [|last rest IH] using rev_ind.
  - exists 0%nat. split; [done|]. split; [|intros; lia].
    intros other ->%list_elem_of_singleton. cbn. lra.
  - rewrite fold_left_app. cbn [fold_left].
    destruct IH as (i & Hi & Hmax & Hbefore).
    set (best := fold_left _ rest first) in *.
    destruct (Qlt_le_dec (score best) (score last)) as [Hlt|Hle].
    + exists (S (length rest)). split; [|split].
      * change (first :: rest ++ [last]) with ((first :: rest) ++ [last]).
        by rewrite (list_lookup_middle (first :: rest) [] last).
      * intros other Hin.
        change (first :: rest ++ [last]) with ((first :: rest) ++ [last]) in Hin.
        apply elem_of_app in Hin as [Hin|Hin%list_elem_of_singleton].
        -- pose proof (Hmax other Hin). lra.
        -- subst other. lra.
      * intros j other Hj Hother.
        change (first :: rest ++ [last]) with ((first :: rest) ++ [last]) in Hother.
        rewrite lookup_app_l in Hother by (cbn; lia).
        assert (other ∈ first :: rest) as Hin
            by (apply list_elem_of_lookup; by exists j).
        pose proof (Hmax other Hin). lra.
    + exists i. split; [|split].
      * change (first :: rest ++ [last]) with ((first :: rest) ++ [last]).
        rewrite lookup_app_l; [done|]. by apply lookup_lt_Some in Hi.
      * intros other Hin.
        change (first :: rest ++ [last]) with ((first :: rest) ++ [last]) in Hin.
        apply elem_of_app in Hin as [Hin|Hin%list_elem_of_singleton].
        -- by apply Hmax.
        -- by subst other.
      * intros j other Hj Hother. apply (Hbefore j other Hj).
        change (first :: rest ++ [last]) with ((first :: rest) ++ [last]) in Hother.
        rewrite lookup_app_l in Hother; [done|].
        apply lookup_lt_Some in Hi. lia.
Qed.

(** X5.  For an event with options, the insight [leadingOption] is the
    label of the first option with the largest [total_bets], and
    [trendingOption] is the label of the first option with the largest
    percentage in the latest point (0 for an option without an entry, and
    for every option when the series is empty). *)
Theorem insights_leading_and_trending (getHours : Z -> nat)
    (first : BetOption) (rest : list BetOption)
    (historicalData : list AnalyticsDataPoint) (bets : list BetData) :
  let result :=
    calculateEnhancedInsights getHours (first :: rest) historicalData bets in
  let latest (option : BetOption) : Q :=
    match last historicalData with
    | Some latestData => pct latestData (id option)
    | None => 0
    end in
  (exists i best,
      firstLargest total_bets (first :: rest) i best /\
      leadingOption result = label best) /\
  (exists i best,
      firstLargest latest (first :: rest) i best /\
      trendingOption result = label best).
Proof.
  intros result latest. split.
  - destruct (reduce_firstLargest total_bets first rest) as [i Hi].
    exists i, (leading first rest). split; [done|].
    subst result. unfold calculateEnhancedInsights.
    by destruct (volatilityOf _ _).
  - destruct (reduce_firstLargest latest first rest) as [i Hi].
    exists i, (trending historicalData first rest). split.
    + unfold trending, reduce1.
      replace (fold_left _ rest first)
        with (fold_left (fun prev current =>
                           if Qlt_le_dec (latest prev) (latest current)
                           then current else prev) rest first); [done|].
      apply fold_left_pointwise. intros prev current. subst latest. cbn beta.
      unfold pct. by destruct (last historicalData).
    + subst result. unfold calculateEnhancedInsights.
      by destruct (volatilityOf _ _).
Qed.

Lemma sum_nonneg (xs : list Q) : Forall (fun x => 0 <= x) xs -> 0 <= sum xs.
Proof.
  rewrite sum_foldr. induction 1 as [|x xs Hx _ IH]; cbn [foldr]; lra.
Qed.

Lemma num_pos (n : nat) : (0 < n)%nat -> 0 < num n.
Proof.
  intros Hn. unfold num. change 0 with (inject_Z 0). rewrite <- Zlt_Qlt. lia.
Qed.

Lemma volatilityOf_range leadingId historicalData :
  let '(class, score) := volatilityOf leadingId historicalData in
  0 <= score <= 100 /\
  match class with
  | High => score == 100
  | Medium => 50 < score
  | Low => score <= 50
  end /\
  ((length historicalData <= 1)%nat -> class = Low /\ score = 0).
Proof.
  unfold volatilityOf.
  destruct (decide (1 < length historicalData)%nat) as [Hlen|Hlen];
    [|split; [lra|]; split; [lra | done]].
  set (changes := imap _ _). set (avgChange := sum changes / len changes).
  assert (0 <= avgChange) as Havg.
  { apply Qle_shift_div_l.
    - apply num_pos. subst changes. rewrite length_imap, length_drop. lia.
    - rewrite Qmult_0_l. apply sum_nonneg. apply Forall_forall.
      intros x [i Hx]%list_elem_of_lookup. subst changes.
      rewrite list_lookup_imap in Hx.
      destruct (drop 1 historicalData !! i) as [point|]; [|done].
      cbn [fmap option_fmap option_map] in Hx.
      assert (x = Qabs (pct point leadingId
                        - pct (historicalData !!! i) leadingId)) as ->
          by congruence.
      apply Qabs_nonneg. }
  unfold Qmin.
  destruct (Qlt_le_dec 10 avgChange), (Qlt_le_dec 5 avgChange),
    (Qlt_le_dec (avgChange * 10) 100); try lra;
    (split; [lra|]; split; [first [lra | reflexivity] | lia]).
Qed.

(** X6.  The volatility score is between 0 and 100 and agrees with the
    volatility class: High goes with a score of 100, Medium with a score
    above 50, Low with a score of at most 50; a series of fewer than two
    points is Low with score 0. *)
Theorem insights_volatility_score (getHours : Z -> nat)
    (options : list BetOption) (historicalData : list AnalyticsDataPoint)
    (bets : list BetData) :
  let result := calculateEnhancedInsights getHours options historicalData bets in
  0 <= volatilityScore result <= 100 /\
  match volatility result with
  | High => volatilityScore result == 100
  | Medium => 50 < volatilityScore result
  | Low => volatilityScore result <= 50
  end /\
  ((length historicalData <= 1)%nat ->
   volatility result = Low /\ volatilityScore result = 0).
Proof.
  intros result. subst result. unfold calculateEnhancedInsights.
  destruct options as [|first rest]; [cbn; split; [lra|]; split; [lra | done]|].
  pose proof (volatilityOf_range (id (leading first rest)) historicalData) as H.
  by destruct (volatilityOf _ _) as [class score].
Qed.

Lemma betsInHour_cons getHours bet bets h :
  betsInHour getHours (bet :: bets) h
  = ((if decide (getHours (placed_at bet) = h) then 1 else 0)
     + betsInHour getHours bets h)%nat.
Proof.
  unfold betsInHour. rewrite filter_cons.
  by destruct (decide (getHours (placed_at bet) = h)).
Qed.

(** The array [hourlyBets] after [bets.forEach]. *)
Lemma hourlyBets_fold getHours bets (hourly : list nat) :
  (forall bet, bet ∈ bets -> (getHours (placed_at bet) < length hourly)%nat) ->
  let counted :=
    fold_left
      (fun hourly bet =>
         let hour := getHours (placed_at bet) in
         <[hour := S (default 0%nat (hourly !! hour))]> hourly)
      bets hourly in
  length counted = length hourly /\
  forall h, (h < length hourly)%nat ->
            counted !! h
            = Some (default 0 (hourly !! h) + betsInHour getHours bets h)%nat.
Proof.
  revert hourly. induction bets as [|bet bets IH]; intros hourly Hrange counted.
  - split; [done|]. intros h Hh. subst counted. cbn [fold_left].
    destruct (lookup_lt_is_Some_2 hourly h Hh) as [count Hcount].
    rewrite Hcount. cbn. f_equal. unfold betsInHour. cbn. lia.
  - subst counted. cbn [fold_left].
    match goal with
    | |- context [fold_left _ bets ?next] => set (hourly1 := next)
    end.
    assert (length hourly1 = length hourly) as Hlen1
        by (subst hourly1; apply length_insert).
    destruct (IH hourly1) as [Hlen Hcounts].
    { intros bet' Hin. rewrite Hlen1. apply Hrange. by right. }
    split; [etrans; [exact Hlen | exact Hlen1]|]. intros h Hh.
    etrans; [apply (Hcounts h); lia|]. f_equal. rewrite betsInHour_cons.
    subst hourly1. cbv zeta. set (hour := getHours (placed_at bet)).
    destruct (decide (hour = h)) as [->|Hne].
    + rewrite list_lookup_insert_eq by done. cbn. lia.
    + rewrite list_lookup_insert_ne by done. lia.
Qed.

Lemma foldr_max_spec (l : list nat) :
  (forall x, x ∈ l -> (x <= foldr Nat.max 0 l)%nat) /\
  (l <> [] -> foldr Nat.max 0%nat l ∈ l).
Proof.
  induction l as [|x l [IHle IHin]]; [split; [by intros ? ?%elem_of_nil | done]|].
  cbn [foldr]. split.
  - intros y [->|Hin]%elem_of_cons; [lia|]. specialize (IHle y Hin). lia.
  - intros _. destruct l as [|x' l]; [cbn; rewrite Nat.max_0_r; by left|].
    destruct (Nat.max_spec x (foldr Nat.max 0%nat (x' :: l))) as [[_ ->]|[_ ->]].
    + right. by apply IHin.
    + by left.
Qed.

(** X7.  Provided [getHours] answers with an hour of the day, the peak
    betting hour is an hour of the day in which the most bets were placed,
    and the earliest such hour; with an empty ledger it is hour 0. *)
Theorem peak_hour_first_busiest (getHours : Z -> nat)
    (first : BetOption) (rest : list BetOption)
    (historicalData : list AnalyticsDataPoint) (bets : list BetData) :
  (forall t, (getHours t < 24)%nat) ->
  let peak :=
    peakBettingHour
      (calculateEnhancedInsights getHours (first :: rest) historicalData bets) in
  (peak < 24)%nat /\
  (forall h, (h < 24)%nat ->
             (betsInHour getHours bets h <= betsInHour getHours bets peak)%nat) /\
  (forall h, (h < peak)%nat ->
             (betsInHour getHours bets h < betsInHour getHours bets peak)%nat) /\
  (bets = [] -> peak = 0%nat).
Proof.
  intros Hhours peak.
  assert (peak = peakHourOf getHours bets) as Hpeak.
  { subst peak. unfold calculateEnhancedInsights.
    by destruct (volatilityOf _ _). }
  clearbody peak. subst peak. unfold peakHourOf.
  destruct (hourlyBets_fold getHours bets (replicate 24 0%nat)) as [Hlen Hcounts].
  { intros bet _. rewrite length_replicate. apply Hhours. }
  set (hourlyBets := fold_left _ bets _) in *.
  cbv zeta. rewrite length_replicate in Hlen, Hcounts.
  assert (forall h, (h < 24)%nat ->
                    hourlyBets !! h = Some (betsInHour getHours bets h))
    as Hcount.
  { intros h Hh. rewrite Hcounts by done.
    by rewrite lookup_replicate_2 by done. }
  clear Hcounts.
  destruct (foldr_max_spec hourlyBets) as [Hle Hin].
  set (most := foldr Nat.max 0%nat hourlyBets) in *.
  assert (hourlyBets <> []) as Hne by (intros E; by rewrite E in Hlen).
  specialize (Hin Hne).
  destruct (list_find (fun count => count = most) hourlyBets)
    as [[i count]|] eqn:Hfind.
  2:{ apply list_find_None in Hfind. rewrite Forall_forall in Hfind.
      by destruct (Hfind most Hin). }
  apply list_find_Some in Hfind as (Hi & -> & Hbefore).
  cbn [fmap option_fmap option_map default from_option Datatypes.id fst].
  assert (i < 24)%nat as Hi24 by (apply lookup_lt_Some in Hi; lia).
  assert (betsInHour getHours bets i = most) as Hmost
      by (rewrite (Hcount i Hi24) in Hi; by injection Hi).
  assert (forall h, (h < 24)%nat -> (betsInHour getHours bets h <= most)%nat)
    as Hall.
  { intros h Hh. apply Hle, list_elem_of_lookup. exists h. by apply Hcount. }
  assert (forall h, (h < i)%nat -> (betsInHour getHours bets h < most)%nat)
    as Hearlier.
  { intros h Hh.
    pose proof (Hall h ltac:(lia)).
    pose proof (Hbefore h _ (Hcount h ltac:(lia)) Hh). lia. }
  rewrite Hmost. split; [done|]. split; [done|]. split; [done|].
  intros ->. destruct i as [|i]; [done|].
  specialize (Hearlier 0%nat ltac:(lia)). subst most.
  unfold betsInHour in *. cbn in *. lia.
Qed.

Lemma utcHours_range (t : Z) : (Sample.utcHours t < 24)%nat.
Proof.
  unfold Sample.utcHours.
  pose proof (Z.mod_pos_bound (t / 3600000) 24 eq_refl). lia.
Defined.

Lemma peak_hour_first_busiest_witness :
  let bets := [Sample.bet "A" 1 3600000; Sample.bet "B" 1 7200000;
               Sample.bet "A" 1 7260000; Sample.bet "B" 1 10800000;
               Sample.bet "B" 1 10900000] in
  let peak :=
    peakBettingHour
      (calculateEnhancedInsights Sample.utcHours Sample.twoOptions [] bets) in
  peak = 2%nat /\
  (betsInHour Sample.utcHours bets 3 <= betsInHour Sample.utcHours bets peak)%nat /\
  (betsInHour Sample.utcHours bets 1 < betsInHour Sample.utcHours bets peak)%nat.
Proof.
  cbv zeta. split; [by vm_compute|].
  destruct (peak_hour_first_busiest Sample.utcHours
              (Sample.option "A" 100) [Sample.option "B" 300] []
              [Sample.bet "A" 1 3600000; Sample.bet "B" 1 7200000;
               Sample.bet "A" 1 7260000; Sample.bet "B" 1 10800000;
               Sample.bet "B" 1 10900000] utcHours_range)
    as (_ & Hmost & Hearlier & _).
  split; [apply Hmost; lia | apply Hearlier; by vm_compute].
Defined.

Lemma sum_zeros (xs : list Q) : Forall (fun x => x = 0) xs -> sum xs == 0.
Proof.
  rewrite sum_foldr. induction 1 as [|x xs -> _ IH]; cbn [foldr]; lra.
Qed.

(** X8.  The series that [getEventAnalytics] builds records no velocity
    ([velocity: 0] in every point), so the insights it returns have
    [averageVelocity] and [totalBettingVelocity] equal to 0 whatever the
    ledger holds. *)
Theorem getEventAnalytics_velocity_zero (db : Supabase) (getHours : Z -> nat)
    (eventId : string) (analytics : EventAnalyticsData) :
  getEventAnalytics db getHours eventId = inr analytics ->
  (forall point, point ∈ historicalData analytics -> velocity point = Some 0) /\
  averageVelocity (insights analytics) == 0 /\
  totalBettingVelocity (insights analytics) == 0.
Proof.
  unfold getEventAnalytics.
  destruct (error (bets_of db eventId)); [done|].
  destruct (error (event_of db eventId)); [done|].
  destruct (error (options_of db eventId)); [done|].
  destruct (data (bets_of db eventId)) as [bets|]; [|done].
  destruct (data (event_of db eventId)) as [event|] eqn:Hevent; [|done].
  destruct (data (options_of db eventId)) as [optionsData|]; [|done].
  pose proof (fun point => series_fields db eventId bets optionsData point)
    as Hfields.
  destruct (generateOptimizedHistoricalData db eventId bets optionsData)
    as [series metadata].
  cbn [fst] in Hfields. intros [= <-]. cbn [historicalData insights].
  assert (forall point, point ∈ series -> velocity point = Some 0) as Hzero
      by (intros point Hin; by apply Hfields).
  split; [done|].
  assert (averageVelocityOf series == 0) as Haverage.
  { unfold averageVelocityOf.
    destruct (decide (0 < length (omap velocity series))%nat); [|reflexivity].
    rewrite sum_zeros; [unfold Qdiv; ring|].
    apply Forall_forall. intros v (point & Hin & Hv)%list_elem_of_omap.
    rewrite (Hzero point Hin) in Hv. by injection Hv. }
  unfold calculateEnhancedInsights.
  destruct optionsData as [|first rest]; [cbn; split; reflexivity|].
  by destruct (volatilityOf _ _).
Qed.

Lemma getEventAnalytics_velocity_zero_witness :
  exists analytics,
    getEventAnalytics
      (Sample.store (Sample.event 400) Sample.twoOptions Sample.twoMinutes)
      Sample.utcHours "event" = inr analytics /\
    length (historicalData analytics) = 2%nat /\
    averageVelocity (insights analytics) == 0.
Proof.
  eexists. split; [reflexivity|]. split; [by vm_compute|].
  refine (proj1 (proj2 (getEventAnalytics_velocity_zero
                   (Sample.store (Sample.event 400) Sample.twoOptions
                                 Sample.twoMinutes)
                   Sample.utcHours "event" _ eq_refl))).
Defined.

End EnhancedInsightFacts.

(** ** The edge function *)

Module EdgeServeFacts.
Import Minute Edge JsFacts Spec LedgerFacts BucketFacts EdgeFacts RangeFacts
       MinuteSeriesFacts.

(** X9.  The edge function answers 400 exactly when the event id is missing
    or empty, and 500 exactly when the read of the bets fails; a failed
    read of the event or of the options does not fail the request: the
    answer is 200, with pool and participant count 0 in every point, or
    with an empty option list. *)
Theorem serve_status (db : Supabase) (event_id : option string) :
  (serve db event_id = Status400
   <-> event_id = None \/ event_id = Some "") /\
  (forall eventId, event_id = Some eventId -> eventId <> "" ->
     ((exists message, serve db event_id = Status500 message)
      <-> error (bets_of db eventId) <> None
          \/ data (bets_of db eventId) = None) /\
     (forall bets, bets_of db eventId = ok bets ->
        exists historicalData options,
          serve db event_id = Status200 historicalData options /\
          (data (event_of db eventId) = None ->
           forall point, point ∈ historicalData ->
             e_totalPool point = 0 /\ e_participantCount point = 0) /\
          (data (options_unordered_of db eventId) = None -> options = []))).
Proof.
  split.
  - destruct event_id as [[|c rest]|]; cbn [serve]; [tauto| |tauto].
    split; [|by intros [|]].
    by destruct (error (bets_of db (String c rest))),
         (data (bets_of db (String c rest))).
  - intros eventId -> Hne. destruct eventId as [|c rest]; [done|].
    set (eventId := String c rest). split.
    + unfold serve. fold eventId.
      destruct (error (bets_of db eventId)) as [message|],
        (data (bets_of db eventId)) as [bets|];
        split; try (intros _; by eexists); try (intros _; by left);
        try (intros _; by right).
      * intros [message [=]].
      * by intros [|].
    + intros bets Hbets. unfold serve. fold eventId. rewrite Hbets.
      cbn [error data ok]. do 2 eexists. split; [done|]. split.
      * intros ->. intros point (minute & -> & _)%list_elem_of_fmap. done.
      * by intros ->.
Qed.

(** X10.  A minute in which only bets of amount 0 were placed gives a point
    whose percentages are all NaN: the edge function divides by the
    bucket's own total without a guard.  (The ledger has no negative
    amounts.) *)
Theorem serve_zero_bucket_nan (db : Supabase) (eventId : string)
    (bets : list BetData) (historicalData : list Point)
    (options : list OptionMetadata) (point : Point) :
  bets_of db eventId = ok bets ->
  serve db (Some eventId) = Status200 historicalData options ->
  (forall bet, bet ∈ bets -> 0 <= amount bet) ->
  point ∈ historicalData ->
  bucketPool bets (edgeMinute point) == 0 ->
  e_percentages point <> [] /\
  forall optionId v,
    get (e_percentages point) optionId = Some v -> v = NaN.
Proof.
  intros Hbets Hserve Hpos Hin Hzero.
  rewrite (serve_points _ _ _ _ _ Hbets Hserve) in Hin.
  apply list_elem_of_fmap in Hin as (minute & -> & Hminute).
  rewrite bucketPoint_minute in Hzero.
  unfold bucketPoint. cbn [e_percentages].
  set (slot := default [] (get (buildTimeMap bets) minute)).
  assert (NoDup (keys slot)) as Hnd by apply wf_slot, buildTimeMap_wf.
  rewrite (fold_set_fresh
             (fun o => lift toFixed2
                         (lift (fun x => x * 100)
                               (div (at_key slot o) (sum (values slot)))))
             (keys slot) []) by done.
  cbn [app].
  assert (sum (values slot) == 0) as Hsum
      by (subst slot; by rewrite slot_pool).
  assert (forall o, at_key slot o == 0) as Hentry.
  { intros o. subst slot.
    change (at_key _ o) with (slotAt (buildTimeMap bets) minute o).
    rewrite slotAt_buildTimeMap.
    assert (0 <= staked amount (inBucket minute o) bets)
      by (by apply staked_nonneg).
    assert (staked amount (inBucket minute o) bets <= bucketPool bets minute).
    { apply staked_mono; [done|].
      by intros bet _ [? _]%andb_true_iff. }
    lra. }
  split.
  - apply elem_of_timeBuckets in Hminute as (bet & Hbet & Hkey).
    assert (option_id bet ∈ keys slot) as Hkeys
        by (apply elem_of_slot_buildTimeMap; by exists bet).
    destruct (keys slot); [by apply elem_of_nil in Hkeys | done].
  - intros optionId v. rewrite get_map_pair.
    destruct (decide (optionId ∈ keys slot)); [|done]. intros [= <-].
    unfold div.
    apply Qeq_bool_iff in Hsum. rewrite Hsum.
    specialize (Hentry optionId). apply Qeq_bool_iff in Hentry.
    by rewrite Hentry.
Qed.

Lemma serve_zero_bucket_nan_witness :
  exists point,
    serve (Sample.store (Sample.event 400) Sample.twoOptions Sample.zeroBet)
          (Some "event")
    = Status200 [point] (optionMetadata Sample.twoOptions) /\
    get (e_percentages point) "A" = Some NaN /\
    forall optionId v,
      get (e_percentages point) optionId = Some v -> v = NaN.
Proof.
  eexists. split; [reflexivity|]. split; [reflexivity|].
  refine (proj2 (serve_zero_bucket_nan
                   (Sample.store (Sample.event 400) Sample.twoOptions
                                 Sample.zeroBet)
                   "event" Sample.zeroBet _ _ _ eq_refl eq_refl _ _ _)).
  - intros bet ->%list_elem_of_singleton. by vm_compute.
  - apply list_elem_of_singleton. reflexivity.
  - reflexivity.
Defined.

(** X11.  A successful answer of the edge function has exactly one point
    for every minute in which a bet was placed, in strictly increasing
    order of the timestamps. *)
Theorem serve_one_point_per_minute (db : Supabase) (eventId : string)
    (bets : list BetData) (historicalData : list Point)
    (options : list OptionMetadata) :
  bets_of db eventId = ok bets ->
  serve db (Some eventId) = Status200 historicalData options ->
  (forall i j p q,
      (i < j)%nat -> historicalData !! i = Some p ->
      historicalData !! j = Some q ->
      (e_timestamp p < e_timestamp q)%Z) /\
  (forall bet, bet ∈ bets ->
      exists point, point ∈ historicalData /\
        e_timestamp point = (timeKey (placed_at bet) * 60000)%Z) /\
  (forall point, point ∈ historicalData ->
      exists bet, bet ∈ bets /\
        e_timestamp point = (timeKey (placed_at bet) * 60000)%Z).
Proof.
  intros Hbets Hserve. rewrite (serve_points _ _ _ _ _ Hbets Hserve).
  destruct (timeBuckets_sorted bets) as [Hsorted Hnd].
  split; [|split].
  - intros i j p q Hij Hp Hq. rewrite list_lookup_fmap in Hp, Hq.
    destruct (timeBuckets (buildTimeMap bets) !! i) as [mp|] eqn:Hmp; [|done].
    destruct (timeBuckets (buildTimeMap bets) !! j) as [mq|] eqn:Hmq; [|done].
    injection Hp as <-. injection Hq as <-. cbn [bucketPoint e_timestamp].
    pose proof (sorted_lookup_lt _ _ _ _ _ Hsorted Hnd Hij Hmp Hmq). lia.
  - intros bet Hbet. eexists. split.
    + apply list_elem_of_fmap. eexists. split; [done|].
      apply elem_of_timeBuckets. by exists bet.
    + done.
  - intros point (minute & -> & Hminute)%list_elem_of_fmap.
    apply elem_of_timeBuckets in Hminute as (bet & Hbet & <-). by exists bet.
Qed.

Lemma serve_one_point_per_minute_witness :
  exists p q,
    serve (Sample.store (Sample.event 400) Sample.twoOptions Sample.twoMinutes)
          (Some "event")
    = Status200 [p; q] (optionMetadata Sample.twoOptions) /\
    (e_timestamp p < e_timestamp q)%Z.
Proof.
  do 2 eexists. split; [reflexivity|].
  refine (proj1 (serve_one_point_per_minute
                   (Sample.store (Sample.event 400) Sample.twoOptions
                                 Sample.twoMinutes)
                   "event" Sample.twoMinutes _ _ eq_refl eq_refl)
                0%nat 1%nat _ _ _ eq_refl eq_refl).
  lia.
Defined.

End EdgeServeFacts.

(** ** The hour-bucketed series *)

Module HourSeriesFacts.
Import Hourly JsFacts Spec LedgerFacts HourFacts SmootherFacts RangeFacts Tally.

Lemma countdown_lookup (k : nat) :
  (k < 24)%nat -> countdown 24 !! k = Some (23 - k)%nat.
Proof.
  intros Hk. unfold countdown. rewrite reverse_lookup by (rewrite length_seq; lia).
  rewrite length_seq. apply lookup_seq. lia.
Qed.

Lemma equalPoint_frame timestamp options :
  Hourly.timestamp (equalPoint timestamp options) = timestamp /\
  totalPool (equalPoint timestamp options) = 0 /\
  bettingVelocity (equalPoint timestamp options) = Some 0.
Proof. unfold equalPoint. by destruct (fold_left _ options _). Qed.

(** The loop of the fallback pushes one point per turn. *)
Lemma fallback_fold env options totalBets currentPercentages turns n0 :
  let result :=
    fold_left
      (fun '(n, dataPoints) i =>
         let '(n, point) :=
           fallbackPoint env options totalBets currentPercentages n i in
         (n, dataPoints ++ [point]))
      turns (n0, []) in
  length result.2 = length turns /\
  forall k i, turns !! k = Some i ->
    exists n,
      result.2 !! k
      = Some (fallbackPoint env options totalBets currentPercentages n i).2.
Proof.
  induction turns as [|turn turns IH] using rev_ind; intros result.
  - split; [done|]. intros k i. by rewrite lookup_nil.
  - subst result. rewrite fold_left_app. cbn [fold_left].
    cbv zeta in IH. destruct (fold_left _ turns _) as [n dataPoints].
    cbn [snd] in IH. destruct IH as [Hlen Hlookup].
    destruct (fallbackPoint env options totalBets currentPercentages n turn)
      as [n' point] eqn:Hpoint.
    cbn [snd]. split; [rewrite !length_app, Hlen; done|].
    intros k i Hk. destruct (decide (k < length turns)%nat) as [Hlt|Hge].
    + rewrite lookup_app_l in Hk by done. rewrite lookup_app_l by lia.
      by apply Hlookup.
    + assert (k = length turns) as ->.
      { apply lookup_lt_Some in Hk. rewrite length_app in Hk. cbn in Hk. lia. }
      rewrite list_lookup_middle in Hk by done. injection Hk as <-.
      exists n. rewrite list_lookup_middle by done. by rewrite Hpoint.
Qed.

Lemma fallbackPoint_timestamp env options totalBets currentPercentages n i :
  timestamp (fallbackPoint env options totalBets currentPercentages n i).2
  = (now env - Z.of_nat i * hour)%Z.
Proof.
  unfold fallbackPoint. by destruct (fold_left _ options _) as [[[? ?] ?] ?].
Qed.

Lemma fallback_lookup env options k point :
  generateFallbackHistoricalData env options !! k = Some point ->
  (k < 24)%nat /\
  exists totalBets currentPercentages n,
    point = (fallbackPoint env options totalBets currentPercentages n
                           (23 - k)).2.
Proof.
  unfold generateFallbackHistoricalData.
  set (totalBets := fold_left _ options 0).
  set (currentPercentages := if Qlt_le_dec 0 totalBets then _ else _).
  destruct (fallback_fold env options totalBets currentPercentages
              (countdown 24) 0) as [Hlen Hlookup].
  set (series := snd _) in *. intros Hpoint.
  assert (k < 24)%nat as Hk.
  { apply lookup_lt_Some in Hpoint. rewrite Hlen in Hpoint.
    unfold countdown in Hpoint. by rewrite length_reverse, length_seq in Hpoint. }
  split; [done|].
  destruct (Hlookup k _ (countdown_lookup k Hk)) as [n Hn].
  exists totalBets, currentPercentages, n. congruence.
Qed.

Lemma fallback_length env options :
  length (generateFallbackHistoricalData env options) = 24%nat.
Proof.
  unfold generateFallbackHistoricalData.
  set (totalBets := fold_left _ options 0).
  set (currentPercentages := if Qlt_le_dec 0 totalBets then _ else _).
  destruct (fallback_fold env options totalBets currentPercentages
              (countdown 24) 0) as [Hlen _].
  etrans; [exact Hlen|]. unfold countdown. by rewrite length_reverse, length_seq.
Qed.

(** A point of the smoothed loop result, and the point it was made from. *)
Lemma smoothed_hourly_lookup now allBets options k point :
  smoothDataPoints (hourlyPoints now allBets options) !! k = Some point ->
  (k < 24)%nat /\
  let pushed :=
    hourPoint now allBets options
      (take k (hourlyPoints now allBets options)) (23 - k) in
  timestamp point = timestamp pushed /\
  totalPool point = totalPool pushed /\
  bettingVelocity point = bettingVelocity pushed.
Proof.
  intros Hpoint.
  assert (k < 24)%nat as Hk.
  { apply lookup_lt_Some in Hpoint.
    by rewrite smoothDataPoints_length, hourlyPoints_length in Hpoint. }
  split; [done|]. cbv zeta.
  pose proof (hourlyPoints_lookup now allBets options k Hk) as Hpushed.
  remember (hourPoint now allBets options
              (take k (hourlyPoints now allBets options)) (23 - k))
    as pushed eqn:Epushed.
  clear Epushed.
  assert (3 <= length (hourlyPoints now allBets options))%nat as Hlen
      by (rewrite hourlyPoints_length; lia).
  rewrite (smoothDataPoints_lookup _ _ _ Hlen Hpushed) in Hpoint.
  destruct (decide _); injection Hpoint as <-; [done | apply smoothPoint_frame].
Qed.

Lemma real_series_length db env eventId options :
  length (generateRealHistoricalData db env eventId options) = 24%nat.
Proof.
  unfold generateRealHistoricalData.
  destruct (error (bets_of db eventId)); [apply fallback_length|].
  assert (length (generateEmptyHistoricalData (now env) options) = 24%nat)
    as Hempty.
  { unfold generateEmptyHistoricalData, countdown.
    by rewrite length_map, length_reverse, length_seq. }
  destruct (data (bets_of db eventId)) as [[|bet allBets]|]; [done| |done].
  by rewrite smoothDataPoints_length, hourlyPoints_length.
Qed.

(** X12.  On every path (bets found, no bets, failed read answered by the
    fallback) [generateRealHistoricalData] returns exactly 24 points, and
    point [k] carries the instant [now - (23 - k) hours]: the points are
    one hour apart, in ascending order, and the last one is at [now]. *)
Theorem real_series_hourly_grid (db : Supabase) (env : Ambient)
    (eventId : string) (options : list BetOption) :
  let series := generateRealHistoricalData db env eventId options in
  length series = 24%nat /\
  forall k point, series !! k = Some point ->
                  timestamp point = gridInstant (now env) k.
Proof.
  intros series. subst series. unfold generateRealHistoricalData, gridInstant.
  destruct (error (bets_of db eventId)) as [message|].
  { split; [apply fallback_length|]. intros k point Hpoint.
    apply fallback_lookup in Hpoint as (_ & tb & cp & n & ->).
    apply fallbackPoint_timestamp. }
  assert (length (generateEmptyHistoricalData (now env) options) = 24%nat /\
          forall k point,
            generateEmptyHistoricalData (now env) options !! k = Some point ->
            timestamp point = (now env - Z.of_nat (23 - k) * 3600000)%Z)
    as Hempty.
  { unfold generateEmptyHistoricalData. split.
    - unfold countdown. by rewrite length_map, length_reverse, length_seq.
    - intros k point Hpoint. rewrite list_lookup_fmap in Hpoint.
      destruct (countdown 24 !! k) as [i|] eqn:Hi; [|done].
      assert (k < 24)%nat as Hk.
      { apply lookup_lt_Some in Hi. unfold countdown in Hi.
        by rewrite length_reverse, length_seq in Hi. }
      rewrite countdown_lookup in Hi by done. injection Hi as <-.
      injection Hpoint as <-. apply equalPoint_frame. }
  destruct (data (bets_of db eventId)) as [[|bet allBets]|]; [done| |done].
  split; [by rewrite smoothDataPoints_length, hourlyPoints_length|].
  intros k point (Hk & -> & _)%smoothed_hourly_lookup.
  apply hourPoint_timestamp.
Qed.

(** *** The fallback series *)













(** X16.  Whenever the hour-bucketed [getEventAnalytics] succeeds, the
    series has a latest point, and the insight [trendingOption] is the
    label of the first option with the largest momentum in that point (an
    option without a momentum entry counts as 0). *)
Theorem hourly_trending_option (db : Supabase) (env : Ambient)
    (eventId : string) (analytics : EventAnalyticsData) :
  getEventAnalytics db env eventId = inr analytics ->
  exists latestData i best,
    last (historicalData analytics) = Some latestData /\
    firstLargest (fun option => opt_at (momentum latestData) (id option))
                 (options analytics) i best /\
    trendingOption (insights analytics) = label best.
Proof.
  unfold getEventAnalytics.
  destruct (error (event_of db eventId)); [done|].
  destruct (data (event_of db eventId)) as [event|]; [|done].
  destruct (error (options_of db eventId)); [done|].
  destruct (data (options_of db eventId)) as [[|row rows]|]; [done| |done].
  set (optionsWithColors := imap _ (row :: rows)).
  assert (exists first rest, optionsWithColors = first :: rest)
    as (first & rest & Hoptions).
  { subst optionsWithColors. cbn [imap]. by do 2 eexists. }
  clearbody optionsWithColors. subst optionsWithColors.
  set (series := generateRealHistoricalData db env eventId (first :: rest)).
  pose proof (real_series_length db env eventId (first :: rest)) as Hlen.
  fold series in Hlen.
  destruct (last series) as [latestData|] eqn:Hlast.
  2:{ apply last_None in Hlast. by rewrite Hlast in Hlen. }
  clearbody series.
  intros [= <-]. cbn [historicalData options insights].
  destruct (EnhancedInsightFacts.reduce_firstLargest
              (fun option => opt_at (momentum latestData) (id option))
              first rest) as [i Hi].
  exists latestData, i. eexists. split; [done|]. split; [exact Hi|].
  unfold generateEventInsights. rewrite Hlast. cbn [trendingOption fold_left].
  by destruct (Qlt_le_dec _ _) as [Hlt%Qlt_irrefl|_].
Qed.

Lemma hourly_trending_option_witness :
  exists analytics latestData,
    getEventAnalytics
      (Sample.hourlyStore
         [Sample.row "A" 1; Sample.row "B" 2]
         (ok [Sample.hourlyBet "A" 1 1000; Sample.hourlyBet "B" 2 86400000]))
      (Sample.ambient (1 # 2)) "event" = inr analytics /\
    last (historicalData analytics) = Some latestData /\
    opt_at (momentum latestData) "A" < opt_at (momentum latestData) "B" /\
    trendingOption (insights analytics) = "B".
Proof.
  destruct (hourly_trending_option
              (Sample.hourlyStore
                 [Sample.row "A" 1; Sample.row "B" 2]
                 (ok [Sample.hourlyBet "A" 1 1000;
                      Sample.hourlyBet "B" 2 86400000]))
              (Sample.ambient (1 # 2)) "event" _ eq_refl)
    as (latestData & i & best & Hlast & _ & _).
  clear i best. do 2 eexists. split; [reflexivity|]. split; [exact Hlast|].
  vm_compute in Hlast. injection Hlast as <-. clear. by vm_compute.
Defined.

End HourSeriesFacts.

(** ** Live queries of the second revision *)

Module LiveFacts.
Import Hourly Live LiveSpec JsFacts Spec LedgerFacts RangeFacts HourFacts
       HourSeriesFacts.

Section TallyFold.
Context {K : Type} `{EqDecision K} {X : Type} (key : X -> K) (weight : X -> Q).

(** A pass of [o[key x] = (o[key x] || 0) + weight x] over [xs]. *)
Lemma tally_fold_get (xs : list X) (start : obj K Q) (k : K) :
  or_num (get (fold_left (fun o x => tally o (key x) (weight x)) xs start) k) 0
  == or_num (get start k) 0
     + staked weight (fun x => bool_decide (key x = k)) xs.
Proof.
  revert start. induction xs as [|x xs IH]; intros start; cbn [fold_left].
  - cbn. ring.
  - rewrite IH, staked_cons. unfold tally. rewrite get_set.
    destruct (decide (key x = k)) as [->|Hne].
    + rewrite bool_decide_eq_true_2 by done.
      rewrite (or_num_0 (Some _)). cbn [default from_option Datatypes.id]. ring.
    + rewrite bool_decide_eq_false_2 by done. ring.
Qed.

Lemma tally_fold_keys (xs : list X) (start : obj K Q) (k : K) :
  k ∈ keys (fold_left (fun o x => tally o (key x) (weight x)) xs start)
  <-> k ∈ keys start \/ exists x, x ∈ xs /\ key x = k.
Proof.
  revert start. induction xs as [|x xs IH]; intros start; cbn [fold_left].
  - split; [by left|]. by intros [?|(x & ?%elem_of_nil & _)].
  - rewrite IH. unfold tally. rewrite elem_of_keys_set. split.
    + intros [[Heq|?]|(y & Hy & <-)].
      * right. exists x. split; [by left | done].
      * by left.
      * right. exists y. split; [by right | done].
    + intros [?|(y & [Heq|Hy]%elem_of_cons & <-)].
      * left. by right.
      * left. left. by rewrite Heq.
      * right. by exists y.
Qed.

Lemma tally_fold_NoDup (xs : list X) (start : obj K Q) :
  NoDup (keys start) ->
  NoDup (keys (fold_left (fun o x => tally o (key x) (weight x)) xs start)).
Proof.
  revert start. induction xs as [|x xs IH]; intros start Hnd; cbn [fold_left];
    [done|].
  apply IH. unfold tally. by apply NoDup_keys_set.
Qed.
End TallyFold.

Lemma sum_values_read {K} `{EqDecision K} (m : obj K Q) :
  NoDup (keys m) ->
  sum (values m) == foldr Qplus 0 (map (fun k => or_num (get m k) 0) (keys m)).
Proof.
  induction m as [|[k v] m IH]; intros Hnd; [reflexivity|].
  rewrite keys_cons in Hnd. apply NoDup_cons in Hnd as [Hnotin Hnd].
  change (values ((k, v) :: m)) with (v :: values m).
  rewrite sum_cons, IH by done. rewrite keys_cons. cbn [map foldr get].
  rewrite decide_True by done. rewrite (or_num_0 (Some v)).
  cbn [default from_option Datatypes.id].
  apply Qplus_comp; [reflexivity|].
  apply foldr_Qplus_ext. intros k' Hk'.
  rewrite decide_False; [reflexivity|]. by intros ->.
Qed.

Lemma staked_unit {X} (keep : X -> bool) (xs : list X) :
  staked (fun _ => 1) keep xs
  == num (length (filter (fun x => keep x = true) xs)).
Proof.
  induction xs as [|x xs IH]; [reflexivity|].
  rewrite staked_cons, IH, filter_cons.
  destruct (keep x); cbn [decide]; destruct (decide _); try done.
  - cbn [length]. rewrite num_S. ring.
  - ring.
Qed.

Lemma filter_always {X} (P : X -> Prop) `{forall x, Decision (P x)}
    (xs : list X) :
  (forall x, P x) -> filter P xs = xs.
Proof.
  intros Hall. induction xs as [|x xs IH]; [done|].
  by rewrite filter_cons, decide_True, IH.
Qed.

Lemma count_key {K} `{EqDecision K} {X} (key : X -> K) (k : K) (xs : list X) :
  staked (fun _ => 1) (fun x => bool_decide (key x = k)) xs
  == num (length (filter (fun x => key x = k) xs)).
Proof.
  rewrite staked_unit. f_equiv. f_equal. f_equal.
  apply list_filter_iff. intros x. apply bool_decide_eq_true.
Qed.

(** The object that counts the elements of [xs] by key: its entries, its
    keys and the sum of its values. *)
Lemma tally_counts {K} `{EqDecision K} {X} (key : X -> K) (xs : list X) :
  let counts := fold_left (fun o x => tally o (key x) 1) xs [] in
  NoDup (keys counts) /\
  (forall k, k ∈ keys counts <-> exists x, x ∈ xs /\ key x = k) /\
  (forall k, or_num (get counts k) 0
             == num (length (filter (fun x => key x = k) xs))) /\
  sum (values counts) == num (length xs).
Proof.
  intros counts.
  assert (NoDup (keys counts)) as Hnd
      by (apply (tally_fold_NoDup key (fun _ => 1)), NoDup_nil_2).
  assert (forall k, k ∈ keys counts <-> exists x, x ∈ xs /\ key x = k) as Hkeys.
  { intros k. subst counts. rewrite (tally_fold_keys key (fun _ => 1)).
    rewrite elem_of_nil. tauto. }
  split; [done|]. split; [done|]. split.
  - intros k. subst counts. rewrite (tally_fold_get key (fun _ => 1)).
    rewrite count_key. cbn. ring.
  - rewrite sum_values_read by done.
    rewrite (foldr_Qplus_ext _
               (fun k => staked (fun _ : X => 1)
                           (fun x => true && bool_decide (key x = k)) xs)).
    2:{ intros k _. subst counts. rewrite (tally_fold_get key (fun _ => 1)).
        cbn. ring. }
    rewrite (staked_classes (fun _ : X => 1) key (fun _ => true)) by done.
    rewrite (staked_ext _ _ (fun _ => true)).
    + rewrite staked_unit. by rewrite filter_always.
    + intros x Hx. cbn [andb]. apply bool_decide_eq_true_2.
      apply Hkeys. by exists x.
Qed.

(** X17.  [getBettingVelocity] never fails: a failed read gives the empty
    object.  After a successful read the object has exactly one entry for
    every hour in which one of the returned bets was placed, the entry is
    the number of those bets, and the entries add up to the number of bets
    returned. *)
Theorem velocity_counts_per_hour (db : Supabase) (now : Z) (eventId : string) :
  let velocity := getBettingVelocity db now eventId in
  (error (placed_since db eventId (now - 24 * 60 * 60 * 1000)) <> None ->
   velocity = []) /\
  (forall bets,
     placed_since db eventId (now - 24 * 60 * 60 * 1000) = ok bets ->
     NoDup (keys velocity) /\
     (forall hour, hour ∈ keys velocity
                   <-> exists t, t ∈ bets /\ hourKey t = hour) /\
     (forall hour bets_in_hour,
         get velocity hour = Some bets_in_hour ->
         bets_in_hour
         == num (length (filter (fun t => hourKey t = hour) bets))) /\
     sum (values velocity) == num (length bets)).
Proof.
  intros velocity. subst velocity. unfold getBettingVelocity. split.
  - by destruct (error (placed_since db eventId _)).
  - intros bets ->. cbn [error data ok].
    destruct (tally_counts hourKey bets) as (Hnd & Hkeys & Hcounts & Hsum).
    split; [done|]. split; [done|]. split; [|done].
    intros hour n Hn. specialize (Hcounts hour). cbv zeta in Hcounts.
    rewrite Hn in Hcounts. rewrite <- Hcounts.
    symmetry. apply (or_num_0 (Some n)).
Qed.

(** *** Betting insights *)

Lemma elem_of_obj_get {K} `{EqDecision K} {V} (m : obj K V) k v :
  NoDup (keys m) -> (k, v) ∈ m -> get m k = Some v.
Proof.
  induction m as [|[k' v'] m IH]; intros Hnd Hin; [by apply elem_of_nil in Hin|].
  rewrite keys_cons in Hnd. apply NoDup_cons in Hnd as [Hnotin Hnd].
  cbn [get]. apply elem_of_cons in Hin as [[= -> ->]|Hin].
  - by rewrite decide_True.
  - rewrite decide_False; [by apply IH|].
    intros ->. apply Hnotin. apply list_elem_of_fmap. by exists (k', v).
Qed.

(** The result of [getBettingInsights] for a ledger with bets. *)
Lemma getBettingInsights_ok db now eventId allBets insights :
  active_bets db eventId = ok allBets -> allBets <> [] ->
  getBettingInsights db now eventId = inr insights ->
  optionMomentum insights
  = fold_left (fun momentum optionId =>
                 set momentum optionId (Live.momentumOf now allBets optionId))
              (unique (map option_id allBets)) [] /\
  majorShifts insights
  = take 10 (newestFirst (volumeSurges allBets ++ largeBets allBets)) /\
  riskLevel insights
  = (if decide (3 < length (volumeSurges allBets ++ largeBets allBets))%nat
     then high
     else if decide (1 < length (volumeSurges allBets ++ largeBets allBets))%nat
          then medium else low) /\
  0 <= nextHourVolume insights.
Proof.
  intros Hread Hne. unfold getBettingInsights. rewrite Hread.
  cbn [error data ok]. destruct allBets as [|bet rest]; [done|].
  intros [= <-]. cbn [optionMomentum majorShifts riskLevel nextHourVolume].
  split; [done|]. split; [done|]. split; [done|].
  unfold Qmax. destruct (Qlt_le_dec 0 _); lra.
Qed.

Lemma unique_fold (xs seen : list string) :
  NoDup seen ->
  let result :=
    fold_left (fun seen x => if decide (x ∈ seen) then seen else seen ++ [x])
              xs seen in
  NoDup result /\ forall x, x ∈ result <-> x ∈ seen \/ x ∈ xs.
Proof.
  revert seen. induction xs as [|x xs IH]; intros seen Hnd result.
  - split; [done|]. intros x. rewrite elem_of_nil. tauto.
  - subst result. cbn [fold_left]. destruct (decide (x ∈ seen)) as [Hin|Hnotin].
    + destruct (IH seen Hnd) as [Hnd' Helem]. split; [done|].
      intros y. rewrite Helem, elem_of_cons. split; [tauto|].
      intros [?|[->|?]]; tauto.
    + destruct (IH (seen ++ [x])) as [Hnd' Helem].
      { apply NoDup_app. split; [done|]. split; [|apply NoDup_singleton].
        by intros y Hy ->%list_elem_of_singleton. }
      split; [done|]. intros y.
      rewrite Helem, elem_of_app, list_elem_of_singleton, elem_of_cons. tauto.
Qed.

Lemma filter_none {A} (P : A -> Prop) `{forall x, Decision (P x)}
    (l : list A) :
  (forall x, x ∈ l -> ~ P x) -> filter P l = [].
Proof.
  induction l as [|x l IH]; intros Hnone; [done|].
  rewrite filter_cons, decide_False by (apply Hnone; by left).
  apply IH. intros y Hy. apply Hnone. by right.
Qed.

Lemma num_nonneg_length {A} (l : list A) : 0 <= num (length l).
Proof.
  unfold num. change 0 with (inject_Z 0). rewrite <- Zle_Qle. lia.
Qed.

Lemma momentumOf_range now allBets optionId :
  -100 <= Live.momentumOf now allBets optionId /\
  (betsOnSince allBets optionId (now - 4 * 60 * 60 * 1000) = [] ->
   Live.momentumOf now allBets optionId = 0).
Proof.
  unfold Live.momentumOf, count. cbv zeta.
  set (recent := filter (fun bet => option_id bet = optionId)
                        (filter (fun bet => (now - 2 * 60 * 60 * 1000
                                             <= placed_at bet)%Z) allBets)).
  set (older := filter (fun bet => option_id bet = optionId)
                       (filter (fun bet => (now - 4 * 60 * 60 * 1000
                                            <= placed_at bet)%Z
                                           /\ (placed_at bet
                                               < now - 2 * 60 * 60 * 1000)%Z)
                               allBets)).
  pose proof (num_nonneg_length recent) as Hrecent.
  pose proof (num_nonneg_length older) as Holder.
  split.
  - destruct (Qeq_bool (num (length older)) 0) eqn:Hzero.
    + destruct (Qlt_le_dec 0 (num (length recent))); lra.
    + apply Qeq_bool_neq in Hzero.
      assert (0 <= num (length recent) / num (length older))
        by (apply Qle_shift_div_l; lra).
      assert ((num (length recent) - num (length older)) / num (length older)
              == num (length recent) / num (length older) - 1)
        as -> by (field; lra).
      lra.
  - intros Hnone.
    assert (forall bet, bet ∈ allBets -> option_id bet = optionId ->
                        (placed_at bet < now - 4 * 60 * 60 * 1000)%Z) as Hold.
    { intros bet Hbet Hoption.
      destruct (decide (now - 4 * 60 * 60 * 1000 <= placed_at bet)%Z)
        as [Hle|]; [|lia].
      assert (bet ∈ betsOnSince allBets optionId (now - 4 * 60 * 60 * 1000))
        as Hin by (by apply list_elem_of_filter).
      rewrite Hnone in Hin. by apply elem_of_nil in Hin. }
    assert (recent = []) as ->.
    { subst recent. apply filter_none.
      intros bet [Hle Hbet]%list_elem_of_filter Hoption.
      specialize (Hold bet Hbet Hoption). lia. }
    assert (older = []) as ->.
    { subst older. apply filter_none.
      intros bet [[Hle _] Hbet]%list_elem_of_filter Hoption.
      specialize (Hold bet Hbet Hoption). lia. }
    reflexivity.
Qed.

(** X20.  The option momentum that [getBettingInsights] returns has
    exactly one entry for every option id that occurs in the ledger.  No
    entry is below -100, and the entry of an option without a bet in the
    last four hours is 0.  The predicted volume of the next hour is not
    negative. *)
Theorem insights_option_momentum (db : Supabase) (now : Z) (eventId : string)
    (allBets : list Bet) (insights : BettingInsights) :
  active_bets db eventId = ok allBets ->
  getBettingInsights db now eventId = inr insights ->
  NoDup (keys (optionMomentum insights)) /\
  (forall optionId,
      optionId ∈ keys (optionMomentum insights)
      <-> exists bet, bet ∈ allBets /\ option_id bet = optionId) /\
  (forall optionId m,
      get (optionMomentum insights) optionId = Some m ->
      -100 <= m /\
      (betsOnSince allBets optionId (now - 4 * 60 * 60 * 1000) = [] -> m = 0)) /\
  0 <= nextHourVolume insights.
Proof.
  intros Hread Hresult.
  destruct (decide (allBets = [])) as [->|Hne].
  { unfold getBettingInsights in Hresult. rewrite Hread in Hresult.
    cbn [error data ok] in Hresult. injection Hresult as <-.
    cbn [optionMomentum nextHourVolume]. split; [apply NoDup_nil_2|].
    split; [|split; [done | lra]].
    intros optionId. split; [by intros ?%elem_of_nil|].
    by intros (bet & ?%elem_of_nil & _). }
  destruct (getBettingInsights_ok _ _ _ _ _ Hread Hne Hresult)
    as (-> & _ & _ & Hvolume).
  destruct (unique_fold (map option_id allBets) [] (NoDup_nil_2))
    as [Hnd Helem].
  cbv zeta in Hnd, Helem. fold (unique (map option_id allBets)) in Hnd, Helem.
  rewrite (keys_fold_set (Live.momentumOf now allBets)) by done.
  split; [done|]. split; [|split; [|done]].
  - intros optionId. rewrite Helem, elem_of_nil, list_elem_of_fmap.
    split.
    + intros [[]|(bet & -> & Hbet)]. by exists bet.
    + intros (bet & Hbet & <-). right. by exists bet.
  - intros optionId m.
    rewrite (get_fold_set (Live.momentumOf now allBets)).
    destruct (decide _); [|done]. intros [= <-]. apply momentumOf_range.
Qed.

Lemma insights_option_momentum_witness :
  exists insights,
    getBettingInsights
      (LiveSample.store [] [] LiveSample.surgeLedger) 14400500 "event"
    = inr insights /\
    optionMomentum insights = [("A", 0); ("B", 900)] /\
    NoDup (keys (optionMomentum insights)) /\
    0 <= nextHourVolume insights.
Proof.
  eexists. split; [by vm_compute|]. split; [by vm_compute|].
  destruct (insights_option_momentum
              (LiveSample.store [] [] LiveSample.surgeLedger)
              14400500 "event" LiveSample.surgeLedger _ eq_refl eq_refl)
    as (Hnd & _ & _ & Hvolume).
  split; [exact Hnd | exact Hvolume].
Defined.

End LiveFacts.

(** ** The range of the hour-bucketed percentages *)

Module HourRangeFacts.
Import Hourly JsFacts Spec LedgerFacts RangeFacts HourFacts SmootherFacts
       HourSeriesFacts.







End HourRangeFacts.

(** * Properties of the binary64 embedding *)

(** ** Objects in enumeration order *)

Module ObjectFacts.
Import JsObject JsFacts.

Lemma elem_of_place ks k k' : k' ∈ place ks k <-> k' = k \/ k' ∈ ks.
Proof.
  induction ks as [|k0 ks IH]; cbn [place].
  - rewrite list_elem_of_singleton, elem_of_nil. tauto.
  - destruct (before k k0); rewrite !elem_of_cons; [tauto|].
    rewrite IH. tauto.
Qed.

Lemma NoDup_place ks k : k ∉ ks -> NoDup ks -> NoDup (place ks k).
Proof.
  induction ks as [|k0 ks IH]; cbn [place]; intros Hnotin Hnd.
  - apply NoDup_singleton.
  - apply not_elem_of_cons in Hnotin as [Hne Hnotin].
    apply NoDup_cons in Hnd as [Hfresh Hnd].
    destruct (before k k0).
    + apply NoDup_cons. split; [|by apply NoDup_cons].
      intros [?|?]%elem_of_cons; congruence.
    + apply NoDup_cons. split; [|by apply IH].
      rewrite elem_of_place. intros [?|?]; congruence.
Qed.

Lemma elem_of_create ks k k' : k' ∈ create ks k <-> k' = k \/ k' ∈ ks.
Proof.
  unfold create. destruct (decide (k ∈ ks)) as [Hin|Hnotin].
  - split; [tauto | by intros [->|?]].
  - apply elem_of_place.
Qed.

Lemma NoDup_create ks k : NoDup ks -> NoDup (create ks k).
Proof.
  unfold create. destruct (decide (k ∈ ks)); [done | by apply NoDup_place].
Qed.

Lemma create_again ks k : create (create ks k) k = create ks k.
Proof.
  unfold create at 1. rewrite decide_True; [done|].
  apply elem_of_create. by left.
Qed.

Lemma NoDup_fold_create created ks :
  NoDup ks -> NoDup (fold_left create created ks).
Proof.
  revert ks. induction created as [|k created IH]; intros ks Hnd; [done|].
  cbn [fold_left]. by apply IH, NoDup_create.
Qed.

Lemma elem_of_fold_create created ks k :
  k ∈ fold_left create created ks <-> k ∈ ks \/ k ∈ created.
Proof.
  revert ks. induction created as [|k0 created IH]; intros ks; cbn [fold_left].
  - rewrite elem_of_nil. tauto.
  - rewrite IH, elem_of_create, elem_of_cons. tauto.
Qed.

Lemma NoDup_enumerate created : NoDup (enumerate created).
Proof. apply NoDup_fold_create, NoDup_nil_2. Qed.

Lemma elem_of_enumerate created k : k ∈ enumerate created <-> k ∈ created.
Proof.
  unfold enumerate. rewrite elem_of_fold_create, elem_of_nil. tauto.
Qed.

Lemma fold_create_concat (groups : list (list string)) ks :
  fold_left (fun ks group => fold_left create group ks) groups ks
  = fold_left create (concat groups) ks.
Proof.
  revert ks. induction groups as [|group groups IH]; intros ks; [done|].
  cbn [fold_left concat]. by rewrite fold_left_app, IH.
Qed.

Section Obj.
Context {V : Type}.
Implicit Types (o : object V) (k : string) (v : V).

Lemma has_keys o k : has o k = true <-> k ∈ keys o.
Proof.
  rewrite <- get_is_Some. unfold has.
  destruct (get o k) as [v|].
  - split; [by eauto | done].
  - split; [done | by intros [? ?]].
Qed.

Lemma keys_update o k v : keys (update o k v) = keys o.
Proof.
  induction o as [|[k' v'] o IH]; [done|]. cbn [update].
  destruct (decide (k = k')); [done|]. by rewrite !keys_cons, IH.
Qed.

Lemma get_update o k k' v :
  k ∈ keys o ->
  get (update o k v) k' = if decide (k' = k) then Some v else get o k'.
Proof.
  induction o as [|[k0 v0] o IH]; [by intros []%elem_of_nil|].
  rewrite keys_cons. intros Hin. cbn [update].
  destruct (decide (k = k0)) as [->|Hne]; cbn [get].
  - by destruct (decide (k' = k0)).
  - apply elem_of_cons in Hin as [?|Hin]; [done|].
    rewrite (IH Hin).
    destruct (decide (k' = k0)) as [->|]; [|done].
    by rewrite decide_False by done.
Qed.

Lemma keys_insert o k v : keys (insert o k v) = place (keys o) k.
Proof.
  induction o as [|[k' v'] o IH]; [done|]. cbn [insert].
  rewrite keys_cons. cbn [place].
  destruct (before k k'); [done|]. by rewrite keys_cons, IH.
Qed.

Lemma get_insert o k k' v :
  k ∉ keys o ->
  get (insert o k v) k' = if decide (k' = k) then Some v else get o k'.
Proof.
  induction o as [|[k0 v0] o IH]; [done|].
  rewrite keys_cons. intros [Hne Hnotin]%not_elem_of_cons. cbn [insert].
  destruct (before k k0); [done|]. cbn [get]. rewrite (IH Hnotin).
  destruct (decide (k' = k0)) as [->|]; [|done].
  by rewrite decide_False by done.
Qed.

(** Reading after an assignment, and the keys after it. *)
Lemma get_assign o k k' v :
  get (JsObject.set o k v) k' = if decide (k' = k) then Some v else get o k'.
Proof.
  unfold JsObject.set. destruct (has o k) eqn:Hhas.
  - apply get_update. by apply has_keys.
  - apply get_insert. rewrite <- has_keys. by rewrite Hhas.
Qed.

Lemma keys_assign o k v : keys (JsObject.set o k v) = create (keys o) k.
Proof.
  unfold JsObject.set, create. destruct (has o k) eqn:Hhas.
  - rewrite decide_True by by apply has_keys. apply keys_update.
  - rewrite decide_False by (rewrite <- has_keys; by rewrite Hhas).
    apply keys_insert.
Qed.

Lemma NoDup_keys_assign o k v :
  NoDup (keys o) -> NoDup (keys (JsObject.set o k v)).
Proof. rewrite keys_assign. apply NoDup_create. Qed.

(** An object with each key once lists the values of its keys. *)
Lemma values_keys (d : V) o :
  NoDup (keys o) -> values o = map (fun k => default d (get o k)) (keys o).
Proof.
  induction o as [|[k v] o IH]; [done|].
  rewrite keys_cons. intros [Hfresh Hnd]%NoDup_cons.
  cbn [values fmap list_fmap map snd get]. rewrite decide_True by done.
  cbn [default]. f_equal. etrans; [exact (IH Hnd)|].
  apply map_ext_in. intros k' Hin%list_elem_of_In.
  rewrite decide_False; [done|]. by intros ->.
Qed.

(** A pass that assigns [f k] to every key of a list. *)
Lemma get_fold_assign (f : string -> V) (ks : list string) o k :
  get (fold_left (fun acc k => JsObject.set acc k (f k)) ks o) k
  = if decide (k ∈ ks) then Some (f k) else get o k.
Proof.
  revert o. induction ks as [|k0 ks IH]; intros o; cbn [fold_left].
  - rewrite decide_False; [done | apply not_elem_of_nil].
  - rewrite IH. destruct (decide (k ∈ ks)) as [Hin|Hnin].
    + rewrite decide_True; [done | by right].
    + rewrite get_assign. destruct (decide (k = k0)) as [->|Hne].
      * rewrite decide_True; [done | by left].
      * rewrite decide_False; [done|].
        intros [?|?]%elem_of_cons; congruence.
Qed.

Lemma keys_fold_assign {X} (key : X -> string) (val : object V -> X -> V)
    (xs : list X) o :
  keys (fold_left (fun acc x => JsObject.set acc (key x) (val acc x)) xs o)
  = fold_left create (map key xs) (keys o).
Proof.
  revert o. induction xs as [|x xs IH]; intros o; [done|].
  cbn [fold_left map]. by rewrite IH, keys_assign.
Qed.
End Obj.

End ObjectFacts.

(** ** Numbers *)

Module NumberFacts64.
Import PrimFloat Binary64.
Local Open Scope float_scope.
#[local] Set Warnings "-inexact-float".

(** [decimal] reads a decimal as a literal of the language is read. *)
Lemma decimal_literals :
  decimal 1437 2 = 14.37 /\ decimal 605 2 = 6.05 /\ decimal 805 2 = 8.05 /\
  decimal 1105 2 = 11.05 /\ decimal 3333 2 = 33.33 /\ decimal 1 1 = 0.1 /\
  decimal 5 1 = 0.5 /\ decimal 9 1 = 0.9.
Proof. repeat split; by vm_compute. Qed.

(** [toFixed2] rounds the number that binary64 holds: 1.005 and 1.255
    lie below the tie they seem to be, 0.125 lies on it, and the product
    23 / 160 * 100 lies below 14.375. *)
Lemma toFixed2_examples :
  toFixed2 1.005 = 1 /\ toFixed2 1.255 = 1.25 /\ toFixed2 0.125 = 0.13 /\
  toFixed2 (-0.125) = -0.13 /\ toFixed2 14.375 = 14.38 /\
  toFixed2 (23 / 160 * 100) = 14.37 /\ toFixed2 (1 / 3 * 100) = 33.33 /\
  toFixed2 nan = nan /\ toFixed2 infinity = infinity.
Proof. repeat split; by vm_compute. Qed.

(** Differences that exact arithmetic would put on a threshold. *)
Lemma threshold_examples :
  gt (8.05 - 6.05) 2 = true /\ gt (abs (11.05 - 6.05)) 5 = true /\
  gt 0.9 ((0 + 0.1 + 0.1 + 0.1 + 0.1 + 0.1 + 0.1 + 0.1 + 0.1 + 0.1 + 0.9)
          / 10 * 5) = true /\
  ofZ 9007199254740992 + 1 = ofZ 9007199254740992.
Proof. repeat split; by vm_compute. Qed.

End NumberFacts64.

(** ** The minute buckets and the running totals, binary64 *)

Module MinuteLoopFacts.
Import PrimFloat Binary64 JsObject JsFacts ObjectFacts Minute64 Spec64.
Local Open Scope float_scope.

Lemma get_bump64 o k k' x :
  get (bump o k x) k' = if decide (k' = k) then plus (get o k) x else get o k'.
Proof.
  unfold bump, plus. destruct (absent (get o k)) eqn:Habsent.
  - rewrite !get_assign. rewrite (decide_True (P := k = k)) by done.
    destruct (decide (k' = k)) as [->|]; [|done].
    cbn [operand default]. f_equal. f_equal.
    destruct (get o k) as [v|]; cbn [absent or_num] in *; [|done].
    by rewrite Habsent.
  - rewrite get_assign. destruct (decide (k' = k)) as [->|]; [|done].
    f_equal. destruct (get o k) as [v|]; cbn [absent or_num operand default] in *;
      [|done].
    by rewrite Habsent.
Qed.

Lemma keys_bump64 o k x : keys (bump o k x) = create (keys o) k.
Proof.
  unfold bump. destruct (absent (get o k)).
  - by rewrite !keys_assign, create_again.
  - by rewrite keys_assign.
Qed.

Lemma get_fold_bump64 (f : string -> float) (ks : list string) o k :
  NoDup ks ->
  get (fold_left (fun acc k => bump acc k (f k)) ks o) k
  = if decide (k ∈ ks) then plus (get o k) (f k) else get o k.
Proof.
  revert o. induction ks as [|k0 ks IH]; intros o Hnd; cbn [fold_left].
  - rewrite decide_False; [done | apply not_elem_of_nil].
  - apply NoDup_cons in Hnd as [Hfresh Hnd]. rewrite (IH _ Hnd), !get_bump64.
    destruct (decide (k = k0)) as [->|Hne].
    + rewrite decide_False by done. rewrite decide_True; [done | by left].
    + destruct (decide (k ∈ ks)) as [Hin|Hnotin].
      * rewrite decide_True; [done | by right].
      * rewrite decide_False; [done|].
        intros [?|?]%elem_of_cons; congruence.
Qed.

Lemma keys_fold_bump64 (f : string -> float) (ks : list string) o :
  keys (fold_left (fun acc k => bump acc k (f k)) ks o)
  = fold_left create ks (keys o).
Proof.
  revert o. induction ks as [|k0 ks IH]; intros o; [done|].
  cbn [fold_left]. by rewrite IH, keys_bump64.
Qed.

(** *** The time map *)

Lemma get_addBet64 timeMap bet minute :
  get (addBet timeMap bet) minute
  = if decide (timeKey (placed_at bet) = minute)
    then Some (bump (default [] (get timeMap minute)) (option_id bet) (amount bet))
    else get timeMap minute.
Proof.
  unfold addBet. cbv zeta. rewrite get_set.
  destruct (decide (timeKey (placed_at bet) = minute)) as [<-|Hne].
  - unfold has. destruct (get timeMap (timeKey (placed_at bet))) eqn:E.
    + by rewrite E.
    + by rewrite get_set_eq.
  - destruct (has timeMap _); [done|]. by rewrite get_set_ne.
Qed.

Lemma keys_addBet64 timeMap bet :
  keys (addBet timeMap bet)
  = if decide (timeKey (placed_at bet) ∈ keys timeMap) then keys timeMap
    else keys timeMap ++ [timeKey (placed_at bet)].
Proof.
  unfold addBet. cbv zeta. unfold has.
  destruct (get timeMap (timeKey (placed_at bet))) eqn:E.
  - assert (timeKey (placed_at bet) ∈ keys timeMap) as Hin
        by (apply get_is_Some; eauto).
    rewrite decide_True by done. by apply keys_set_in.
  - apply get_None in E. rewrite decide_False by done.
    rewrite keys_set_in; [by apply keys_set_notin|].
    apply elem_of_keys_set. by left.
Qed.

Lemma slot_fold_addBet bets timeMap minute :
  default [] (get (fold_left addBet bets timeMap) minute)
  = fold_left
      (fun slot bet =>
         if decide (timeKey (placed_at bet) = minute)
         then bump slot (option_id bet) (amount bet) else slot)
      bets (default [] (get timeMap minute)).
Proof.
  revert timeMap. induction bets as [|bet bets IH]; intros timeMap; [done|].
  cbn [fold_left]. rewrite IH. f_equal. rewrite get_addBet64.
  by destruct (decide (timeKey (placed_at bet) = minute)).
Qed.

Lemma slot_buildTimeMap64 bets minute :
  default [] (get (buildTimeMap bets) minute) = slotOf bets minute.
Proof. apply slot_fold_addBet. Qed.

Lemma keys_fold_addBet bets timeMap :
  keys (fold_left addBet bets timeMap)
  = fold_left (fun seen x => if decide (x ∈ seen) then seen else seen ++ [x])
      (map (fun bet => timeKey (placed_at bet)) bets) (keys timeMap).
Proof.
  revert timeMap. induction bets as [|bet bets IH]; intros timeMap; [done|].
  cbn [fold_left map]. by rewrite IH, keys_addBet64.
Qed.

Lemma timeBuckets_minutes bets : timeBuckets (buildTimeMap bets) = minutes bets.
Proof.
  unfold timeBuckets, minutes, firsts, buildTimeMap.
  by rewrite keys_fold_addBet.
Qed.

(** *** The totals of one minute *)

Lemma get_slot_fold bets minute optionId slot :
  get (fold_left
         (fun slot bet =>
            if decide (timeKey (placed_at bet) = minute)
            then bump slot (option_id bet) (amount bet) else slot)
         bets slot) optionId
  = fold_left
      (fun total bet =>
         if decide (timeKey (placed_at bet) = minute /\ option_id bet = optionId)
         then plus total (amount bet) else total)
      bets (get slot optionId).
Proof.
  revert slot. induction bets as [|bet bets IH]; intros slot; [done|].
  cbn [fold_left]. rewrite IH. f_equal.
  destruct (decide (timeKey (placed_at bet) = minute)) as [Hm|Hm].
  - rewrite get_bump64.
    destruct (decide (optionId = option_id bet)) as [->|Hne].
    + by rewrite decide_True.
    + rewrite decide_False; [done|]. intros [_ ?]. congruence.
  - rewrite decide_False; [done|]. by intros [? _].
Qed.

Lemma get_slotOf bets minute optionId :
  get (slotOf bets minute) optionId = slotTotal bets minute optionId.
Proof. apply get_slot_fold. Qed.

Lemma keys_slot_fold bets minute slot :
  keys (fold_left
          (fun slot bet =>
             if decide (timeKey (placed_at bet) = minute)
             then bump slot (option_id bet) (amount bet) else slot)
          bets slot)
  = fold_left create
      (map option_id
         (filter (fun bet => timeKey (placed_at bet) = minute) bets))
      (keys slot).
Proof.
  revert slot. induction bets as [|bet bets IH]; intros slot; [done|].
  cbn [fold_left]. rewrite IH, filter_cons.
  destruct (decide (timeKey (placed_at bet) = minute)); [|done].
  cbn [map fold_left]. by rewrite keys_bump64.
Qed.

Lemma keys_slotOf bets minute : keys (slotOf bets minute) = idsIn bets minute.
Proof. apply keys_slot_fold. Qed.

Lemma NoDup_keys_slotOf bets minute : NoDup (keys (slotOf bets minute)).
Proof. rewrite keys_slotOf. apply NoDup_enumerate. Qed.

(** *** The cumulative totals *)

Lemma get_addPool64 cum slot optionId :
  NoDup (keys slot) ->
  get (addPool cum slot) optionId
  = match get slot optionId with
    | Some x => plus (get cum optionId) x
    | None => get cum optionId
    end.
Proof.
  intros Hnd. unfold addPool.
  rewrite (get_fold_bump64 (fun optionId => operand (get slot optionId))) by done.
  destruct (decide (optionId ∈ keys slot)) as [Hin|Hnotin].
  - apply get_is_Some in Hin as [x Hx]. by rewrite Hx.
  - apply get_None in Hnotin. by rewrite Hnotin.
Qed.

Lemma keys_addPool64 cum slot :
  keys (addPool cum slot) = fold_left create (keys slot) (keys cum).
Proof.
  apply (keys_fold_bump64 (fun optionId => operand (get slot optionId))).
Qed.

Lemma get_cumulative_fold bets upTo cum optionId :
  get (fold_left (fun cum minute => addPool cum (slotOf bets minute)) upTo cum)
      optionId
  = fold_left
      (fun total minute =>
         match slotTotal bets minute optionId with
         | Some x => plus total x
         | None => total
         end)
      upTo (get cum optionId).
Proof.
  revert cum. induction upTo as [|minute upTo IH]; intros cum; [done|].
  cbn [fold_left]. rewrite IH. f_equal.
  rewrite get_addPool64 by apply NoDup_keys_slotOf. by rewrite get_slotOf.
Qed.

Lemma get_cumulativeAfter bets upTo optionId :
  get (cumulativeAfter bets upTo) optionId = runningTotal bets upTo optionId.
Proof. apply get_cumulative_fold. Qed.

Lemma keys_cumulative_fold bets upTo cum :
  keys (fold_left (fun cum minute => addPool cum (slotOf bets minute)) upTo cum)
  = fold_left create (upTo ≫= idsIn bets) (keys cum).
Proof.
  revert cum. induction upTo as [|minute upTo IH]; intros cum; [done|].
  cbn [fold_left]. rewrite IH, bind_cons, fold_left_app.
  by rewrite keys_addPool64, keys_slotOf.
Qed.

Lemma keys_cumulativeAfter bets upTo :
  keys (cumulativeAfter bets upTo) = idsUpTo bets upTo.
Proof. apply keys_cumulative_fold. Qed.

Lemma sum_cumulativeAfter bets upTo :
  sum (values (cumulativeAfter bets upTo)) = runningPool bets upTo.
Proof.
  unfold runningPool. rewrite <- keys_cumulativeAfter.
  rewrite (values_keys nan)
    by (rewrite keys_cumulativeAfter; apply NoDup_enumerate).
  f_equal. apply map_ext. intros optionId.
  by rewrite get_cumulativeAfter.
Qed.

(** *** The percentages of a point *)

Lemma get_fill64 optionsData percentages optionId :
  get (fill optionsData percentages) optionId
  = match get percentages optionId with
    | Some v => Some v
    | None => if decide (optionId ∈ map id optionsData) then Some 0 else None
    end.
Proof.
  unfold fill. revert percentages.
  induction optionsData as [|option optionsData IH]; intros percentages.
  - cbn [fold_left map]. rewrite decide_False by apply not_elem_of_nil.
    by destruct (get percentages optionId).
  - cbn [fold_left map]. rewrite IH. clear IH.
    destruct (has percentages (id option)) eqn:Hhas.
    + destruct (get percentages optionId) as [v|] eqn:Hget; [done|].
      destruct (decide (optionId = id option)) as [->|Hne].
      * apply has_keys, get_is_Some in Hhas as [v Hv]. congruence.
      * destruct (decide (optionId ∈ map id optionsData)) as [Hin|Hnotin].
        -- rewrite decide_True; [done | by right].
        -- rewrite decide_False; [done|].
           intros [?|?]%elem_of_cons; congruence.
    + rewrite get_assign.
      destruct (decide (optionId = id option)) as [->|Hne].
      * assert (get percentages (id option) = None) as ->.
        { apply get_None. rewrite <- has_keys. by rewrite Hhas. }
        rewrite decide_True; [done | by left].
      * destruct (get percentages optionId) as [v|]; [done|].
        destruct (decide (optionId ∈ map id optionsData)) as [Hin|Hnotin].
        -- rewrite decide_True; [done | by right].
        -- rewrite decide_False; [done|].
           intros [?|?]%elem_of_cons; congruence.
Qed.

Lemma get_percentagesOf64 cum optionsData optionId :
  get (percentagesOf cum optionsData) optionId
  = match get cum optionId with
    | Some total => Some (roundedShare total (sum (values cum)))
    | None => if decide (optionId ∈ map id optionsData) then Some 0 else None
    end.
Proof.
  unfold percentagesOf. cbv zeta. rewrite get_fill64.
  rewrite (get_fold_assign
             (fun optionId =>
                if gt (sum (values cum)) 0
                then toFixed2 (operand (get cum optionId)
                               / sum (values cum) * 100)
                else 0)).
  destruct (decide (optionId ∈ keys cum)) as [Hin|Hnotin].
  - apply get_is_Some in Hin as [total Htotal]. by rewrite Htotal.
  - apply get_None in Hnotin. by rewrite Hnotin.
Qed.

(** *** One turn of the loop and the whole loop *)

(** The state of the loop after the turns for [upTo]: the cumulative
    object, and one point per turn, computed from the totals up to and
    including that turn and from the event row read in that turn. *)
Lemma fold_bucketStep64 db eventId bets optionsData upTo :
  let st := fold_left (bucketStep db eventId (buildTimeMap bets) optionsData)
                      upTo ([], []) in
  st.1 = cumulativeAfter bets upTo /\
  length st.2 = length upTo /\
  forall i minute,
    upTo !! i = Some minute ->
    st.2 !! i
    = Some {| timestamp := minute * 60000;
              percentages :=
                percentagesOf (cumulativeAfter bets (take (S i) upTo))
                              optionsData;
              totalPool :=
                or_num (total_pool <$> data (event_totals db i eventId))
                       (sum (values (cumulativeAfter bets (take (S i) upTo))));
              participantCount :=
                or_num (participant_count
                          <$> data (event_totals db i eventId)) 0;
              totalBets := Some (cumulativeAfter bets (take (S i) upTo));
              velocity := Some 0;
              bettingVelocity := None;
              momentum := None |}.
Proof.
  induction upTo as [|minute upTo IH] using rev_ind; intros st.
  - split; [done|]. split; [done|]. intros i minute. by rewrite lookup_nil.
  - subst st. rewrite fold_left_app. cbn [fold_left].
    destruct (fold_left _ upTo _) as [cum points] eqn:E.
    cbn [fst snd] in IH. destruct IH as (Hcum & Hlen & Hpoints).
    cbn [bucketStep fst snd]. subst cum.
    rewrite slot_buildTimeMap64.
    assert (addPool (cumulativeAfter bets upTo) (slotOf bets minute)
            = cumulativeAfter bets (upTo ++ [minute])) as ->.
    { unfold cumulativeAfter. by rewrite fold_left_app. }
    split; [done|]. split; [rewrite !length_app, Hlen; done|].
    intros i m Hi.
    destruct (decide (i < length upTo)%nat) as [Hlt|Hge].
    + rewrite lookup_app_l in Hi by done.
      rewrite lookup_app_l by lia. rewrite (Hpoints i m Hi).
      by rewrite take_app_le by lia.
    + assert (i = length upTo) as ->.
      { apply lookup_lt_Some in Hi. rewrite length_app in Hi. cbn in Hi. lia. }
      rewrite list_lookup_middle in Hi by done. injection Hi as <-.
      rewrite list_lookup_middle by done.
      rewrite take_ge by (rewrite length_app; cbn; lia).
      by rewrite Hlen.
Qed.

(** The points of [generateOptimizedHistoricalData]: one for each minute
    of the ledger, in ascending order; every one refers to the totals of
    the whole ledger. *)
Lemma historicalData_lookup64 db eventId bets optionsData i :
  (generateOptimizedHistoricalData db eventId bets optionsData).1 !! i
  = (fun minute =>
       let upTo := take (S i) (minutes bets) in
       {| timestamp := minute * 60000;
          percentages := percentagesOf (cumulativeAfter bets upTo) optionsData;
          totalPool :=
            or_num (total_pool <$> data (event_totals db i eventId))
                   (runningPool bets upTo);
          participantCount :=
            or_num (participant_count <$> data (event_totals db i eventId)) 0;
          totalBets := Some (cumulativeAfter bets (minutes bets));
          velocity := Some 0;
          bettingVelocity := None;
          momentum := None |}) <$> minutes bets !! i.
Proof.
  unfold generateOptimizedHistoricalData. rewrite timeBuckets_minutes.
  pose proof (fold_bucketStep64 db eventId bets optionsData (minutes bets))
    as Hfold.
  cbv zeta in Hfold.
  destruct (fold_left _ _ _) as [cumulativeData points].
  cbn [fst snd] in *. destruct Hfold as (-> & Hlen & Hpoints).
  rewrite list_lookup_fmap.
  destruct (minutes bets !! i) as [minute|] eqn:Hminute.
  - rewrite (Hpoints i minute Hminute). cbn. by rewrite sum_cumulativeAfter.
  - apply lookup_ge_None in Hminute.
    rewrite (proj2 (lookup_ge_None points i)) by lia. done.
Qed.

End MinuteLoopFacts.

(** ** The hourly snapshots, binary64 *)

Module HourLoopFacts.
Import PrimFloat Binary64 JsObject JsFacts ObjectFacts Hourly64 Spec64.
Local Open Scope float_scope.

Lemma fold_left_agree {A B} (f g : A -> B -> A) (l : list B) (a : A) :
  (forall a x, f a x = g a x) -> fold_left f l a = fold_left g l a.
Proof.
  intros Hfg. revert a. induction l as [|x l IH]; intros a; [done|].
  cbn [fold_left]. by rewrite Hfg, IH.
Qed.

(** A pass over the elements that a filter keeps is a pass over all
    elements that skips the others. *)
Lemma fold_left_kept {A B} (P : B -> Prop) `{forall x, Decision (P x)}
    (f : A -> B -> A) (l : list B) (a : A) :
  fold_left f (filter P l) a
  = fold_left (fun a x => if decide (P x) then f a x else a) l a.
Proof.
  revert a. induction l as [|x l IH]; intros a; [done|].
  rewrite filter_cons. cbn [fold_left].
  destruct (decide (P x)); [cbn [fold_left]|]; apply IH.
Qed.

(** A pass over a list of items, each assigning to its own key a value
    that the key determines. *)
Lemma get_fold_assign_by {X V} (key : X -> string) (f : string -> V)
    (xs : list X) (o : object V) k :
  get (fold_left (fun acc x => JsObject.set acc (key x) (f (key x))) xs o) k
  = if decide (k ∈ map key xs) then Some (f k) else get o k.
Proof.
  revert o. induction xs as [|x xs IH]; intros o; cbn [fold_left map].
  - rewrite decide_False; [done | apply not_elem_of_nil].
  - rewrite IH. destruct (decide (k ∈ map key xs)) as [Hin|Hnin].
    + rewrite decide_True; [done | by right].
    + rewrite get_assign. destruct (decide (k = key x)) as [->|Hne].
      * rewrite decide_True; [done | by left].
      * rewrite decide_False; [done|].
        intros [?|?]%elem_of_cons; congruence.
Qed.

Lemma hourlyPoints_length64 now allBets options :
  length (hourlyPoints now allBets options) = 24%nat.
Proof.
  unfold hourlyPoints.
  by rewrite (proj1 (HourFacts.fold_push_lookup
                       (hourPoint now allBets options) (countdown 24))).
Qed.

(** Point [k] of the 24 is the one pushed in turn [i = 23 - k]. *)
Lemma hourlyPoints_lookup64 now allBets options k :
  (k < 24)%nat ->
  hourlyPoints now allBets options !! k
  = Some (hourPoint now allBets options
            (take k (hourlyPoints now allBets options)) (23 - k)).
Proof.
  intros Hk. unfold hourlyPoints.
  apply (proj2 (HourFacts.fold_push_lookup
                  (hourPoint now allBets options) (countdown 24))).
  unfold countdown. rewrite reverse_lookup by (rewrite length_seq; lia).
  rewrite length_seq. apply lookup_seq. lia.
Qed.

Lemma equalPoint_eq timestamp options :
  equalPoint timestamp options
  = {| timestamp := timestamp;
       percentages :=
         fold_left
           (fun percentages option =>
              JsObject.set percentages (id option)
                           (100 / ofNat (length options)))
           options [];
       totalPool := 0;
       bettingVelocity := Some 0;
       momentum :=
         Some (fold_left
                 (fun momentum option => JsObject.set momentum (id option) 0)
                 options []) |}.
Proof.
  unfold equalPoint. cbv zeta.
  by rewrite (fold_left_pair
                (fun percentages option =>
                   JsObject.set percentages (id option)
                                (100 / ofNat (length options)))
                (fun momentum option => JsObject.set momentum (id option) 0)).
Qed.

Lemma distribution_eq64 betsUpToThisHour :
  distribution betsUpToThisHour
  = (fold_left
       (fun optionTotals bet =>
          JsObject.set optionTotals (option_id bet)
            (or_num (get optionTotals (option_id bet)) 0 + amount bet))
       betsUpToThisHour [],
     fold_left (fun totalAmount bet => totalAmount + amount bet)
               betsUpToThisHour 0).
Proof.
  unfold distribution.
  apply (fold_left_pair
           (fun optionTotals bet => JsObject.set optionTotals (option_id bet) _)
           (fun totalAmount bet => totalAmount + amount bet)).
Qed.

Lemma get_optionTotals bets start optionId :
  get (fold_left
         (fun optionTotals bet =>
            JsObject.set optionTotals (option_id bet)
              (or_num (get optionTotals (option_id bet)) 0 + amount bet))
         bets start) optionId
  = fold_left
      (fun total bet =>
         if decide (option_id bet = optionId) then plus total (amount bet)
         else total)
      bets (get start optionId).
Proof.
  revert start. induction bets as [|bet bets IH]; intros start; [done|].
  cbn [fold_left]. rewrite IH. f_equal. rewrite get_assign.
  destruct (decide (optionId = option_id bet)) as [->|Hne].
  - by rewrite decide_True.
  - by rewrite decide_False by congruence.
Qed.

Lemma totalAmount_hourPool allBets hourEnd :
  fold_left (fun totalAmount bet => totalAmount + amount bet)
            (filter (fun bet => (placed_at bet <= hourEnd)%Z) allBets) 0
  = hourPool allBets hourEnd.
Proof. apply fold_left_kept. Qed.

Lemma optionTotals_hourTotal allBets hourEnd optionId :
  get (fold_left
         (fun optionTotals bet =>
            JsObject.set optionTotals (option_id bet)
              (or_num (get optionTotals (option_id bet)) 0 + amount bet))
         (filter (fun bet => (placed_at bet <= hourEnd)%Z) allBets) [])
      optionId
  = hourTotal allBets hourEnd optionId.
Proof.
  rewrite get_optionTotals, fold_left_kept. cbn [get].
  apply fold_left_agree. intros total bet.
  destruct (decide (placed_at bet <= hourEnd)%Z) as [Hle|Hgt].
  - destruct (decide (option_id bet = optionId)) as [Hid|Hid].
    + by rewrite decide_True.
    + rewrite decide_False; [done|]. by intros [_ ?].
  - rewrite decide_False; [done|]. by intros [? _].
Qed.

Lemma hourPool_none allBets hourEnd :
  filter (fun bet => (placed_at bet <= hourEnd)%Z) allBets = [] ->
  hourPool allBets hourEnd = 0.
Proof. intros Hnone. by rewrite <- totalAmount_hourPool, Hnone. Qed.

Lemma hourPoint_timestamp64 now allBets options dataPoints i :
  timestamp (hourPoint now allBets options dataPoints i)
  = (now - Z.of_nat i * hour)%Z.
Proof.
  unfold hourPoint. destruct (filter _ allBets) as [|bet betsUpTo].
  - by rewrite equalPoint_eq.
  - by destruct (distribution _).
Qed.

(** The percentages of the point pushed in a turn: for each listed
    option the share of what the ledger staked up to the end of the hour,
    or the equal split when the pool by then is not positive. *)
Lemma hourPoint_percentages64 now allBets options dataPoints i optionId :
  let hourEnd := (now - Z.of_nat i * hour)%Z in
  get (percentages (hourPoint now allBets options dataPoints i)) optionId
  = if decide (optionId ∈ map id options)
    then Some (share (hourTotal allBets hourEnd optionId)
                     (hourPool allBets hourEnd) (length options))
    else None.
Proof.
  intros hourEnd. unfold hourPoint. fold hourEnd.
  pose proof (totalAmount_hourPool allBets hourEnd) as Hpool.
  pose proof (fun optionId => optionTotals_hourTotal allBets hourEnd optionId)
    as Htotal.
  pose proof (hourPool_none allBets hourEnd) as Hnone.
  destruct (filter _ allBets) as [|bet betsUpTo].
  - rewrite equalPoint_eq. cbn [percentages].
    rewrite (get_fold_assign_by id (fun _ => 100 / ofNat (length options))).
    unfold share. by rewrite Hnone.
  - rewrite distribution_eq64. cbn [percentages]. rewrite Hpool.
    remember
      (fold_left
         (fun optionTotals bet =>
            JsObject.set optionTotals (option_id bet)
              (or_num (get optionTotals (option_id bet)) 0 + amount bet))
         (bet :: betsUpTo) []) as optionTotals eqn:Hfold.
    rewrite (get_fold_assign_by id
               (fun optionId =>
                  if gt (hourPool allBets hourEnd) 0
                  then or_num (get optionTotals optionId) 0
                       / hourPool allBets hourEnd * 100
                  else 100 / ofNat (length options))).
    unfold share. by rewrite Htotal.
Qed.

(** *** The last major shift *)

Lemma hasShift_shift10_64 options historicalData j :
  hasShift options (historicalData !!! S j) (historicalData !!! j) = true
  <-> shift10 options historicalData (S j).
Proof.
  unfold hasShift, shift10, moved, shareOf.
  replace (S j - 1)%nat with j by lia.
  rewrite existsb_exists. split.
  - intros (option & Hin & Hgt). exists option.
    split; [by apply list_elem_of_In | done].
  - intros (option & Hin & Hgt). exists option.
    split; [by apply list_elem_of_In | done].
Qed.

Lemma scanShift_hourly64 options historicalData i :
  match scanShift options historicalData i with
  | Some t =>
      exists k, (0 < k <= i)%nat /\ shift10 options historicalData k /\
                t = timestamp (historicalData !!! k) /\
                forall j, (k < j <= i)%nat -> ~ shift10 options historicalData j
  | None => forall k, (0 < k <= i)%nat -> ~ shift10 options historicalData k
  end.
Proof.
  induction i as [|j IH]; cbn [scanShift]; [intros k; lia|].
  pose proof (hasShift_shift10_64 options historicalData j) as Hshift.
  destruct (hasShift _ _ _).
  - exists (S j). split; [lia|]. split; [by apply Hshift|].
    split; [done | intros; lia].
  - assert (~ shift10 options historicalData (S j)) as Hno.
    { intros Hs. by apply Hshift in Hs. }
    destruct (scanShift options historicalData j) as [t|].
    + destruct IH as (k & Hk & Hs & Ht & Hafter).
      exists k. split; [lia|]. split; [done|]. split; [done|].
      intros j' Hj'. destruct (decide (j' = S j)) as [->|]; [done|].
      apply Hafter. lia.
    + intros k Hk. destruct (decide (k = S j)) as [->|]; [done|].
      apply IH. lia.
Qed.

Lemma lastMajorShiftOf_hourly64 options historicalData :
  match lastMajorShiftOf options historicalData with
  | Some t =>
      exists i, Spec.mostRecent (shift10 options historicalData)
                  (length historicalData) i /\
                t = timestamp (historicalData !!! i)
  | None =>
      forall i, (0 < i < length historicalData)%nat ->
                ~ shift10 options historicalData i
  end.
Proof.
  unfold lastMajorShiftOf.
  pose proof (scanShift_hourly64 options historicalData
                (length historicalData - 1)) as Hscan.
  destruct (scanShift _ _ _) as [t|].
  - destruct Hscan as (k & Hk & Hs & Ht & Hafter).
    exists k. split; [|done]. split; [lia|]. split; [done|].
    intros j Hj. apply Hafter. lia.
  - intros i Hi. apply Hscan. lia.
Qed.

End HourLoopFacts.

(** ** Insights over binary64: the trend and the last major shift *)

Module InsightFacts64.
Import PrimFloat Binary64 JsObject JsFacts ObjectFacts Spec64.
Local Open Scope float_scope.

Lemma pct_shareOf64 point optionId :
  Minute64.pct point optionId = shareOf (Minute64.percentages point) optionId.
Proof. done. Qed.

(** A change below -2 is not above 2. *)
Lemma falling_not_rising (change : float) :
  (change <? -2) = true -> gt change 2 = false.
Proof.
  unfold gt. rewrite !FloatAxioms.ltb_spec.
  replace (FloatOps.Prim2SF 2)
    with (SpecFloat.S754_finite false 4503599627370496 (-51)) by reflexivity.
  replace (FloatOps.Prim2SF (-2))
    with (SpecFloat.S754_finite true 4503599627370496 (-51)) by reflexivity.
  destruct (FloatOps.Prim2SF change) as [s|s| |s m e]; try destruct s; done.
Qed.

(** The insight fields are those of the sub-computations. *)
Lemma insights_trend64 zone first rest historicalData bets :
  Minute64.trend
    (Minute64.calculateEnhancedInsights zone (first :: rest) historicalData bets)
  = Minute64.trendOf (Minute64.id (Minute64.leading first rest)) historicalData.
Proof.
  unfold Minute64.calculateEnhancedInsights.
  by destruct (Minute64.volatilityOf _ _).
Qed.

Lemma insights_lastMajorShift64 zone first rest historicalData bets :
  Minute64.lastMajorShift
    (Minute64.calculateEnhancedInsights zone (first :: rest) historicalData bets)
  = Minute64.lastMajorShiftOf (Minute64.localTime zone)
      (Minute64.id (Minute64.leading first rest)) historicalData.
Proof.
  unfold Minute64.calculateEnhancedInsights.
  by destruct (Minute64.volatilityOf _ _).
Qed.

(** C7, as the code has it.  The trend is Stable with fewer than three
    points (and with no option); with three or more it classifies the
    change of the leading option's share from the third-last point to the
    last, the binary64 difference of the two shares: Rising above +2,
    Falling below -2, Stable otherwise. *)
Theorem trend_third_last_to_last (zone : Minute64.Locale)
    (first : Minute64.BetOption) (rest : list Minute64.BetOption)
    (historicalData : list Minute64.AnalyticsDataPoint)
    (bets : list Minute64.BetData) :
  let leadingId := Minute64.id (Minute64.leading first rest) in
  let result :=
    Minute64.trend
      (Minute64.calculateEnhancedInsights zone (first :: rest)
         historicalData bets) in
  Minute64.trend (Minute64.calculateEnhancedInsights zone [] historicalData bets)
  = Minute.Stable /\
  ((length historicalData < 3)%nat -> result = Minute.Stable) /\
  (forall oldest latest,
      (3 <= length historicalData)%nat ->
      historicalData !! (length historicalData - 3)%nat = Some oldest ->
      last historicalData = Some latest ->
      let change := shareOf (Minute64.percentages latest) leadingId
                    - shareOf (Minute64.percentages oldest) leadingId in
      (gt change 2 = true -> result = Minute.Rising) /\
      ((change <? -2) = true -> result = Minute.Falling) /\
      (gt change 2 = false -> (change <? -2) = false ->
       result = Minute.Stable)).
Proof.
  intros leadingId result. split; [done|].
  unfold result. rewrite insights_trend64. fold leadingId.
  unfold Minute64.trendOf. split.
  - intros Hlen. by rewrite decide_False by lia.
  - intros oldest latest Hlen Hold Hlast. cbv zeta.
    rewrite decide_True by lia.
    rewrite length_fmap, length_drop, !list_lookup_fmap, !lookup_drop.
    replace (length historicalData - 3 + 0)%nat
      with (length historicalData - 3)%nat by lia.
    replace (length historicalData - 3
             + (length historicalData - (length historicalData - 3) - 1))%nat
      with (pred (length historicalData)) by lia.
    rewrite <- last_lookup, Hold, Hlast.
    cbn [fmap option_fmap option_map operand default from_option Datatypes.id].
    rewrite !pct_shareOf64.
    set (change := shareOf _ _ - shareOf _ _).
    pose proof (falling_not_rising change) as Hexclusive.
    destruct (gt change 2), (change <? -2); split_and!; try done.
    by specialize (Hexclusive eq_refl).
Qed.

Lemma trend_third_last_to_last_witness :
  Minute64.trend
    (Minute64.calculateEnhancedInsights Sample64.zone Sample64.twoOptions
       Sample64.twoMinuteSeries Sample64.twoMinutes) = Minute.Stable /\
  map (fun point => shareOf (Minute64.percentages point) "A")
      Sample64.risingSeries
  = [decimal 605 2; decimal 605 2; decimal 805 2] /\
  Minute64.trend
    (Minute64.calculateEnhancedInsights Sample64.zone Sample64.leadOptions
       Sample64.risingSeries Sample64.risingMinutes) = Minute.Rising.
Proof.
  split; [|split].
  - apply (trend_third_last_to_last Sample64.zone (Sample64.option "A" 100)
             [Sample64.option "B" 300] Sample64.twoMinuteSeries
             Sample64.twoMinutes).
    vm_compute. lia.
  - by vm_compute.
  - destruct (trend_third_last_to_last Sample64.zone
                (Sample64.option "A" 20000) [Sample64.option "B" 100]
                Sample64.risingSeries Sample64.risingMinutes)
      as (_ & _ & Hthree).
    refine (proj1 (Hthree (Sample64.risingSeries !!! 0%nat)
                          (Sample64.risingSeries !!! 2%nat) _ _ _) _);
      [vm_compute; lia | reflexivity | reflexivity | by vm_compute].
Defined.

(** C7, as the specification words it, fails on two points: the leading
    option B goes from 0 to 75 percent, which the specification calls
    Rising and the code Stable. *)
Lemma trend_of_two_points_counterexample :
  exists historicalData,
    (Minute64.generateOptimizedHistoricalData
       (Sample64.store (Sample64.event 400) Sample64.twoOptions
          Sample64.twoMinutes)
       "event" Sample64.twoMinutes Sample64.twoOptions).1 = historicalData /\
    length historicalData = 2%nat /\
    Minute64.id (Minute64.leading (Sample64.option "A" 100)
                   [Sample64.option "B" 300]) = "B" /\
    trendAsSpecified "B" historicalData = Minute.Rising /\
    Minute64.trend
      (Minute64.calculateEnhancedInsights Sample64.zone Sample64.twoOptions
         historicalData Sample64.twoMinutes) = Minute.Stable.
Proof. eexists. split; [reflexivity|]. by vm_compute. Qed.

Lemma scanShift_minute64 localTime leadingId historicalData i :
  match Minute64.scanShift localTime leadingId historicalData i with
  | Some t =>
      exists k, (0 < k <= i)%nat /\ shift5 leadingId historicalData k /\
                t = localTime (Minute64.timestamp (historicalData !!! k)) /\
                forall j, (k < j <= i)%nat -> ~ shift5 leadingId historicalData j
  | None => forall k, (0 < k <= i)%nat -> ~ shift5 leadingId historicalData k
  end.
Proof.
  induction i as [|j IH]; cbn [Minute64.scanShift]; [intros k; lia|].
  assert (shift5 leadingId historicalData (S j) <->
          gt (abs (Minute64.pct (historicalData !!! S j) leadingId
                   - Minute64.pct (historicalData !!! j) leadingId)) 5 = true)
    as Hshift.
  { unfold shift5, moved. by replace (S j - 1)%nat with j by lia. }
  destruct (gt (abs _) 5).
  - exists (S j). split; [lia|]. split; [by apply Hshift|].
    split; [done | intros; lia].
  - assert (~ shift5 leadingId historicalData (S j)) as Hno.
    { rewrite Hshift. done. }
    destruct (Minute64.scanShift localTime leadingId historicalData j) as [t|].
    + destruct IH as (k & Hk & Hs & Ht & Hafter).
      exists k. split; [lia|]. split; [done|]. split; [done|].
      intros j' Hj'. destruct (decide (j' = S j)) as [->|]; [done|].
      apply Hafter. lia.
    + intros k Hk. destruct (decide (k = S j)) as [->|]; [done|].
      apply IH. lia.
Qed.

Lemma lastMajorShiftOf_minute64 localTime leadingId historicalData :
  match Minute64.lastMajorShiftOf localTime leadingId historicalData with
  | Some t =>
      exists i, Spec.mostRecent (shift5 leadingId historicalData)
                  (length historicalData) i /\
                t = localTime (Minute64.timestamp (historicalData !!! i))
  | None =>
      forall i, (0 < i < length historicalData)%nat ->
                ~ shift5 leadingId historicalData i
  end.
Proof.
  unfold Minute64.lastMajorShiftOf.
  pose proof (scanShift_minute64 localTime leadingId historicalData
                (length historicalData - 1)) as Hscan.
  destruct (Minute64.scanShift _ _ _ _) as [t|].
  - destruct Hscan as (k & Hk & Hs & Ht & Hafter).
    exists k. split; [|done]. split; [lia|]. split; [done|].
    intros j Hj. apply Hafter. lia.
  - intros i Hi. apply Hscan. lia.
Qed.

(** C6, as the code has it.  Scanning from the most recent point to the
    oldest, [lastMajorShift] belongs to the later point of the most recent
    transition that moved, in the minute-bucketed variant, the leading
    option by more than 5 points and, in the hour-bucketed variant, any
    option by more than 10 points, the move being the magnitude of the
    binary64 difference of the two shares; it is absent when there is no
    such transition.  The hour-bucketed variant reports the point's
    instant; the minute-bucketed variant reports the instant that the
    point's timestamp, a text without a zone, names in local time. *)
Theorem lastMajorShift_latest_transition :
  (forall zone first rest historicalData bets,
      let leadingId := Minute64.id (Minute64.leading first rest) in
      match Minute64.lastMajorShift
              (Minute64.calculateEnhancedInsights zone (first :: rest)
                 historicalData bets) with
      | Some t =>
          exists i, Spec.mostRecent (shift5 leadingId historicalData)
                      (length historicalData) i /\
                    t = Minute64.localTime zone
                          (Minute64.timestamp (historicalData !!! i))
      | None =>
          forall i, (0 < i < length historicalData)%nat ->
                    ~ shift5 leadingId historicalData i
      end) /\
  (forall getHours historicalData options,
      match Hourly64.lastMajorShift
              (Hourly64.generateEventInsights getHours historicalData options)
      with
      | Some t =>
          exists i, Spec.mostRecent (shift10 options historicalData)
                      (length historicalData) i /\
                    t = Hourly64.timestamp (historicalData !!! i)
      | None =>
          forall i, (0 < i < length historicalData)%nat ->
                    ~ shift10 options historicalData i
      end).
Proof.
  split.
  - intros zone first rest historicalData bets leadingId.
    rewrite insights_lastMajorShift64.
    apply lastMajorShiftOf_minute64.
  - intros getHours historicalData options.
    unfold Hourly64.generateEventInsights.
    destruct (last historicalData) as [latestData|] eqn:Hlast,
             options as [|first rest]; cbn [Hourly64.lastMajorShift].
    + intros i _ (option & Hin & _). by apply elem_of_nil in Hin.
    + apply HourLoopFacts.lastMajorShiftOf_hourly64.
    + intros i _ (option & Hin & _). by apply elem_of_nil in Hin.
    + apply last_None in Hlast as ->. cbn [length]. intros i; lia.
Qed.

Lemma lastMajorShift_latest_transition_witness :
  (map (fun point => shareOf (Minute64.percentages point) "A")
       Sample64.shiftSeries
   = [decimal 605 2; decimal 1105 2] /\
   Minute64.lastMajorShift
     (Minute64.calculateEnhancedInsights Sample64.zone Sample64.leadOptions
        Sample64.shiftSeries Sample64.shiftMinutes)
   = Some (60000 - 7200000)%Z /\
   exists i,
     Spec.mostRecent
       (shift5 (Minute64.id (Minute64.leading (Sample64.option "A" 20000)
                               [Sample64.option "B" 100]))
               Sample64.shiftSeries)
       (length Sample64.shiftSeries) i /\
     (60000 - 7200000)%Z
     = Minute64.localTime Sample64.zone
         (Minute64.timestamp (Sample64.shiftSeries !!! i))) /\
  (Hourly64.lastMajorShift
     (Hourly64.generateEventInsights
        (Hourly64.getHours (Sample64.ambient 0)) Sample64.series3
        [Sample64.hourlyOption "a" 1; Sample64.hourlyOption "b" 2])
   = Some 3%Z /\
   exists i,
     Spec.mostRecent
       (shift10 [Sample64.hourlyOption "a" 1; Sample64.hourlyOption "b" 2]
          Sample64.series3)
       (length Sample64.series3) i /\
     3%Z = Hourly64.timestamp (Sample64.series3 !!! i)).
Proof.
  split; [split; [by vm_compute|] |]; (split; [reflexivity|]).
  - apply (proj1 lastMajorShift_latest_transition Sample64.zone
             (Sample64.option "A" 20000) [Sample64.option "B" 100]
             Sample64.shiftSeries Sample64.shiftMinutes).
  - apply (proj2 lastMajorShift_latest_transition
             (Hourly64.getHours (Sample64.ambient 0)) Sample64.series3
             [Sample64.hourlyOption "a" 1; Sample64.hourlyOption "b" 2]).
Defined.

(** C6, as the specification words it, fails in the minute-bucketed
    variant: B moves from 30 to 20 percent between the two points, more
    than 5 points, and no shift is reported, because the leading option A
    stays at 50 percent. *)
Lemma lastMajorShift_other_option_counterexample :
  exists historicalData,
    (Minute64.generateOptimizedHistoricalData
       (Sample64.store (Sample64.event 200) Sample64.threeOptions
          Sample64.swapMinutes)
       "event" Sample64.swapMinutes Sample64.threeOptions).1 = historicalData /\
    length historicalData = 2%nat /\
    moved 5 "B" (Minute64.percentages (historicalData !!! 0%nat))
                (Minute64.percentages (historicalData !!! 1%nat)) /\
    Minute64.lastMajorShift
      (Minute64.calculateEnhancedInsights Sample64.zone Sample64.threeOptions
         historicalData Sample64.swapMinutes) = None.
Proof. eexists. split; [reflexivity|]. by vm_compute. Qed.

End InsightFacts64.

(** ** The percentages of the two loops over binary64: C2 *)

Module ShareFacts64.
Import PrimFloat Binary64 JsObject JsFacts ObjectFacts Spec64.
Local Open Scope float_scope.

(** C2, as the code has it.  In the minute-bucketed loop the percentage
    of an option that has a running total at a point is that total over
    the sum of all running totals times 100, computed in binary64 and then
    rounded to two decimals, and it is 0 (not the equal split) when that
    sum is not positive; a listed option without a running total has 0.
    In the hour-bucketed loop, before smoothing, the percentage of a
    listed option is the same ratio, computed in binary64 and not rounded,
    and the equal split 100 / optionCount when the sum of the amounts is
    not positive.  The running totals and their sums are the binary64
    sums in the order in which the loops add. *)
Theorem percentages_from_running_totals :
  (forall db eventId bets optionsData i point,
      (Minute64.generateOptimizedHistoricalData db eventId bets optionsData).1
        !! i = Some point ->
      let upTo := take (S i) (minutes bets) in
      minutes bets !! i = Some (Minute64.timestamp point / 60000)%Z /\
      forall optionId,
        get (Minute64.percentages point) optionId
        = match runningTotal bets upTo optionId with
          | Some total => Some (roundedShare total (runningPool bets upTo))
          | None =>
              if decide (optionId ∈ map Minute64.id optionsData) then Some 0
              else None
          end) /\
  (forall now allBets options k point,
      Hourly64.hourlyPoints now allBets options !! k = Some point ->
      forall optionId,
        get (Hourly64.percentages point) optionId
        = if decide (optionId ∈ map Hourly64.id options)
          then Some (share (hourTotal allBets (Hourly64.timestamp point) optionId)
                           (hourPool allBets (Hourly64.timestamp point))
                           (length options))
          else None).
Proof.
  split.
  - intros db eventId bets optionsData i point.
    rewrite MinuteLoopFacts.historicalData_lookup64.
    destruct (minutes bets !! i) as [minute|]; [|done].
    cbn [fmap option_fmap option_map]. intros [= <-].
    cbn [Minute64.timestamp Minute64.percentages].
    split; [by rewrite Z.div_mul|].
    intros optionId. rewrite MinuteLoopFacts.get_percentagesOf64.
    by rewrite MinuteLoopFacts.get_cumulativeAfter,
               MinuteLoopFacts.sum_cumulativeAfter.
  - intros now allBets options k point Hpoint optionId.
    assert (k < 24)%nat as Hk.
    { apply lookup_lt_Some in Hpoint.
      by rewrite HourLoopFacts.hourlyPoints_length64 in Hpoint. }
    rewrite HourLoopFacts.hourlyPoints_lookup64 in Hpoint by done.
    injection Hpoint as <-.
    rewrite HourLoopFacts.hourPoint_timestamp64.
    apply HourLoopFacts.hourPoint_percentages64.
Qed.

Lemma percentages_from_running_totals_witness :
  get (Minute64.percentages
         ((Minute64.generateOptimizedHistoricalData
             (Sample64.store (Sample64.event 160) Sample64.eighthsOptions
                Sample64.eighths)
             "event" Sample64.eighths Sample64.eighthsOptions).1 !!! 0%nat))
      "A"
  = Some (decimal 1437 2) /\
  get (Hourly64.percentages
         (Hourly64.hourlyPoints 0 Sample64.thirds Sample64.thirdsOptions
            !!! 23%nat))
      "A"
  = Some (1 / 3 * 100).
Proof.
  split.
  - etrans;
      [apply (proj1 percentages_from_running_totals
                (Sample64.store (Sample64.event 160) Sample64.eighthsOptions
                   Sample64.eighths)
                "event" Sample64.eighths Sample64.eighthsOptions 0%nat _
                eq_refl)
      | by vm_compute].
  - rewrite (proj2 percentages_from_running_totals 0%Z Sample64.thirds
               Sample64.thirdsOptions 23%nat
               (Hourly64.hourlyPoints 0 Sample64.thirds Sample64.thirdsOptions
                  !!! 23%nat));
      by vm_compute.
Defined.

(** C2, as the specification words it, fails in both loops.  A bet of
    amount 0 makes the sum of the running totals zero, and the
    minute-bucketed loop gives both options 0, not 100 / 2.  With 1 on A
    and 2 on B the hour-bucketed loop gives A the unrounded
    33.33333333333333, not 33.33. *)
Lemma percentages_rounding_and_split_counterexample :
  (exists point,
      (Minute64.generateOptimizedHistoricalData
         (Sample64.store (Sample64.event 400) Sample64.twoOptions
            Sample64.zeroBet)
         "event" Sample64.zeroBet Sample64.twoOptions).1 = [point] /\
      runningPool Sample64.zeroBet [(Minute64.timestamp point / 60000)%Z] = 0 /\
      Minute64.percentages point = [("A", 0); ("B", 0)] /\
      100 / ofNat (length Sample64.twoOptions) = 50) /\
  (exists point,
      last (Hourly64.hourlyPoints 0 Sample64.thirds Sample64.thirdsOptions)
      = Some point /\
      get (Hourly64.percentages point) "A" = Some (1 / 3 * 100) /\
      toFixed2 (1 / 3 * 100) = decimal 3333 2 /\
      (1 / 3 * 100 =? decimal 3333 2) = false).
Proof.
  split; eexists; (split; [vm_compute; reflexivity|]);
    split_and!; by vm_compute.
Qed.

End ShareFacts64.

(** ** The facade over binary64: reproducibility *)

Module FacadeFacts64.
Import PrimFloat Binary64 JsObject JsFacts ObjectFacts Spec64.
Local Open Scope float_scope.

Lemma generateEventInsights_hours getHours1 getHours2 historicalData options :
  (forall t, getHours1 t = getHours2 t) ->
  Hourly64.generateEventInsights getHours1 historicalData options
  = Hourly64.generateEventInsights getHours2 historicalData options.
Proof.
  intros Hhours. unfold Hourly64.generateEventInsights.
  assert (Hourly64.hourlyVolumeOf getHours1 historicalData
          = Hourly64.hourlyVolumeOf getHours2 historicalData) as ->; [|done].
  unfold Hourly64.hourlyVolumeOf. apply HourLoopFacts.fold_left_agree.
  intros hourlyVolume point. by rewrite Hhours.
Qed.

Lemma generateOptimizedHistoricalData_options db eventId bets optionsData :
  (Minute64.generateOptimizedHistoricalData db eventId bets optionsData).2
  = Minute64.optionMetadata optionsData.
Proof.
  unfold Minute64.generateOptimizedHistoricalData.
  by destruct (fold_left _ _ _).
Qed.

(** The series of the minute-bucketed loop is determined by the ledger and
    by the event rows that the turns of the loop read. *)
Lemma generateOptimizedHistoricalData_reads db1 db2 eventId bets optionsData :
  (forall n, (n < length (minutes bets))%nat ->
             data (Minute64.event_totals db1 n eventId)
             = data (Minute64.event_totals db2 n eventId)) ->
  Minute64.generateOptimizedHistoricalData db1 eventId bets optionsData
  = Minute64.generateOptimizedHistoricalData db2 eventId bets optionsData.
Proof.
  intros Hreads.
  rewrite (surjective_pairing (Minute64.generateOptimizedHistoricalData db1 _ _ _)),
          (surjective_pairing (Minute64.generateOptimizedHistoricalData db2 _ _ _)).
  rewrite !generateOptimizedHistoricalData_options. f_equal.
  apply list_eq. intros i.
  rewrite !MinuteLoopFacts.historicalData_lookup64.
  destruct (minutes bets !! i) as [minute|] eqn:Hminute; [|done].
  apply lookup_lt_Some in Hminute. cbn [fmap option_fmap option_map].
  by rewrite (Hreads i Hminute).
Qed.

(** C9, as the code has it.  When the read of the bets succeeds, the
    result of the hour-bucketed [getEventAnalytics], with all its
    insights, is a function of the store, the clock and the local hours
    of the runtime: neither [Math.random] nor [Math.sin] is consulted.
    The result of the minute-bucketed [getEventAnalytics] is determined
    by the answers of the store to its reads: the bets, the event, the
    options, and the event row that each turn of the loop over the
    minutes reads anew. *)
Theorem getEventAnalytics_determined :
  (forall (db : Hourly64.Supabase) (env1 env2 : Hourly64.Ambient)
          (eventId : string),
      Hourly64.now env1 = Hourly64.now env2 ->
      (forall t, Hourly64.getHours env1 t = Hourly64.getHours env2 t) ->
      error (Hourly64.bets_of db eventId) = None ->
      Hourly64.getEventAnalytics db env1 eventId
      = Hourly64.getEventAnalytics db env2 eventId) /\
  (forall (db1 db2 : Minute64.Supabase) (zone : Minute64.Locale)
          (eventId : string),
      Minute64.bets_of db1 eventId = Minute64.bets_of db2 eventId ->
      Minute64.event_of db1 eventId = Minute64.event_of db2 eventId ->
      Minute64.options_of db1 eventId = Minute64.options_of db2 eventId ->
      (forall bets n,
          data (Minute64.bets_of db1 eventId) = Some bets ->
          (n < length (minutes bets))%nat ->
          data (Minute64.event_totals db1 n eventId)
          = data (Minute64.event_totals db2 n eventId)) ->
      Minute64.getEventAnalytics db1 zone eventId
      = Minute64.getEventAnalytics db2 zone eventId).
Proof.
  split.
  - intros db env1 env2 eventId Hnow Hhours Hread.
    unfold Hourly64.getEventAnalytics.
    destruct (error (Hourly64.event_of db eventId)),
             (data (Hourly64.event_of db eventId)); try done.
    destruct (error (Hourly64.options_of db eventId)),
             (data (Hourly64.options_of db eventId)) as [[|first rest]|];
      try done.
    unfold Hourly64.generateRealHistoricalData. rewrite Hread, Hnow.
    by rewrite (generateEventInsights_hours _ _ _ _ Hhours).
  - intros db1 db2 zone eventId Hbets Hevent Hoptions Hturns.
    unfold Minute64.getEventAnalytics. rewrite <- Hbets, <- Hevent, <- Hoptions.
    destruct (error (Minute64.bets_of db1 eventId)); [done|].
    destruct (error (Minute64.event_of db1 eventId)); [done|].
    destruct (error (Minute64.options_of db1 eventId)); [done|].
    destruct (data (Minute64.bets_of db1 eventId)) as [bets|]; [|done].
    destruct (data (Minute64.event_of db1 eventId)) as [event|]; [|done].
    destruct (data (Minute64.options_of db1 eventId)) as [optionsData|]; [|done].
    by rewrite (generateOptimizedHistoricalData_reads db1 db2 eventId bets
                  optionsData (fun n => Hturns bets n eq_refl)).
Qed.

Lemma getEventAnalytics_determined_witness :
  Hourly64.getEventAnalytics
    (Sample64.hourlyStore [Sample64.row "A" 100; Sample64.row "B" 300]
       (ok [Sample64.hourlyBet "A" 100 0; Sample64.hourlyBet "B" 300 3600000]))
    (Sample64.ambient 0) "event"
  = Hourly64.getEventAnalytics
      (Sample64.hourlyStore [Sample64.row "A" 100; Sample64.row "B" 300]
         (ok [Sample64.hourlyBet "A" 100 0;
              Sample64.hourlyBet "B" 300 3600000]))
      (Sample64.ambient (decimal 9 1)) "event" /\
  Minute64.getEventAnalytics
    (Sample64.store (Sample64.event 400) Sample64.twoOptions
       Sample64.twoMinutes)
    Sample64.zone "event"
  = Minute64.getEventAnalytics
      (Sample64.movingStore (fun n => if decide (n < 2)%nat then 400 else 700)
         Sample64.twoOptions Sample64.twoMinutes)
      Sample64.zone "event".
Proof.
  split.
  - apply (proj1 getEventAnalytics_determined); reflexivity.
  - apply (proj2 getEventAnalytics_determined); try reflexivity.
    intros bets n [= <-] Hn. vm_compute in Hn.
    destruct n as [|[|n]]; [reflexivity | reflexivity | lia].
Defined.

(** C9, as the specification words it, fails when the read of the bets
    fails: with the same store and the same clock, two runs whose
    [Math.random] draws differ return different series. *)
Lemma getEventAnalytics_fallback_counterexample :
  latestVelocity
    (Hourly64.getEventAnalytics
       (Sample64.hourlyStore [Sample64.row "A" 100; Sample64.row "B" 300]
          (failed "timeout"))
       (Sample64.ambient 0) "event") = Some 1 /\
  latestVelocity
    (Hourly64.getEventAnalytics
       (Sample64.hourlyStore [Sample64.row "A" 100; Sample64.row "B" 300]
          (failed "timeout"))
       (Sample64.ambient (decimal 9 1)) "event") = Some 5 /\
  Hourly64.getEventAnalytics
    (Sample64.hourlyStore [Sample64.row "A" 100; Sample64.row "B" 300]
       (failed "timeout"))
    (Sample64.ambient 0) "event"
  <> Hourly64.getEventAnalytics
       (Sample64.hourlyStore [Sample64.row "A" 100; Sample64.row "B" 300]
          (failed "timeout"))
       (Sample64.ambient (decimal 9 1)) "event".
Proof.
  split; [|split]; [vm_compute; reflexivity..|].
  intros Hsame. apply (f_equal latestVelocity) in Hsame.
  vm_compute in Hsame. discriminate Hsame.
Qed.

End FacadeFacts64.

(** * Further properties over binary64 *)

(** ** The minute-bucketed series *)

Module MinuteSeriesFacts64.
Import PrimFloat Binary64 JsObject JsFacts ObjectFacts Minute64 Spec64.
Local Open Scope float_scope.

(** X2.  Every point of the returned series refers to the one object
    [cumulativeData]: the [totalBets] of each point, also of the earliest,
    are the running totals over all minutes of the ledger, the binary64
    sums in the order in which the loop adds, with the option ids in
    enumeration order. *)
Theorem minute_series_totals_shared (db : Supabase) (eventId : string)
    (bets : list BetData) (optionsData : list BetOption) :
  exists totals,
    (forall point,
        point ∈ (generateOptimizedHistoricalData db eventId bets optionsData).1 ->
        totalBets point = Some totals) /\
    keys totals = idsUpTo bets (minutes bets) /\
    (forall optionId,
        get totals optionId = runningTotal bets (minutes bets) optionId).
Proof.
  exists (cumulativeAfter bets (minutes bets)). split_and!.
  - intros point [i Hi]%list_elem_of_lookup.
    rewrite MinuteLoopFacts.historicalData_lookup64 in Hi.
    destruct (minutes bets !! i); [|done]. by injection Hi as <-.
  - apply MinuteLoopFacts.keys_cumulativeAfter.
  - apply MinuteLoopFacts.get_cumulativeAfter.
Qed.

Lemma minute_series_totals_shared_witness :
  (totalBets (Sample64.hugeSeries !!! 0%nat) ≫= fun totals => get totals "A")
  = Some 9007199254740992 /\
  (totalBets (Sample64.hugeSeries !!! 1%nat) ≫= fun totals => get totals "A")
  = Some 9007199254740992.
Proof.
  destruct (minute_series_totals_shared
              (Sample64.store (Sample64.event 0) Sample64.twoOptions
                 Sample64.hugeBets)
              "event" Sample64.hugeBets Sample64.twoOptions)
    as (totals & Hshared & _ & Htotal).
  split.
  - rewrite (Hshared (Sample64.hugeSeries !!! 0%nat))
      by (apply list_elem_of_lookup; exists 0%nat; by vm_compute).
    cbn [mbind option_bind]. rewrite Htotal. by vm_compute.
  - rewrite (Hshared (Sample64.hugeSeries !!! 1%nat))
      by (apply list_elem_of_lookup; exists 1%nat; by vm_compute).
    cbn [mbind option_bind]. rewrite Htotal. by vm_compute.
Defined.

(** X4.  The [totalPool] and the [participantCount] of a point are not
    historical: they are the pool and the count of the event row that
    the turn of the point reads from the store.  Only when that read
    gives no pool (no row, or a pool of 0) does the point carry the sum
    of the running totals up to its minute, the binary64 sum in the
    enumeration order of the option ids. *)
Theorem minute_series_pool_per_turn (db : Supabase) (eventId : string)
    (bets : list BetData) (optionsData : list BetOption) (i : nat)
    (point : AnalyticsDataPoint) :
  (generateOptimizedHistoricalData db eventId bets optionsData).1 !! i
  = Some point ->
  let pool := runningPool bets (take (S i) (minutes bets)) in
  match data (event_totals db i eventId) with
  | Some event =>
      (falsy (total_pool event) = false -> totalPool point = total_pool event) /\
      (falsy (total_pool event) = true -> totalPool point = pool) /\
      participantCount point = or_num (Some (participant_count event)) 0
  | None => totalPool point = pool /\ participantCount point = 0
  end.
Proof.
  rewrite MinuteLoopFacts.historicalData_lookup64.
  destruct (minutes bets !! i) as [minute|]; [|done].
  cbn [fmap option_fmap option_map]. intros [= <-].
  cbn [totalPool participantCount].
  destruct (data (event_totals db i eventId)) as [event|];
    cbn [fmap option_fmap option_map or_num]; [|done].
  by destruct (falsy (total_pool event)).
Qed.

Lemma minute_series_pool_per_turn_witness :
  totalPool (Sample64.growingSeries !!! 0%nat) = 400 /\
  totalPool (Sample64.growingSeries !!! 1%nat) = 700 /\
  totalPool (Sample64.hugeSeries !!! 1%nat) = 9007199254740992.
Proof.
  split_and!.
  - refine (proj1 (minute_series_pool_per_turn
                     (Sample64.movingStore Sample64.growingPool
                        Sample64.twoOptions Sample64.twoMinutes)
                     "event" Sample64.twoMinutes Sample64.twoOptions 0%nat
                     (Sample64.growingSeries !!! 0%nat) _) _);
      by vm_compute.
  - refine (proj1 (minute_series_pool_per_turn
                     (Sample64.movingStore Sample64.growingPool
                        Sample64.twoOptions Sample64.twoMinutes)
                     "event" Sample64.twoMinutes Sample64.twoOptions 1%nat
                     (Sample64.growingSeries !!! 1%nat) _) _);
      by vm_compute.
  - etrans;
      [refine (proj1 (proj2 (minute_series_pool_per_turn
                               (Sample64.store (Sample64.event 0)
                                  Sample64.twoOptions Sample64.hugeBets)
                               "event" Sample64.hugeBets Sample64.twoOptions
                               1%nat (Sample64.hugeSeries !!! 1%nat) _)) _)
      |]; by vm_compute.
Defined.

End MinuteSeriesFacts64.

(** ** The hour-bucketed series *)

Module HourSeriesFacts64.
Import PrimFloat Binary64 JsObject JsFacts ObjectFacts Hourly64 Spec64.
Import HourLoopFacts.
Local Open Scope float_scope.

Lemma smoothDataPoints_length64 dataPoints :
  length (smoothDataPoints dataPoints) = length dataPoints.
Proof.
  unfold smoothDataPoints. case_decide; [done | apply length_imap].
Qed.

Lemma smoothDataPoints_lookup64 dataPoints i current :
  (3 <= length dataPoints)%nat ->
  dataPoints !! i = Some current ->
  smoothDataPoints dataPoints !! i
  = Some (if decide (i = 0 \/ i = length dataPoints - 1)%nat then current
          else smoothPoint (dataPoints !!! (i - 1)%nat) current
                           (dataPoints !!! (i + 1)%nat)).
Proof.
  intros Hlen Hi. unfold smoothDataPoints.
  rewrite decide_False by lia. by rewrite list_lookup_imap, Hi.
Qed.

Lemma smoothPoint_frame64 prev current next :
  timestamp (smoothPoint prev current next) = timestamp current /\
  totalPool (smoothPoint prev current next) = totalPool current /\
  bettingVelocity (smoothPoint prev current next) = bettingVelocity current.
Proof. unfold smoothPoint. by destruct (fold_left _ _ _). Qed.

(** A point of the smoothed loop result, and the point it was made from. *)
Lemma smoothed_hourly_lookup64 now allBets options k point :
  smoothDataPoints (hourlyPoints now allBets options) !! k = Some point ->
  (k < 24)%nat /\
  let pushed :=
    hourPoint now allBets options
      (take k (hourlyPoints now allBets options)) (23 - k) in
  timestamp point = timestamp pushed /\
  totalPool point = totalPool pushed /\
  bettingVelocity point = bettingVelocity pushed.
Proof.
  intros Hpoint.
  assert (k < 24)%nat as Hk.
  { apply lookup_lt_Some in Hpoint.
    by rewrite smoothDataPoints_length64, hourlyPoints_length64 in Hpoint. }
  split; [done|]. cbv zeta.
  pose proof (hourlyPoints_lookup64 now allBets options k Hk) as Hpushed.
  remember (hourPoint now allBets options
              (take k (hourlyPoints now allBets options)) (23 - k))
    as pushed eqn:Epushed.
  clear Epushed.
  assert (3 <= length (hourlyPoints now allBets options))%nat as Hlen
      by (rewrite hourlyPoints_length64; lia).
  rewrite (smoothDataPoints_lookup64 _ _ _ Hlen Hpushed) in Hpoint.
  destruct (decide _); injection Hpoint as <-; [done | apply smoothPoint_frame64].
Qed.

Lemma hourPoint_velocity64 now allBets options dataPoints i :
  bettingVelocity (hourPoint now allBets options dataPoints i)
  = Some (ofNat (betsInWindow allBets (now - Z.of_nat i * hour))).
Proof.
  unfold hourPoint, betsInWindow.
  set (hourEnd := (now - Z.of_nat i * hour)%Z).
  assert (filter (fun bet => (now - (Z.of_nat i + 1) * hour < placed_at bet)%Z
                             /\ (placed_at bet <= hourEnd)%Z) allBets
          = filter (fun bet => (hourEnd - hour < placed_at bet)%Z
                               /\ (placed_at bet <= hourEnd)%Z) allBets) as Hwindow.
  { apply list_filter_iff. intros bet. subst hourEnd. unfold hour. lia. }
  destruct (filter (fun bet => (placed_at bet <= hourEnd)%Z) allBets)
    as [|bet betsUpTo] eqn:Hupto.
  - rewrite equalPoint_eq. cbn [bettingVelocity].
    destruct (filter (fun bet => (hourEnd - hour < placed_at bet)%Z
                                 /\ (placed_at bet <= hourEnd)%Z) allBets)
      as [|bet inWindow] eqn:Hin; [done|].
    assert (bet ∈ filter (fun bet => (placed_at bet <= hourEnd)%Z) allBets)
      as Hbet.
    { assert (bet ∈ bet :: inWindow) as Hhere by left.
      rewrite <- Hin in Hhere.
      apply list_elem_of_filter in Hhere as [[_ Hle] Hmem].
      by apply list_elem_of_filter. }
    rewrite Hupto in Hbet. by apply elem_of_nil in Hbet.
  - destruct (distribution _). cbn [bettingVelocity].
    by rewrite Hwindow.
Qed.

Lemma hourPoint_totalPool64 now allBets options dataPoints i :
  totalPool (hourPoint now allBets options dataPoints i)
  = hourPool allBets (now - Z.of_nat i * hour).
Proof.
  unfold hourPoint. set (hourEnd := (now - Z.of_nat i * hour)%Z).
  pose proof (totalAmount_hourPool allBets hourEnd) as Hpool.
  pose proof (hourPool_none allBets hourEnd) as Hnone.
  destruct (filter _ allBets) as [|bet betsUpTo].
  - rewrite equalPoint_eq. cbn [totalPool]. by rewrite Hnone.
  - rewrite distribution_eq64. cbn [totalPool]. done.
Qed.

(** X13.  When the read of the bets succeeds with at least one bet, the
    betting velocity of every returned point is the number of bets placed
    within the hour that ends at the point's instant, and its total pool
    is the binary64 sum, in the order of the ledger, of the amounts of all
    bets placed up to that instant; smoothing changes neither. *)
Theorem real_series_velocity_and_pool64 (db : Supabase) (env : Ambient)
    (eventId : string) (options : list BetOption) (allBets : list Bet) :
  bets_of db eventId = ok allBets -> allBets <> [] ->
  forall point,
    point ∈ generateRealHistoricalData db env eventId options ->
    bettingVelocity point
    = Some (ofNat (betsInWindow allBets (timestamp point))) /\
    totalPool point = hourPool allBets (timestamp point).
Proof.
  intros Hread Hne point.
  assert (generateRealHistoricalData db env eventId options
          = smoothDataPoints (hourlyPoints (now env) allBets options)) as ->.
  { unfold generateRealHistoricalData. rewrite Hread.
    cbn [error data ok]. by destruct allBets. }
  intros [k (Hk & Hts & Hpool & Hvel)%smoothed_hourly_lookup64]%list_elem_of_lookup.
  rewrite hourPoint_timestamp64 in Hts.
  rewrite Hvel, Hpool, Hts. split.
  - apply hourPoint_velocity64.
  - apply hourPoint_totalPool64.
Qed.

Lemma real_series_velocity_and_pool64_witness :
  let env := Sample64.ambient (decimal 5 1) in
  let allBets :=
    [Sample64.hourlyBet "A" 9007199254740992 1000;
     Sample64.hourlyBet "B" 1 80000000] in
  let db := Sample64.hourlyStore [Sample64.row "A" 1; Sample64.row "B" 2]
              (ok allBets) in
  let series :=
    generateRealHistoricalData db env "event" Sample64.thirdsOptions in
  bettingVelocity (series !!! 0%nat) = Some 1 /\
  totalPool (series !!! 23%nat) = 9007199254740992.
Proof.
  cbv zeta.
  pose proof (real_series_velocity_and_pool64
                (Sample64.hourlyStore
                   [Sample64.row "A" 1; Sample64.row "B" 2]
                   (ok [Sample64.hourlyBet "A" 9007199254740992 1000;
                        Sample64.hourlyBet "B" 1 80000000]))
                (Sample64.ambient (decimal 5 1)) "event" Sample64.thirdsOptions
                [Sample64.hourlyBet "A" 9007199254740992 1000;
                 Sample64.hourlyBet "B" 1 80000000]
                eq_refl ltac:(done)) as Hpoints.
  split.
  - etrans; [apply Hpoints|]; [|clear; by vm_compute].
    apply list_elem_of_lookup. exists 0%nat. clear. by vm_compute.
  - etrans; [apply Hpoints|]; [|clear; by vm_compute].
    apply list_elem_of_lookup. exists 23%nat. clear. by vm_compute.
Defined.

End HourSeriesFacts64.

(** ** Live queries of the second revision, binary64 *)

Module LiveFacts64.
Import PrimFloat Binary64 JsObject JsFacts ObjectFacts Hourly64 Live64 LiveSpec64.
Local Open Scope float_scope.

(** A pass over a list of items with distinct keys, each assigning to
    its own key. *)
Lemma get_fold_assign_fresh {X V} (key : X -> string) (val : X -> V)
    (xs : list X) (o : object V) k :
  k ∉ map key xs ->
  get (fold_left (fun acc x => JsObject.set acc (key x) (val x)) xs o) k
  = get o k.
Proof.
  revert o. induction xs as [|x xs IH]; intros o Hnotin; [done|].
  cbn [map] in Hnotin. apply not_elem_of_cons in Hnotin as [Hne Hnotin].
  cbn [fold_left]. rewrite (IH _ Hnotin), get_assign.
  by rewrite decide_False.
Qed.

Lemma get_fold_assign_item {X V} (key : X -> string) (val : X -> V)
    (xs : list X) (o : object V) x :
  NoDup (map key xs) -> x ∈ xs ->
  get (fold_left (fun acc x => JsObject.set acc (key x) (val x)) xs o) (key x)
  = Some (val x).
Proof.
  revert o. induction xs as [|y xs IH]; intros o Hnd Hin;
    [by apply elem_of_nil in Hin|].
  cbn [map] in Hnd. apply NoDup_cons in Hnd as [Hfresh Hnd].
  cbn [fold_left]. apply elem_of_cons in Hin as [->|Hin].
  - rewrite get_fold_assign_fresh by done. rewrite get_assign.
    by rewrite decide_True.
  - by apply IH.
Qed.

(** X18.  The second revision's [getRealTimeBettingStats] fails only when
    the read of the options reports an error.  Its percentages have one
    entry per option id, in enumeration order (ids that are array indices
    first, in ascending order); with distinct ids the entry of a row is
    the binary64 share of its stored total in the sum of the stored
    totals, or the equal split when that sum is not positive.  A failed
    read of the event leaves pool and participant count at 0. *)
Theorem realtime_stats_entries (db : Supabase) (clock : nat -> Z)
    (eventId : string) (rows : list OptionRow) :
  option_stats db eventId = ok rows ->
  exists stats,
    getRealTimeBettingStats db clock eventId = inr stats /\
    rt_totalBets stats = storedTotal rows /\
    keys (rt_percentages stats) = enumerate (map row_id rows) /\
    (NoDup (map row_id rows) ->
     forall row, row ∈ rows ->
       get (rt_percentages stats) (row_id row)
       = Some (if gt (storedTotal rows) 0
               then total_bets row / storedTotal rows * 100
               else equalSplit rows)) /\
    (data (event_totals db eventId) = None ->
     rt_totalPool stats = 0 /\ rt_participantCount stats = 0).
Proof.
  intros Hread. unfold getRealTimeBettingStats. rewrite Hread.
  cbn [error data ok fmap option_fmap option_map default from_option
       Datatypes.id].
  eexists. split; [done|].
  cbn [rt_percentages rt_totalPool rt_participantCount rt_totalBets].
  fold (storedTotal rows). fold (equalSplit rows).
  split; [done|]. split; [|split].
  - destruct (gt (storedTotal rows) 0).
    + apply (keys_fold_assign row_id
               (fun _ option => total_bets option / storedTotal rows * 100)).
    + apply (keys_fold_assign row_id (fun _ _ => equalSplit rows)).
  - intros Hnd row Hin. destruct (gt (storedTotal rows) 0).
    + by apply (get_fold_assign_item row_id
                  (fun option => total_bets option / storedTotal rows * 100)).
    + by apply (get_fold_assign_item row_id (fun _ => equalSplit rows)).
  - by intros ->.
Qed.

Lemma realtime_stats_entries_witness :
  exists stats,
    getRealTimeBettingStats
      (LiveSample64.store LiveSample64.indexRows [86400000; 86400500; 10]%Z [])
      LiveSample64.clock "event" = inr stats /\
    keys (rt_percentages stats) = ["2"; "10"; "b"] /\
    get (rt_percentages stats) "b" = Some (1 / 3 * 100) /\
    sum (values (rt_percentages stats)) = 1 / 3 * 100 + 1 / 3 * 100 + 1 / 3 * 100 /\
    (1 / 3 * 100 + 1 / 3 * 100 + 1 / 3 * 100 <? 100) = true.
Proof.
  destruct (realtime_stats_entries
              (LiveSample64.store LiveSample64.indexRows
                 [86400000; 86400500; 10]%Z [])
              LiveSample64.clock "event" LiveSample64.indexRows eq_refl)
    as (stats & Hstats & _ & Hkeys & Hentries & _).
  exists stats. split; [exact Hstats|]. split; [exact Hkeys|]. split.
  - refine (Hentries _ (Sample64.row "b" 1) _).
    + apply (bool_decide_unpack (NoDup _)). vm_compute. exact I.
    + apply list_elem_of_lookup. by exists 1%nat.
  - clear -Hstats. vm_compute in Hstats. injection Hstats as <-.
    split; by vm_compute.
Defined.

(** *** Betting insights *)

Lemma elem_of_insertShift64 shift sorted other :
  other ∈ insertShift shift sorted <-> other = shift \/ other ∈ sorted.
Proof.
  induction sorted as [|head sorted IH]; cbn [insertShift].
  - rewrite list_elem_of_singleton, elem_of_nil. tauto.
  - destruct (decide _); rewrite !elem_of_cons; [rewrite IH|]; tauto.
Qed.

Lemma elem_of_newestFirst64 shifts shift :
  shift ∈ newestFirst shifts <-> shift ∈ shifts.
Proof.
  induction shifts as [|head shifts IH]; [done|].
  cbn [newestFirst foldr]. fold (newestFirst shifts).
  rewrite elem_of_insertShift64, IH, elem_of_cons. tauto.
Qed.

Lemma length_insertShift64 shift sorted :
  length (insertShift shift sorted) = S (length sorted).
Proof.
  induction sorted as [|head sorted IH]; cbn [insertShift]; [done|].
  destruct (decide _); cbn [length]; by rewrite ?IH.
Qed.

Lemma length_newestFirst64 shifts :
  length (newestFirst shifts) = length shifts.
Proof.
  induction shifts as [|head shifts IH]; [done|].
  cbn [newestFirst foldr]. fold (newestFirst shifts).
  by rewrite length_insertShift64, IH.
Qed.

Lemma insertShift_sorted64 shift sorted :
  StronglySorted newerFirst sorted ->
  StronglySorted newerFirst (insertShift shift sorted).
Proof.
  induction 1 as [|head sorted Hsorted IH Hall]; cbn [insertShift].
  - by repeat constructor.
  - rewrite Forall_forall in Hall. destruct (decide _) as [Hlt|Hge].
    + constructor; [done|]. apply Forall_forall.
      intros other [->|Hin]%elem_of_insertShift64.
      * unfold newerFirst. lia.
      * by apply Hall.
    + constructor; [by constructor; [|apply Forall_forall]|].
      apply Forall_cons. split; [unfold newerFirst; lia|].
      apply Forall_forall. intros other Hin. specialize (Hall other Hin).
      unfold newerFirst in *. lia.
Qed.

Lemma newestFirst_sorted64 shifts :
  StronglySorted newerFirst (newestFirst shifts).
Proof.
  induction shifts as [|head shifts IH]; [constructor|].
  cbn [newestFirst foldr]. by apply insertShift_sorted64.
Qed.

Lemma sorted_lookup_newer (l : list Shift) i j a b :
  StronglySorted newerFirst l -> (i < j)%nat ->
  l !! i = Some a -> l !! j = Some b -> newerFirst a b.
Proof.
  intros Hsorted. revert i j.
  induction Hsorted as [|head l Hsorted IH Hall]; intros i j Hij Hi Hj.
  - by rewrite lookup_nil in Hi.
  - rewrite Forall_forall in Hall. destruct j as [|j]; [lia|]. cbn in Hj.
    destruct i as [|i]; cbn in Hi.
    + injection Hi as ->. apply Hall, list_elem_of_lookup. by exists j.
    + apply (IH i j); [lia | done..].
Qed.

Lemma elem_of_keys_tally (allBets : list Bet) (volume : Js.obj Z float) hour :
  hour ∈ keys (fold_left (fun volume bet => tally volume (hourKey (placed_at bet)) 1)
                         allBets volume) ->
  hour ∈ keys volume \/ exists bet, bet ∈ allBets /\ hourKey (placed_at bet) = hour.
Proof.
  revert volume. induction allBets as [|bet allBets IH]; intros volume;
    cbn [fold_left]; [by left|].
  intros [Hin|(other & Hother & Hhour)]%IH.
  - unfold tally in Hin. apply elem_of_keys_set in Hin as [->|Hin].
    + right. exists bet. split; [by left | done].
    + by left.
  - right. exists other. split; [by right | done].
Qed.

(** What [volumeSurges] reports. *)
Lemma elem_of_volumeSurges64 allBets shift :
  shift ∈ volumeSurges allBets ->
  trigger shift = volume_surge /\
  shift_optionId shift = "multiple" /\
  exists bet, bet ∈ allBets /\
    shift_timestamp shift = (hourKey (placed_at bet) * 3600000)%Z.
Proof.
  unfold volumeSurges.
  pose proof (fun hour => elem_of_keys_tally allBets [] hour) as Hkeys.
  set (hourlyVolume := fold_left _ allBets []) in *.
  set (avgVolume := sum (values hourlyVolume) / _).
  intros Hin. apply list_elem_of_In, in_flat_map in Hin
    as ([hour volume] & Hentry%list_elem_of_In & Hshift%list_elem_of_In).
  destruct (gt volume (avgVolume * 3)); [|by apply elem_of_nil in Hshift].
  apply list_elem_of_singleton in Hshift as ->.
  cbn [trigger shift_optionId shift_timestamp].
  split; [done|]. split; [done|].
  assert (hour ∈ keys hourlyVolume) as Hhour
      by (apply list_elem_of_fmap; by exists (hour, volume)).
  apply Hkeys in Hhour as [[]%elem_of_nil|(bet & Hbet & <-)]. by exists bet.
Qed.

(** What [largeBets] reports. *)
Lemma elem_of_largeBets64 allBets shift :
  shift ∈ largeBets allBets ->
  trigger shift = large_bet /\
  exists bet, bet ∈ allBets /\
    shift_timestamp shift = placed_at bet /\
    shift_optionId shift = option_id bet /\
    gt (amount bet) (averageAmount allBets * 5) = true /\
    percentageChange shift
    = (amount bet - averageAmount allBets) / averageAmount allBets * 100.
Proof.
  unfold largeBets. fold (averageAmount allBets).
  intros Hin. apply list_elem_of_In, in_flat_map in Hin
    as (bet & Hbet%list_elem_of_In & Hshift%list_elem_of_In).
  destruct (gt (amount bet) (averageAmount allBets * 5)) eqn:Hover;
    [|by apply elem_of_nil in Hshift].
  apply list_elem_of_singleton in Hshift as ->.
  cbn [trigger shift_optionId shift_timestamp percentageChange].
  split; [done|]. by exists bet.
Qed.

(** X19.  The major shifts that [getBettingInsights] returns are at most
    ten, newest first.  Each of them is either a volume surge, with option
    id "multiple" and the start of an hour with bets as its instant, or a
    large bet: a bet of the ledger, with its instant and option, whose
    amount exceeds five times the average amount in binary64, the change
    reported being the binary64 value of (amount - average) / average *
    100.  The risk level fits the number returned: high with at least
    four shifts, medium with two or three, low with at most one. *)
Theorem insights_shifts_reported (db : Supabase) (getHours : Z -> nat)
    (now : Z) (eventId : string) (allBets : list Bet)
    (insights : BettingInsights) :
  active_bets db eventId = ok allBets ->
  getBettingInsights db getHours now eventId = inr insights ->
  (length (majorShifts insights) <= 10)%nat /\
  (forall i j a b,
      (i < j)%nat -> majorShifts insights !! i = Some a ->
      majorShifts insights !! j = Some b -> newerFirst a b) /\
  (forall shift, shift ∈ majorShifts insights ->
     match trigger shift with
     | volume_surge =>
         shift_optionId shift = "multiple" /\
         exists bet, bet ∈ allBets /\
           shift_timestamp shift = (hourKey (placed_at bet) * 3600000)%Z
     | large_bet =>
         exists bet, bet ∈ allBets /\
           shift_timestamp shift = placed_at bet /\
           shift_optionId shift = option_id bet /\
           gt (amount bet) (averageAmount allBets * 5) = true /\
           percentageChange shift
           = (amount bet - averageAmount allBets) / averageAmount allBets * 100
     | trend_reversal => False
     end) /\
  match riskLevel insights with
  | high => (4 <= length (majorShifts insights))%nat
  | medium => (2 <= length (majorShifts insights) <= 3)%nat
  | low => (length (majorShifts insights) <= 1)%nat
  end.
Proof.
  intros Hread Hresult.
  unfold getBettingInsights in Hresult. rewrite Hread in Hresult.
  cbn [error data ok] in Hresult.
  destruct allBets as [|bet rest].
  { injection Hresult as <-. cbn [majorShifts riskLevel length].
    split; [lia|]. split; [by intros i j a b _ ?|].
    split; [by intros shift ?%elem_of_nil | lia]. }
  injection Hresult as <-. cbn [majorShifts riskLevel].
  set (allBets := bet :: rest).
  set (found := volumeSurges allBets ++ largeBets allBets).
  assert (length (take 10 (newestFirst found))
          = Nat.min 10 (length found)) as Hlen
      by (by rewrite length_take, length_newestFirst64).
  split; [lia|]. split; [|split].
  - intros i j a b Hij [Ha _]%lookup_take_Some [Hb _]%lookup_take_Some.
    exact (sorted_lookup_newer _ i j a b (newestFirst_sorted64 found) Hij Ha Hb).
  - intros shift Hin.
    assert (shift ∈ found) as Hfound.
    { apply elem_of_newestFirst64.
      apply (subseteq_take 10 (newestFirst found)). done. }
    subst found. apply elem_of_app in Hfound as [Hsurge|Hlarge].
    + apply elem_of_volumeSurges64 in Hsurge as (-> & Hrest). exact Hrest.
    + apply elem_of_largeBets64 in Hlarge as (-> & Hrest). exact Hrest.
  - rewrite Hlen. repeat case_decide; lia.
Qed.

Lemma insights_shifts_reported_witness :
  let large :=
    {| shift_timestamp := 32400000; shift_optionId := "B";
       percentageChange := 400; trigger := large_bet |} in
  (exists insights,
      getBettingInsights
        (LiveSample64.store [] [] LiveSample64.tenths)
        (Hourly64.getHours (Sample64.ambient 0)) 86400000 "event"
      = inr insights /\
      majorShifts insights = [large] /\
      riskLevel insights = low) /\
  averageAmount LiveSample64.tenths * 5 = decimal 9 1 - 0x1p-53 /\
  exists bet, bet ∈ LiveSample64.tenths /\
    shift_timestamp large = placed_at bet /\
    shift_optionId large = option_id bet /\
    gt (amount bet) (averageAmount LiveSample64.tenths * 5) = true /\
    percentageChange large
    = (amount bet - averageAmount LiveSample64.tenths)
      / averageAmount LiveSample64.tenths * 100.
Proof.
  intros large.
  destruct (getBettingInsights
              (LiveSample64.store [] [] LiveSample64.tenths)
              (Hourly64.getHours (Sample64.ambient 0)) 86400000 "event")
    as [message|insights] eqn:Hrun; [by vm_compute in Hrun|].
  pose proof (insights_shifts_reported
                (LiveSample64.store [] [] LiveSample64.tenths)
                (Hourly64.getHours (Sample64.ambient 0)) 86400000 "event"
                LiveSample64.tenths insights eq_refl Hrun)
    as (_ & _ & Hshifts & _).
  vm_compute in Hrun. injection Hrun as <-.
  split; [eexists; split; [reflexivity|]; by split|].
  split; [by vm_compute|].
  apply (Hshifts large). apply list_elem_of_lookup. by exists 0%nat.
Defined.

End LiveFacts64.

(** ** The entries of the hour-bucketed percentages *)

Module EntryFacts64.
Import PrimFloat Binary64 JsObject JsFacts ObjectFacts Hourly64 Spec64.
Import HourLoopFacts.
Local Open Scope float_scope.
#[local] Set Warnings "-inexact-float".

Lemma before_asym k k' : before k k' = true -> before k' k = false.
Proof.
  unfold before. destruct (arrayIndex k) as [n|], (arrayIndex k') as [n'|];
    try done.
  rewrite N.ltb_lt, N.ltb_ge. lia.
Qed.

Lemma before_later k k' later :
  before k k' = true -> before later k' = false -> before later k = false.
Proof.
  unfold before.
  destruct (arrayIndex k) as [n|], (arrayIndex k') as [n'|],
           (arrayIndex later) as [m|]; try done.
  rewrite N.ltb_lt, !N.ltb_ge. lia.
Qed.

Lemma place_settled ks k : settled ks -> settled (place ks k).
Proof.
  unfold settled. induction 1 as [|k' rest Hrest IH Hall]; cbn [place].
  - by repeat constructor.
  - destruct (before k k') eqn:Hbefore.
    + constructor; [by constructor|]. apply Forall_cons.
      split; [by apply before_asym|].
      eapply Forall_impl; [exact Hall|]. intros later Hlater.
      by apply (before_later k k').
    + constructor; [done|]. apply Forall_forall.
      intros other [->|Hin]%elem_of_place; [done|].
      rewrite Forall_forall in Hall. by apply Hall.
Qed.

Lemma create_settled ks k : settled ks -> settled (create ks k).
Proof.
  unfold create. destruct (decide (k ∈ ks)); [done | apply place_settled].
Qed.

Lemma fold_create_settled created ks :
  settled ks -> settled (fold_left create created ks).
Proof.
  revert ks. induction created as [|k created IH]; intros ks Hks; [done|].
  cbn [fold_left]. by apply IH, create_settled.
Qed.

Lemma enumerate_settled created : settled (enumerate created).
Proof. apply fold_create_settled. constructor. Qed.

Lemma place_last ks k :
  Forall (fun k' => before k k' = false) ks -> place ks k = ks ++ [k].
Proof.
  induction 1 as [|k' ks Hk' Hall IH]; [done|].
  cbn [place]. by rewrite Hk', IH.
Qed.

(** Keys in enumeration order, each once, are enumerated as they are. *)
Lemma fold_create_settled_app ks pre :
  settled (pre ++ ks) -> NoDup (pre ++ ks) ->
  fold_left create ks pre = pre ++ ks.
Proof.
  revert pre. induction ks as [|k ks IH]; intros pre Hsettled Hnd.
  - by rewrite app_nil_r.
  - cbn [fold_left].
    assert (create pre k = pre ++ [k]) as ->.
    { unfold create. rewrite decide_False.
      - apply place_last, Forall_forall. intros k' Hk'.
        apply (StronglySorted_app_1_elem_of _ pre (k :: ks) k' k Hsettled Hk').
        by left.
      - apply NoDup_app in Hnd as (_ & Hdisjoint & _).
        intros Hin. apply (Hdisjoint _ Hin). by left. }
    rewrite IH; rewrite <- app_assoc; done.
Qed.

Lemma enumerate_again created : enumerate (enumerate created) = enumerate created.
Proof.
  apply (fold_create_settled_app (enumerate created) []).
  - apply enumerate_settled.
  - apply NoDup_enumerate.
Qed.

(** Assigning to keys that an object has leaves its keys as they are. *)
Lemma fold_create_present ks present :
  (forall k, k ∈ present -> k ∈ ks) -> fold_left create present ks = ks.
Proof.
  induction present as [|k present IH]; intros Hin; [done|].
  cbn [fold_left]. unfold create at 2.
  rewrite decide_True by (apply Hin; by left).
  apply IH. intros k' Hk'. apply Hin. by right.
Qed.

Lemma keys_equalPoint timestamp options :
  keys (percentages (equalPoint timestamp options)) = enumerate (map id options).
Proof.
  rewrite equalPoint_eq. cbn [percentages].
  apply (keys_fold_assign id (fun _ _ => 100 / ofNat (length options))).
Qed.

Lemma keys_hourPoint now allBets options dataPoints i :
  keys (percentages (hourPoint now allBets options dataPoints i))
  = enumerate (map id options).
Proof.
  unfold hourPoint. destruct (filter _ allBets) as [|bet betsUpTo].
  - apply keys_equalPoint.
  - destruct (distribution _) as [optionTotals totalAmount].
    cbn [percentages].
    apply (keys_fold_assign id
             (fun _ option =>
                if gt totalAmount 0
                then or_num (get optionTotals (id option)) 0 / totalAmount * 100
                else 100 / ofNat (length options))).
Qed.

Lemma keys_smoothPoint prev current next :
  keys (percentages (smoothPoint prev current next))
  = enumerate (keys (percentages current)).
Proof.
  unfold smoothPoint.
  rewrite (fold_left_pair
             (fun sp optionId =>
                JsObject.set sp optionId
                  (or_num (get (percentages prev) optionId) 0 * 0.2
                   + or_num (get (percentages current) optionId) 0 * 0.6
                   + or_num (get (percentages next) optionId) 0 * 0.2))
             (fun sm optionId =>
                JsObject.set sm optionId
                  (opt_at (momentum prev) optionId * 0.2
                   + opt_at (momentum current) optionId * 0.6
                   + opt_at (momentum next) optionId * 0.2))).
  cbn [percentages].
  rewrite (keys_fold_assign (fun optionId : string => optionId)
             (fun _ optionId =>
                or_num (get (percentages prev) optionId) 0 * 0.2
                + or_num (get (percentages current) optionId) 0 * 0.6
                + or_num (get (percentages next) optionId) 0 * 0.2)).
  by rewrite map_id.
Qed.

Lemma keys_fallback_draws env options variationFactor currentPercentages i
    n index percentages momentum :
  keys (fold_left
          (fun '(n, index, percentages, momentum) option =>
             let currentPerc := operand (get currentPercentages (id option)) in
             let baseVariation := (random env n - 0.5) * 20 * variationFactor in
             let timePattern :=
               sin env (ofNat (i + index * 2) / 6) * 10 * variationFactor in
             let historicalPerc :=
               max 5 (min 85 (currentPerc + baseVariation + timePattern)) in
             (S n, S index, JsObject.set percentages (id option) historicalPerc,
              JsObject.set momentum (id option) baseVariation))
          options (n, index, percentages, momentum)).1.2
  = fold_left create (map id options) (keys percentages).
Proof.
  revert n index percentages momentum.
  induction options as [|option options IH];
    intros n index percentages momentum; [done|].
  cbn [fold_left map]. rewrite IH. by rewrite keys_assign.
Qed.

Lemma keys_fallbackPoint env options totalBets currentPercentages n i :
  keys (percentages
          (fallbackPoint env options totalBets currentPercentages n i).2)
  = enumerate (map id options).
Proof.
  unfold fallbackPoint.
  pose proof (keys_fallback_draws env options (min (ofNat i / 12) 1)
                currentPercentages i n 0%nat [] []) as Hkeys.
  cbv zeta in Hkeys.
  destruct (fold_left _ options _) as [[[n' index] drawn] momentum].
  cbn [fst snd] in Hkeys. cbn [snd percentages].
  rewrite (keys_fold_assign (fun key : string => key)
             (fun pct key => operand (get pct key) / sum (values drawn) * 100)).
  rewrite map_id, fold_create_present by done. exact Hkeys.
Qed.

(** Every point of the fallback is one that a turn of its loop pushed. *)
Lemma elem_of_fallback env options point :
  point ∈ generateFallbackHistoricalData env options ->
  exists totalBets currentPercentages n i,
    point = (fallbackPoint env options totalBets currentPercentages n i).2.
Proof.
  unfold generateFallbackHistoricalData.
  set (totalBets := fold_left _ options 0).
  set (currentPercentages := if gt totalBets 0 then _ else _).
  generalize (countdown 24). intros turns.
  enough (forall n0 pushed,
            (forall p, p ∈ pushed ->
               exists n i,
                 p = (fallbackPoint env options totalBets currentPercentages
                                    n i).2) ->
            point ∈ (fold_left
                       (fun '(n, dataPoints) i =>
                          let '(n, point) :=
                            fallbackPoint env options totalBets
                                          currentPercentages n i in
                          (n, dataPoints ++ [point]))
                       turns (n0, pushed)).2 ->
            exists n i,
              point = (fallbackPoint env options totalBets currentPercentages
                                     n i).2) as Hgen.
  { intros Hin. destruct (Hgen 0%nat [] ltac:(by intros p ?%elem_of_nil) Hin)
      as (n & i & ->). by exists totalBets, currentPercentages, n, i. }
  induction turns as [|turn turns IH]; intros n0 pushed Hpushed; cbn [fold_left].
  - apply Hpushed.
  - destruct (fallbackPoint env options totalBets currentPercentages n0 turn)
      as [n1 pushedPoint] eqn:Hturn.
    apply IH. intros p [Hp| ->%list_elem_of_singleton]%elem_of_app.
    + by apply Hpushed.
    + exists n0, turn. by rewrite Hturn.
Qed.

Lemma keys_smoothDataPoints dataPoints created point :
  (forall p, p ∈ dataPoints -> keys (percentages p) = enumerate created) ->
  point ∈ smoothDataPoints dataPoints ->
  keys (percentages point) = enumerate created.
Proof.
  intros Hall. unfold smoothDataPoints. case_decide; [apply Hall|].
  intros [k Hk]%list_elem_of_lookup. rewrite list_lookup_imap in Hk.
  destruct (dataPoints !! k) as [current|] eqn:Hcurrent; [|done].
  assert (keys (percentages current) = enumerate created) as Hcur.
  { apply Hall, list_elem_of_lookup. by exists k. }
  cbn [fmap option_fmap option_map] in Hk. case_decide; injection Hk as <-.
  - done.
  - rewrite keys_smoothPoint, Hcur. apply enumerate_again.
Qed.

Lemma keys_hourlyPoints now allBets options point :
  point ∈ hourlyPoints now allBets options ->
  keys (percentages point) = enumerate (map id options).
Proof.
  intros [k Hk]%list_elem_of_lookup.
  assert (k < 24)%nat as Hlt.
  { apply lookup_lt_Some in Hk. by rewrite hourlyPoints_length64 in Hk. }
  rewrite hourlyPoints_lookup64 in Hk by done.
  injection Hk as <-. apply keys_hourPoint.
Qed.

Lemma keys_real_series db env eventId options point :
  point ∈ generateRealHistoricalData db env eventId options ->
  keys (percentages point) = enumerate (map id options).
Proof.
  unfold generateRealHistoricalData.
  destruct (error (bets_of db eventId)) as [message|].
  { intros (totalBets & cp & n & i & ->)%elem_of_fallback.
    apply keys_fallbackPoint. }
  assert (forall p, p ∈ generateEmptyHistoricalData (now env) options ->
                    keys (percentages p) = enumerate (map id options))
    as Hempty.
  { intros p (i & -> & _)%list_elem_of_fmap. apply keys_equalPoint. }
  destruct (data (bets_of db eventId)) as [[|bet allBets]|];
    [apply Hempty | | apply Hempty].
  apply keys_smoothDataPoints. intros p. apply keys_hourlyPoints.
Qed.

(** X14.  On every path (bets found and smoothed, no bets, failed read
    answered by the fallback) the percentages of every point that
    [generateRealHistoricalData] returns have exactly one entry per option
    id, and they list the ids in enumeration order: ids that are array
    indices first, in ascending order, then the others in the order of
    the options. *)
Theorem real_series_entries (db : Supabase) (env : Ambient)
    (eventId : string) (options : list BetOption) (point : AnalyticsDataPoint) :
  point ∈ generateRealHistoricalData db env eventId options ->
  keys (percentages point) = enumerate (map id options) /\
  NoDup (keys (percentages point)) /\
  forall optionId,
    is_Some (get (percentages point) optionId) <-> optionId ∈ map id options.
Proof.
  intros Hkeys%keys_real_series.
  split; [done|]. split.
  - rewrite Hkeys. apply NoDup_enumerate.
  - intros optionId. by rewrite get_is_Some, Hkeys, elem_of_enumerate.
Qed.

Lemma real_series_entries_witness :
  let env := Sample64.ambient (decimal 5 1) in
  let options :=
    [Sample64.hourlyOption "10" 1; Sample64.hourlyOption "b" 1;
     Sample64.hourlyOption "2" 1] in
  let db := Sample64.hourlyStore [] (ok [Sample64.hourlyBet "b" 1 0]) in
  let series := generateRealHistoricalData db env "event" options in
  keys (percentages (series !!! 5%nat)) = ["2"; "10"; "b"].
Proof.
  intros env options db series.
  etrans; [|by instantiate (1 := enumerate (map id options))].
  apply (real_series_entries db env "event" options (series !!! 5%nat)).
  apply list_elem_of_lookup. exists 5%nat. clear. by vm_compute.
Defined.

End EntryFacts64.
